(** * The view of the micro editor: viewport, clipboard commands and event dispatch

    A shallow embedding of [cmd/micro/view.go].  The [View] struct and its
    methods are translated one by one.  The code that [view.go] calls but
    that lives in other files of the editor (the cursor, the buffer, the
    undo/redo event handler, the messenger, the highlighter) and in external
    packages (clipboard, files, clock) is reached through two interfaces,
    [Extern] for the types and [Collab] for the operations; every general
    theorem holds for all their implementations.  A concrete implementation
    written after the design document is given in [Module Core] and is used
    to run the model on concrete inputs. *)

From Stdlib Require Import ZArith List String Ascii Bool Lia.
From Stdlib Require Import Floats.SpecFloat DecimalString.
From Stdlib Require DecimalPos DecimalFacts.
Import ListNotations.
Local Open Scope Z_scope.

(** ** Go numerics used by [view.go] *)

Module GoNum.

(** Go's [int] holds line numbers, columns and screen cells here; it is
    modelled by [Z].  Integer division [a / b] truncates towards zero:
    [Z.quot]. *)

(** The value that a 64-bit [int] holds when the mathematical result of
    an operation is [z].  [view.go] adds and subtracts line numbers,
    columns, sizes and steps of a few lines; on such operands the machine
    result is the mathematical one (lemma [wrap64_exact] below), and the
    model computes with the latter.  The step of [ScrollUp] and
    [ScrollDown] is an argument that any caller chooses: for these two
    methods [Module Machine] below gives the arithmetic of the machine,
    every sum and difference reduced by [wrap64]. *)
Definition wrap64 (z : Z) : Z := (z + 2 ^ 63) mod 2 ^ 64 - 2 ^ 63.

(** The smallest and the greatest [int64], and the numbers that an
    [int] can hold. *)
Definition minInt64 : Z := - 2 ^ 63.
Definition maxInt64 : Z := 2 ^ 63 - 1.

Definition int64 (z : Z) : Prop := minInt64 <= z <= maxInt64.

(** [float32]: IEEE 754 binary32, 24 bits of precision, [emax = 128]. *)
Definition prec32 : Z := 24.
Definition emax32 : Z := 128.

(** [float32(n)] for an [int] [n]: round to nearest, ties to even. *)
Definition float32_of_int (n : Z) : spec_float :=
  binary_normalize prec32 emax32 n 0 false.

Definition mul32 : spec_float -> spec_float -> spec_float := SFmul prec32 emax32.
Definition div32 : spec_float -> spec_float -> spec_float := SFdiv prec32 emax32.

(** [int(f)] for a [float32] [f]: the fraction is discarded.  For a
    NaN, an infinity and a number beyond the range of [int64] the
    language leaves the result to the implementation; the conversion
    instruction of amd64 yields the smallest [int64]. *)
Definition int_of_float32 (f : spec_float) : Z :=
  match f with
  | S754_zero _ => 0
  | S754_finite s m e =>
      let a := match e with
               | Zneg p => Z.quot (Zpos m) (2 ^ Zpos p)
               | _ => Zpos m * 2 ^ e
               end in
      let z := if s then - a else a in
      if (minInt64 <=? z) && (z <=? maxInt64) then z else minInt64
  | S754_infinity _ | S754_nan => minInt64
  end.

(** [int(float32(n) * float32(percent) / 100)], the expression of
    [Resize]. *)
Definition percent_of (n percent : Z) : Z :=
  int_of_float32
    (div32 (mul32 (float32_of_int n) (float32_of_int percent))
           (float32_of_int 100)).

(** [len(strconv.Itoa(n))] *)
Definition Itoa (n : Z) : string := NilZero.string_of_int (Z.to_int n).
Definition Itoa_len (n : Z) : Z := Z.of_nat (String.length (Itoa n)).

(** [time.Duration] is an [int64] count of nanoseconds; [Time.Sub]
    saturates at its two ends. *)
Definition maxDuration : Z := 2 ^ 63 - 1.
Definition minDuration : Z := - 2 ^ 63.
Definition Millisecond : Z := 1000000.

Definition Sub (t u : Z) : Z := Z.max minDuration (Z.min maxDuration (t - u)).

(** [string(r)] for a rune [r]: its UTF-8 encoding; a value that is not
    a valid code point gives the encoding of U+FFFD. *)
Definition byte (n : Z) : ascii := ascii_of_N (Z.to_N n).

Definition string_of_bytes (l : list Z) : string :=
  fold_right (fun b s => String (byte b) s) EmptyString l.

Definition valid_rune (r : Z) : bool :=
  (0 <=? r) && (r <=? 1114111) && negb ((55296 <=? r) && (r <=? 57343)).

Definition string_of_rune (r : Z) : string :=
  if negb (valid_rune r) then string_of_bytes [239; 191; 189]
  else if r <? 128 then string_of_bytes [r]
  else if r <? 2048 then
    string_of_bytes [Z.lor 192 (Z.shiftr r 6); Z.lor 128 (Z.land r 63)]
  else if r <? 65536 then
    string_of_bytes [Z.lor 224 (Z.shiftr r 12);
                     Z.lor 128 (Z.land (Z.shiftr r 6) 63);
                     Z.lor 128 (Z.land r 63)]
  else
    string_of_bytes [Z.lor 240 (Z.shiftr r 18);
                     Z.lor 128 (Z.land (Z.shiftr r 12) 63);
                     Z.lor 128 (Z.land (Z.shiftr r 6) 63);
                     Z.lor 128 (Z.land r 63)].

(** [strings.ToLower] on the ASCII letters.  [view.go] only compares its
    result with ["yes"] and ["y"], and no character outside ASCII has
    [y], [e] or [s] as its lower case. *)
Definition lower (c : ascii) : ascii :=
  let n := nat_of_ascii c in
  if ((65 <=? n) && (n <=? 90))%nat then ascii_of_nat (n + 32) else c.

Fixpoint ToLower (s : string) : string :=
  match s with
  | EmptyString => EmptyString
  | String c s => String (lower c) (ToLower s)
  end.

End GoNum.


Import GoNum.

(** ** Types declared outside [view.go] *)

(** The types of the collaborators whose declarations are not part of
    [view.go]: the undo/redo event handler, the highlighter's table of
    matches, the messenger (status line and prompt), the system clipboard
    and the file system. *)
Class Extern : Type := {
  EventHandler : Type;
  SyntaxMatches : Type;
  Messenger : Type;
  Clipboard : Type;
  Files : Type;
  (** the zero values that [new(View)] gives to the fields of these types *)
  nil_eh : EventHandler;
  nil_matches : SyntaxMatches
}.

(** The [Cursor] struct.  [view.go] reads and writes [x], [y],
    [lastVisualX] and [curSelection]; the pointer back to the view is
    replaced by passing the buffer and the settings to the cursor's
    methods.

    Modelled from the spec: [origSelection], the fixed edge that a word or
    line drag keeps ("keeping the original click's word/line boundary as a
    fixed anchor edge"); [view.go] never touches it. *)
Record Cursor : Type := mkCursor {
  x : Z;
  y : Z;
  lastVisualX : Z;
  curSelection : Z * Z;
  origSelection : Z * Z
}.

Definition with_x (a : Z) (c : Cursor) : Cursor :=
  mkCursor a (y c) (lastVisualX c) (curSelection c) (origSelection c).
Definition with_y (a : Z) (c : Cursor) : Cursor :=
  mkCursor (x c) a (lastVisualX c) (curSelection c) (origSelection c).
Definition with_lastVisualX (a : Z) (c : Cursor) : Cursor :=
  mkCursor (x c) (y c) a (curSelection c) (origSelection c).
Definition with_curSelection (s : Z * Z) (c : Cursor) : Cursor :=
  mkCursor (x c) (y c) (lastVisualX c) s (origSelection c).
Definition with_origSelection (s : Z * Z) (c : Cursor) : Cursor :=
  mkCursor (x c) (y c) (lastVisualX c) (curSelection c) s.

(** [c.curSelection[0] = a] and [c.curSelection[1] = a] *)
Definition set_sel0 (a : Z) (c : Cursor) : Cursor :=
  with_curSelection (a, snd (curSelection c)) c.
Definition set_sel1 (a : Z) (c : Cursor) : Cursor :=
  with_curSelection (fst (curSelection c), a) c.

(** The [Buffer] struct: [view.go] uses [lines], [path] and [name].

    Modelled from the spec: [dirty], the flag of "tracks a dirty flag". *)
Record Buffer : Type := mkBuffer {
  lines : list string;
  path : string;
  name : string;
  dirty : bool
}.

(** The fields of the global [settings] that [view.go] reads. *)
Record Settings : Type := mkSettings {
  TabsToSpaces : bool;
  TabSize : Z;
  Syntax : bool
}.

Section Model.

Context {ET : Extern}.

(** ** The [View] struct

    Times are nanoseconds counted from the zero [time.Time], so that
    [time.Time{}] is [0].  The status line holds nothing but a pointer back
    to the view and is left out. *)
Record View : Type := mkView {
  cursor : Cursor;
  topline : Z;
  leftCol : Z;
  widthPercent : Z;
  heightPercent : Z;
  width : Z;
  height : Z;
  lineNumOffset : Z;
  eh : EventHandler;
  buf : Buffer;
  mouseReleased : bool;
  lastClickTime : Z;
  doubleClick : bool;
  tripleClick : bool;
  matches : SyntaxMatches;
  lastMatches : SyntaxMatches;
  updateLines : Z * Z
}.

Definition with_cursor (a : Cursor) (v : View) : View :=
  mkView a (topline v) (leftCol v) (widthPercent v) (heightPercent v)
    (width v) (height v) (lineNumOffset v) (eh v) (buf v) (mouseReleased v)
    (lastClickTime v) (doubleClick v) (tripleClick v) (matches v)
    (lastMatches v) (updateLines v).
Definition with_topline (a : Z) (v : View) : View :=
  mkView (cursor v) a (leftCol v) (widthPercent v) (heightPercent v)
    (width v) (height v) (lineNumOffset v) (eh v) (buf v) (mouseReleased v)
    (lastClickTime v) (doubleClick v) (tripleClick v) (matches v)
    (lastMatches v) (updateLines v).
Definition with_leftCol (a : Z) (v : View) : View :=
  mkView (cursor v) (topline v) a (widthPercent v) (heightPercent v)
    (width v) (height v) (lineNumOffset v) (eh v) (buf v) (mouseReleased v)
    (lastClickTime v) (doubleClick v) (tripleClick v) (matches v)
    (lastMatches v) (updateLines v).
Definition with_percent (a b : Z) (v : View) : View :=
  mkView (cursor v) (topline v) (leftCol v) a b
    (width v) (height v) (lineNumOffset v) (eh v) (buf v) (mouseReleased v)
    (lastClickTime v) (doubleClick v) (tripleClick v) (matches v)
    (lastMatches v) (updateLines v).
Definition with_width (a : Z) (v : View) : View :=
  mkView (cursor v) (topline v) (leftCol v) (widthPercent v) (heightPercent v)
    a (height v) (lineNumOffset v) (eh v) (buf v) (mouseReleased v)
    (lastClickTime v) (doubleClick v) (tripleClick v) (matches v)
    (lastMatches v) (updateLines v).
Definition with_height (a : Z) (v : View) : View :=
  mkView (cursor v) (topline v) (leftCol v) (widthPercent v) (heightPercent v)
    (width v) a (lineNumOffset v) (eh v) (buf v) (mouseReleased v)
    (lastClickTime v) (doubleClick v) (tripleClick v) (matches v)
    (lastMatches v) (updateLines v).
Definition with_lineNumOffset (a : Z) (v : View) : View :=
  mkView (cursor v) (topline v) (leftCol v) (widthPercent v) (heightPercent v)
    (width v) (height v) a (eh v) (buf v) (mouseReleased v)
    (lastClickTime v) (doubleClick v) (tripleClick v) (matches v)
    (lastMatches v) (updateLines v).
Definition with_eh (a : EventHandler) (v : View) : View :=
  mkView (cursor v) (topline v) (leftCol v) (widthPercent v) (heightPercent v)
    (width v) (height v) (lineNumOffset v) a (buf v) (mouseReleased v)
    (lastClickTime v) (doubleClick v) (tripleClick v) (matches v)
    (lastMatches v) (updateLines v).
Definition with_buf (a : Buffer) (v : View) : View :=
  mkView (cursor v) (topline v) (leftCol v) (widthPercent v) (heightPercent v)
    (width v) (height v) (lineNumOffset v) (eh v) a (mouseReleased v)
    (lastClickTime v) (doubleClick v) (tripleClick v) (matches v)
    (lastMatches v) (updateLines v).
Definition with_mouseReleased (a : bool) (v : View) : View :=
  mkView (cursor v) (topline v) (leftCol v) (widthPercent v) (heightPercent v)
    (width v) (height v) (lineNumOffset v) (eh v) (buf v) a
    (lastClickTime v) (doubleClick v) (tripleClick v) (matches v)
    (lastMatches v) (updateLines v).
Definition with_lastClickTime (a : Z) (v : View) : View :=
  mkView (cursor v) (topline v) (leftCol v) (widthPercent v) (heightPercent v)
    (width v) (height v) (lineNumOffset v) (eh v) (buf v) (mouseReleased v)
    a (doubleClick v) (tripleClick v) (matches v)
    (lastMatches v) (updateLines v).
Definition with_doubleClick (a : bool) (v : View) : View :=
  mkView (cursor v) (topline v) (leftCol v) (widthPercent v) (heightPercent v)
    (width v) (height v) (lineNumOffset v) (eh v) (buf v) (mouseReleased v)
    (lastClickTime v) a (tripleClick v) (matches v)
    (lastMatches v) (updateLines v).
Definition with_tripleClick (a : bool) (v : View) : View :=
  mkView (cursor v) (topline v) (leftCol v) (widthPercent v) (heightPercent v)
    (width v) (height v) (lineNumOffset v) (eh v) (buf v) (mouseReleased v)
    (lastClickTime v) (doubleClick v) a (matches v)
    (lastMatches v) (updateLines v).
Definition with_matches (a : SyntaxMatches) (v : View) : View :=
  mkView (cursor v) (topline v) (leftCol v) (widthPercent v) (heightPercent v)
    (width v) (height v) (lineNumOffset v) (eh v) (buf v) (mouseReleased v)
    (lastClickTime v) (doubleClick v) (tripleClick v) a
    (lastMatches v) (updateLines v).
Definition with_updateLines (a : Z * Z) (v : View) : View :=
  mkView (cursor v) (topline v) (leftCol v) (widthPercent v) (heightPercent v)
    (width v) (height v) (lineNumOffset v) (eh v) (buf v) (mouseReleased v)
    (lastClickTime v) (doubleClick v) (tripleClick v) (matches v)
    (lastMatches v) a.

(** [len(v.buf.lines)] *)
Definition numLines (v : View) : Z := Z.of_nat (List.length (lines (buf v))).

(** ** The viewport methods that need no collaborator *)

(** [UpdateLines] sets the values for [v.updateLines]. *)
Definition UpdateLines (start end_ : Z) (v : View) : View :=
  with_updateLines (start, end_ + 1) v.

(** [Resize] recalculates the actual width and height of the view from
    the width and height percentages. *)
Definition Resize (w h : Z) (v : View) : View :=
  let h := h - 1 in
  let v := with_width (percent_of w (widthPercent v)) v in
  with_height (percent_of h (heightPercent v) - 1) v.

(** [ScrollUp] scrolls the view up [n] lines (if possible).  The
    difference is the mathematical one; it is the one of the machine
    when [topline] and [topline - n] are within [int64] (lemma
    [ScrollUp_machine]). *)
Definition ScrollUp (n : Z) (v : View) : View :=
  if topline v - n >=? 0 then with_topline (topline v - n) v
  else if topline v >? 0 then with_topline (topline v - 1) v
  else v.

(** [ScrollDown] scrolls the view down [n] lines (if possible).  The
    sum is the mathematical one; it is the one of the machine when
    [topline], [topline + n] and [len(v.buf.lines) - height] are within
    [int64] (lemma [ScrollDown_machine]). *)
Definition ScrollDown (n : Z) (v : View) : View :=
  if topline v + n <=? numLines v - height v then with_topline (topline v + n) v
  else if topline v <? numLines v - height v then with_topline (topline v + 1) v
  else v.

(** [PageUp] scrolls the view up a page. *)
Definition PageUp (v : View) : View :=
  if topline v >? height v then ScrollUp (height v) v
  else with_topline 0 v.

(** [PageDown] scrolls the view down a page. *)
Definition PageDown (v : View) : View :=
  if numLines v - (topline v + height v) >? height v then ScrollDown (height v) v
  else if numLines v >=? height v then with_topline (numLines v - height v) v
  else v.

(** [HalfPageUp] scrolls the view up half a page. *)
Definition HalfPageUp (v : View) : View :=
  if topline v >? Z.quot (height v) 2 then ScrollUp (Z.quot (height v) 2) v
  else with_topline 0 v.

(** [HalfPageDown] scrolls the view down half a page. *)
Definition HalfPageDown (v : View) : View :=
  if numLines v - (topline v + height v) >? Z.quot (height v) 2
  then ScrollDown (Z.quot (height v) 2) v
  else if numLines v >=? height v then with_topline (numLines v - height v) v
  else v.

(** The value that [DisplayView] stores in [v.lineNumOffset] before it
    draws: the number of digits of the last line number, plus one for the
    space after it. *)
Definition gutterWidth (v : View) : Z := Itoa_len (numLines v) + 1.


(** ** Global state and collaborators *)

(** The process-wide variables that [view.go] reads and writes.  [now] is
    the reading of the wall clock while the current event is handled. *)
Record Globals : Type := mkGlobals {
  settings : Settings;
  messenger : Messenger;
  clipboard : Clipboard;
  files : Files;
  searchStart : Z;
  lastSearch : string;
  now : Z;
  screenSize : Z * Z
}.

Definition with_messenger (a : Messenger) (g : Globals) : Globals :=
  mkGlobals (settings g) a (clipboard g) (files g) (searchStart g)
    (lastSearch g) (now g) (screenSize g).
Definition with_clipboard (a : Clipboard) (g : Globals) : Globals :=
  mkGlobals (settings g) (messenger g) a (files g) (searchStart g)
    (lastSearch g) (now g) (screenSize g).
Definition with_files (a : Files) (g : Globals) : Globals :=
  mkGlobals (settings g) (messenger g) (clipboard g) a (searchStart g)
    (lastSearch g) (now g) (screenSize g).
Definition with_searchStart (a : Z) (g : Globals) : Globals :=
  mkGlobals (settings g) (messenger g) (clipboard g) (files g) a
    (lastSearch g) (now g) (screenSize g).
Definition with_now (a : Z) (g : Globals) : Globals :=
  mkGlobals (settings g) (messenger g) (clipboard g) (files g) (searchStart g)
    (lastSearch g) a (screenSize g).

Record World : Type := mkWorld {
  view : View;
  glob : Globals
}.

(** What the cursor's and the event handler's methods work on: the
    cursor, the buffer and the undo/redo log of one view. *)
Definition Editing : Type := (Cursor * Buffer * EventHandler)%type.

(** The operations that [view.go] calls and that are defined elsewhere.
    A method of [*Cursor] receives the settings and the buffer it reaches
    through its view; none of them is given the viewport. *)
Class Collab : Type := {
  (** cursor *)
  HasSelection : Cursor -> bool;
  GetSelection : Buffer -> Cursor -> string;
  ResetSelection : Cursor -> Cursor;
  DeleteSelection : Settings -> Editing -> Editing;
  Loc : Buffer -> Cursor -> Z;
  SetLoc : Z -> Settings -> Buffer -> Cursor -> Cursor;
  Up : Settings -> Buffer -> Cursor -> Cursor;
  Down : Settings -> Buffer -> Cursor -> Cursor;
  Left : Settings -> Buffer -> Cursor -> Cursor;
  Right : Settings -> Buffer -> Cursor -> Cursor;
  GetVisualX : Settings -> Buffer -> Cursor -> Z;
  GetCharPosInLine : Settings -> Buffer -> Cursor -> Z -> Z -> Z;
  SelectWord : Settings -> Buffer -> Cursor -> Cursor;
  SelectLine : Settings -> Buffer -> Cursor -> Cursor;
  AddWordToSelection : Settings -> Buffer -> Cursor -> Cursor;
  AddLineToSelection : Settings -> Buffer -> Cursor -> Cursor;
  (** undo/redo event handler *)
  NewEventHandler : View -> EventHandler;
  eh_Insert : Z -> string -> Settings -> Editing -> Editing;
  eh_Remove : Z -> Z -> Settings -> Editing -> Editing;
  eh_Undo : Settings -> Editing -> Editing;
  eh_Redo : Settings -> Editing -> Editing;
  (** buffer *)
  NewBuffer : string -> string -> Buffer;
  Buffer_Len : Buffer -> Z;
  Buffer_IsDirty : Buffer -> bool;
  Buffer_Save : Buffer -> Files -> option string * Buffer * Files;
  (** helpers *)
  Count : string -> Z;
  ToCharPos : Z -> Z -> Buffer -> Z;
  Spaces : Z -> string;
  (** highlighter and search *)
  Match : View -> SyntaxMatches;
  BeginSearch : World -> World;
  Search : string -> bool -> World -> World;
  (** messenger *)
  messenger_Error : string -> Messenger -> Messenger;
  messenger_Message : string -> Messenger -> Messenger;
  messenger_Prompt : string -> Messenger -> (string * bool) * Messenger;
  (** clipboard and file system *)
  clipboard_Unsupported : Clipboard -> bool;
  clipboard_WriteAll : string -> Clipboard -> Clipboard;
  clipboard_ReadAll : Clipboard -> string;
  ReadFile : string -> Files -> string + string;
  (** the constant of the multi-click detection, in milliseconds *)
  doubleClickThreshold : Z
}.

Context {CO : Collab}.

(** ** A state monad with run-time panics

    The methods that touch the globals are computations over [World]; the
    result [None] is a Go run-time panic (an index out of range). *)
Definition M (A : Type) : Type := World -> option (A * World).

Definition ret {A : Type} (a : A) : M A := fun w => Some (a, w).

Definition bind {A B : Type} (m : M A) (k : A -> M B) : M B :=
  fun w => match m w with
           | Some (a, w') => k a w'
           | None => None
           end.

Notation "x <- m ;; k" := (bind m (fun x => k))
  (at level 61, m at next level, right associativity).
Notation "m ;; k" := (bind m (fun _ => k))
  (at level 61, right associativity).

Definition gets {A : Type} (f : World -> A) : M A := fun w => Some (f w, w).
Definition modify (f : World -> World) : M unit := fun w => Some (tt, f w).
Definition try_view (f : View -> option View) : M unit :=
  fun w => match f (view w) with
           | Some v => Some (tt, mkWorld v (glob w))
           | None => None
           end.
Definition when (b : bool) (m : M unit) : M unit := if b then m else ret tt.

Fixpoint repeatM (n : nat) (m : M unit) : M unit :=
  match n with
  | O => ret tt
  | S n => m ;; repeatM n m
  end.

(** State of the result of a run, when it did not panic. *)
Definition exec (m : M unit) (w : World) : option World :=
  option_map snd (m w).

(** *** Access to the parts of the world *)

Definition on_view (f : View -> View) : M unit :=
  modify (fun w => mkWorld (f (view w)) (glob w)).
Definition on_glob (f : Globals -> Globals) : M unit :=
  modify (fun w => mkWorld (view w) (f (glob w))).
Definition on_cursor (f : Cursor -> Cursor) : M unit :=
  on_view (fun v => with_cursor (f (cursor v)) v).
Definition on_buf (f : Buffer -> Buffer) : M unit :=
  on_view (fun v => with_buf (f (buf v)) v).

Definition editing_of (v : View) : Editing := (cursor v, buf v, eh v).
Definition with_editing (e : Editing) (v : View) : View :=
  with_eh (snd e) (with_buf (snd (fst e)) (with_cursor (fst (fst e)) v)).

(** A cursor method that moves or selects: [v.cursor.m()]. *)
Definition cursor_call (m : Settings -> Buffer -> Cursor -> Cursor) : M unit :=
  modify (fun w =>
    let v := view w in
    mkWorld (with_cursor (m (settings (glob w)) (buf v) (cursor v)) v) (glob w)).

(** A method that edits the buffer through the event handler. *)
Definition editing_call (m : Settings -> Editing -> Editing) : M unit :=
  modify (fun w =>
    let v := view w in
    mkWorld (with_editing (m (settings (glob w)) (editing_of v)) v) (glob w)).

Definition cursor_HasSelection : M bool :=
  gets (fun w => HasSelection (cursor (view w))).
Definition cursor_GetSelection : M string :=
  gets (fun w => GetSelection (buf (view w)) (cursor (view w))).
Definition cursor_Loc : M Z :=
  gets (fun w => Loc (buf (view w)) (cursor (view w))).
Definition cursor_GetVisualX : M Z :=
  gets (fun w => GetVisualX (settings (glob w)) (buf (view w)) (cursor (view w))).
Definition the_settings : M Settings := gets (fun w => settings (glob w)).

Definition Error (msg : string) : M unit :=
  on_glob (fun g => with_messenger (messenger_Error msg (messenger g)) g).
Definition Message (msg : string) : M unit :=
  on_glob (fun g => with_messenger (messenger_Message msg (messenger g)) g).
Definition Prompt (msg : string) : M (string * bool) :=
  fun w =>
    let '(r, m) := messenger_Prompt msg (messenger (glob w)) in
    Some (r, mkWorld (view w) (with_messenger m (glob w))).

(** [v.UpdateLines(v.topline, v.topline+v.height)] *)
Definition updateViewport : M unit :=
  on_view (fun v => UpdateLines (topline v) (topline v + height v) v).
(** [v.UpdateLines(v.cursor.y, v.cursor.y)] *)
Definition updateCursorLine : M unit :=
  on_view (fun v => UpdateLines (y (cursor v)) (y (cursor v)) v).
(** [v.cursor.lastVisualX = v.cursor.GetVisualX()] *)
Definition storeVisualX : M unit :=
  vx <- cursor_GetVisualX ;; on_cursor (with_lastVisualX vx).


(** ** The methods of [View] *)

(** [CanClose] returns whether or not the view can be closed: if there
    are unsaved changes, the user is asked. *)
Definition CanClose (msg : string) : M bool :=
  isDirty <- gets (fun w => Buffer_IsDirty (buf (view w))) ;;
  if isDirty then
    r <- Prompt ("You have unsaved changes. " ++ msg) ;;
    let '(quit, canceled) := r in
    if negb canceled then
      if (ToLower quit =? "yes")%string || (ToLower quit =? "y")%string
      then ret true
      else ret false
    else ret false
  else ret true.

(** [Save] the buffer to disk. *)
Definition Save : M unit :=
  p <- gets (fun w => path (buf (view w))) ;;
  go <- (if (p =? "")%string then
           r <- Prompt "Filename: " ;;
           let '(filename, canceled) := r in
           if negb canceled then
             on_buf (fun b => mkBuffer (lines b) filename (name b) (dirty b)) ;;
             on_buf (fun b => mkBuffer (lines b) (path b) filename (dirty b)) ;;
             ret true
           else ret false
         else ret true) ;;
  if go then
    err <- (fun w =>
              let '(e, b, fs) := Buffer_Save (buf (view w)) (files (glob w)) in
              Some (e, mkWorld (with_buf b (view w)) (with_files fs (glob w)))) ;;
    match err with
    | Some e => Error e
    | None => p <- gets (fun w => path (buf (view w))) ;; Message ("Saved " ++ p)
    end
  else ret tt.

(** [Copy] the selection to the system clipboard. *)
Definition Copy : M unit :=
  sel <- cursor_HasSelection ;;
  if sel then
    unsupported <- gets (fun w => clipboard_Unsupported (clipboard (glob w))) ;;
    if negb unsupported then
      text <- cursor_GetSelection ;;
      on_glob (fun g => with_clipboard (clipboard_WriteAll text (clipboard g)) g)
    else
      Error "Clipboard is not supported on your system"
  else ret tt.

(** [Cut] the selection to the system clipboard. *)
Definition Cut : M unit :=
  sel <- cursor_HasSelection ;;
  if sel then
    unsupported <- gets (fun w => clipboard_Unsupported (clipboard (glob w))) ;;
    if negb unsupported then
      text <- cursor_GetSelection ;;
      on_glob (fun g => with_clipboard (clipboard_WriteAll text (clipboard g)) g) ;;
      editing_call DeleteSelection ;;
      on_cursor ResetSelection
    else
      Error "Clipboard is not supported on your system"
  else ret tt.

(** [Paste] whatever is in the system clipboard into the buffer; delete
    and paste if the user has a selection. *)
Definition Paste : M unit :=
  unsupported <- gets (fun w => clipboard_Unsupported (clipboard (glob w))) ;;
  if negb unsupported then
    sel <- cursor_HasSelection ;;
    when sel (editing_call DeleteSelection ;; on_cursor ResetSelection) ;;
    clip <- gets (fun w => clipboard_ReadAll (clipboard (glob w))) ;;
    loc <- cursor_Loc ;;
    editing_call (eh_Insert loc clip) ;;
    loc <- cursor_Loc ;;
    cursor_call (SetLoc (loc + Count clip))
  else
    Error "Clipboard is not supported on your system".

(** [SelectAll] selects the entire buffer. *)
Definition SelectAll (v : View) : View :=
  let v := with_cursor (set_sel1 0 (cursor v)) v in
  let v := with_cursor (set_sel0 (Buffer_Len (buf v)) (cursor v)) v in
  (* Put the cursor at the beginning *)
  let v := with_cursor (with_x 0 (cursor v)) v in
  with_cursor (with_y 0 (cursor v)) v.

(** [OpenFile] opens a new file in the current view, after making sure
    that the current buffer can be closed. *)
Definition OpenFile : M unit :=
  ok <- CanClose "Continue? " ;;
  if ok then
    r <- Prompt "File to open: " ;;
    let '(filename, canceled) := r in
    if canceled then ret tt
    else
      file <- gets (fun w => ReadFile filename (files (glob w))) ;;
      match file with
      | inr err => Error err
      | inl content => on_view (with_buf (NewBuffer content filename))
      end
  else ret tt.

(** [Relocate] moves the view window so that the cursor is in view; the
    result tells whether a branch that moves it was taken. *)
Definition Relocate (s : Settings) (v : View) : bool * View :=
  let ret := false in
  let cy := y (cursor v) in
  let '(ret, v) :=
    if cy <? topline v then (true, with_topline cy v) else (ret, v) in
  let '(ret, v) :=
    if cy >? topline v + height v - 1
    then (true, with_topline (cy - height v + 1) v) else (ret, v) in
  let cx := GetVisualX s (buf v) (cursor v) in
  let '(ret, v) :=
    if cx <? leftCol v then (true, with_leftCol cx v) else (ret, v) in
  let '(ret, v) :=
    if cx + lineNumOffset v + 1 >? leftCol v + width v
    then (true, with_leftCol (cx - width v + lineNumOffset v + 1) v)
    else (ret, v) in
  (ret, v).

(** [MoveToMouseClick] moves the cursor to location [x], [y] assuming
    [x], [y] were given by a mouse click.  [v.buf.lines[y]] panics when
    [y] is not an index of the line table. *)
Definition MoveToMouseClick (s : Settings) (x0 y0 : Z) (v : View) : option View :=
  let '(v, y0) :=
    if y0 - topline v >? height v - 1
    then let v := ScrollDown 1 v in (v, height v + topline v - 1)
    else (v, y0) in
  let y0 := if y0 >=? numLines v then numLines v - 1 else y0 in
  let y0 := if y0 <? 0 then 0 else y0 in
  let x0 := if x0 <? 0 then 0 else x0 in
  let x0 := GetCharPosInLine s (buf v) (cursor v) y0 x0 in
  match nth_error (lines (buf v)) (Z.to_nat y0) with
  | None => None
  | Some line =>
      let x0 := if x0 >? Count line then Count line else x0 in
      let v := with_cursor (with_x x0 (cursor v)) v in
      let v := with_cursor (with_y y0 (cursor v)) v in
      Some (with_cursor
              (with_lastVisualX (GetVisualX s (buf v) (cursor v)) (cursor v)) v)
  end.


(** ** Events *)

(** The keys that [HandleEvent] distinguishes; [KeyOther] is any key
    without a case of its own. *)
Inductive Key : Type :=
| KeyUp | KeyDown | KeyLeft | KeyRight
| KeyEnter | KeySpace | KeyBackspace2 | KeyBackspace | KeyTab
| KeyCtrlS | KeyCtrlF | KeyCtrlN | KeyCtrlP
| KeyCtrlZ | KeyCtrlY | KeyCtrlC | KeyCtrlX | KeyCtrlV | KeyCtrlA | KeyCtrlO
| KeyHome | KeyEnd | KeyPgUp | KeyPgDn | KeyCtrlU | KeyCtrlD
| KeyRune
| KeyOther.

(** The button masks that [HandleEvent] distinguishes. *)
Inductive Button : Type :=
| Button1 | ButtonNone | WheelUp | WheelDown | ButtonOther.

(** A terminal event: a resize with the new size, a key with its rune, a
    mouse event with its cell and buttons, or an event of another type. *)
Inductive Event : Type :=
| EventResize (w h : Z)
| EventKey (k : Key) (r : Z)
| EventMouse (x y : Z) (b : Button)
| EventOther.

(** [if v.cursor.HasSelection() { v.cursor.DeleteSelection();
    v.cursor.ResetSelection() }], the opening of the editing cases. *)
Definition deleteSelected : M unit :=
  editing_call DeleteSelection ;; on_cursor ResetSelection.

(** [searchStart = ...] of the three search keys *)
Definition setSearchStart (sel : Z * Z -> Z) : M unit :=
  has <- cursor_HasSelection ;;
  start <- (if has then gets (fun w => sel (curSelection (cursor (view w))))
            else gets (fun w => ToCharPos (x (cursor (view w)))
                                  (y (cursor (view w))) (buf (view w)))) ;;
  on_glob (with_searchStart start).

(** The inner [switch e.Key()] of [HandleEvent]; the result is the value
    of the local variable [relocate] after the case. *)
Definition handleKey (k : Key) (r : Z) : M bool :=
  match k with
  | KeyUp => on_cursor ResetSelection ;; cursor_call Up ;; ret true
  | KeyDown => on_cursor ResetSelection ;; cursor_call Down ;; ret true
  | KeyLeft => on_cursor ResetSelection ;; cursor_call Left ;; ret true
  | KeyRight => on_cursor ResetSelection ;; cursor_call Right ;; ret true
  | KeyEnter =>
      (* Insert a newline *)
      has <- cursor_HasSelection ;;
      when has deleteSelected ;;
      loc <- cursor_Loc ;;
      editing_call (eh_Insert loc (string_of_bytes [10])) ;;
      cursor_call Right ;;
      (* Rehighlight the entire buffer *)
      updateViewport ;;
      storeVisualX ;;
      ret true
  | KeySpace =>
      (* Insert a space *)
      has <- cursor_HasSelection ;;
      when has deleteSelected ;;
      loc <- cursor_Loc ;;
      editing_call (eh_Insert loc " ") ;;
      cursor_call Right ;;
      updateCursorLine ;;
      ret true
  | KeyBackspace2 | KeyBackspace =>
      (* Delete a character *)
      has <- cursor_HasSelection ;;
      loc <- cursor_Loc ;;
      (if has then
         deleteSelected ;;
         (* Rehighlight the entire buffer *)
         updateViewport
       else if loc >? 0 then
         cursor_call Left ;;
         cx <- gets (fun w => x (cursor (view w))) ;;
         cy <- gets (fun w => y (cursor (view w))) ;;
         cursor_call Right ;;
         loc <- cursor_Loc ;;
         editing_call (eh_Remove (loc - 1) loc) ;;
         on_cursor (with_x cx) ;;
         on_cursor (with_y cy) ;;
         (* Rehighlight the entire buffer *)
         updateViewport
       else ret tt) ;;
      storeVisualX ;;
      ret true
  | KeyTab =>
      (* Insert a tab *)
      has <- cursor_HasSelection ;;
      when has deleteSelected ;;
      s <- the_settings ;;
      loc <- cursor_Loc ;;
      (if TabsToSpaces s then
         editing_call (eh_Insert loc (Spaces (TabSize s))) ;;
         repeatM (Z.to_nat (TabSize s)) (cursor_call Right)
       else
         editing_call (eh_Insert loc (string_of_bytes [9])) ;;
         cursor_call Right) ;;
      updateCursorLine ;;
      ret true
  | KeyCtrlS => Save ;; ret true
  | KeyCtrlF => setSearchStart snd ;; modify BeginSearch ;; ret true
  | KeyCtrlN =>
      setSearchStart snd ;;
      last <- gets (fun w => lastSearch (glob w)) ;;
      Message ("Find: " ++ last) ;;
      last <- gets (fun w => lastSearch (glob w)) ;;
      modify (Search last true) ;;
      ret true
  | KeyCtrlP =>
      setSearchStart fst ;;
      last <- gets (fun w => lastSearch (glob w)) ;;
      Message ("Find: " ++ last) ;;
      last <- gets (fun w => lastSearch (glob w)) ;;
      modify (Search last false) ;;
      ret true
  | KeyCtrlZ =>
      editing_call eh_Undo ;;
      (* Rehighlight the entire buffer *)
      updateViewport ;; ret true
  | KeyCtrlY =>
      editing_call eh_Redo ;;
      (* Rehighlight the entire buffer *)
      updateViewport ;; ret true
  | KeyCtrlC => Copy ;; updateViewport ;; ret true
  | KeyCtrlX => Cut ;; updateViewport ;; ret true
  | KeyCtrlV => Paste ;; updateViewport ;; ret true
  | KeyCtrlA => on_view SelectAll ;; ret true
  | KeyCtrlO => OpenFile ;; updateViewport ;; ret true
  | KeyHome => on_view (with_topline 0) ;; ret false
  | KeyEnd =>
      on_view (fun v =>
        if height v >? numLines v then with_topline 0 v
        else with_topline (numLines v - height v) v) ;;
      ret false
  | KeyPgUp => on_view PageUp ;; ret false
  | KeyPgDn => on_view PageDown ;; ret false
  | KeyCtrlU => on_view HalfPageUp ;; ret false
  | KeyCtrlD => on_view HalfPageDown ;; ret false
  | KeyRune =>
      (* Insert a character *)
      has <- cursor_HasSelection ;;
      (if has then
         deleteSelected ;;
         (* Rehighlight the entire buffer *)
         updateViewport
       else updateCursorLine) ;;
      loc <- cursor_Loc ;;
      editing_call (eh_Insert loc (string_of_rune r)) ;;
      cursor_call Right ;;
      ret true
  | KeyOther => ret true
  end.

(** [v.MoveToMouseClick(x, y)] with the current settings *)
Definition moveToMouseClick (x0 y0 : Z) : M unit :=
  s <- the_settings ;; try_view (MoveToMouseClick s x0 y0).

(** [v.cursor.curSelection[1] = v.cursor.Loc()] *)
Definition selectToCursor : M unit :=
  loc <- cursor_Loc ;; on_cursor (set_sel1 loc).

(** [time.Since(v.lastClickTime)/time.Millisecond < doubleClickThreshold] *)
Definition withinThreshold (w : World) : bool :=
  Z.quot (Sub (now (glob w)) (lastClickTime (view w))) Millisecond
    <? doubleClickThreshold.

(** [v.lastClickTime = time.Now()] *)
Definition stampClick : M unit :=
  t <- gets (fun w => now (glob w)) ;; on_view (with_lastClickTime t).

(** The case [*tcell.EventMouse] of [HandleEvent]; the result is the
    value of [relocate] after the case. *)
Definition handleMouse (x0 y0 : Z) (button : Button) : M bool :=
  dx <- gets (fun w => lineNumOffset (view w) - leftCol (view w)) ;;
  let x0 := x0 - dx in
  top <- gets (fun w => topline (view w)) ;;
  let y0 := y0 + top in
  (* Position always seems to be off by one *)
  let x0 := x0 - 1 in
  let y0 := y0 - 1 in
  match button with
  | Button1 =>
      (* Left click *)
      origX <- gets (fun w => x (cursor (view w))) ;;
      origY <- gets (fun w => y (cursor (view w))) ;;
      moveToMouseClick x0 y0 ;;
      released <- gets (fun w => mouseReleased (view w)) ;;
      (if released then
         close <- gets withinThreshold ;;
         cx <- gets (fun w => x (cursor (view w))) ;;
         cy <- gets (fun w => y (cursor (view w))) ;;
         if close && ((origX =? cx) && (origY =? cy)) then
           double <- gets (fun w => doubleClick (view w)) ;;
           if double then
             (* Triple click *)
             stampClick ;;
             on_view (with_tripleClick true) ;;
             on_view (with_doubleClick false) ;;
             cursor_call SelectLine
           else
             (* Double click *)
             stampClick ;;
             on_view (with_doubleClick true) ;;
             on_view (with_tripleClick false) ;;
             cursor_call SelectWord
         else
           on_view (with_doubleClick false) ;;
           on_view (with_tripleClick false) ;;
           stampClick ;;
           loc <- cursor_Loc ;;
           on_cursor (set_sel0 loc) ;;
           on_cursor (set_sel1 loc)
       else
         triple <- gets (fun w => tripleClick (view w)) ;;
         double <- gets (fun w => doubleClick (view w)) ;;
         if triple then cursor_call AddLineToSelection
         else if double then cursor_call AddWordToSelection
         else selectToCursor) ;;
      on_view (with_mouseReleased false) ;;
      ret true
  | ButtonNone =>
      (* Mouse event with no click *)
      released <- gets (fun w => mouseReleased (view w)) ;;
      when (negb released)
        ((* Mouse was just released *)
         double <- gets (fun w => doubleClick (view w)) ;;
         triple <- gets (fun w => tripleClick (view w)) ;;
         when (negb double && negb triple)
           (moveToMouseClick x0 y0 ;; selectToCursor) ;;
         on_view (with_mouseReleased true)) ;;
      ret false
  | WheelUp =>
      (* Scroll up two lines *)
      on_view (ScrollUp 2) ;;
      (* Rehighlight the entire buffer *)
      updateViewport ;;
      ret false
  | WheelDown =>
      (* Scroll down two lines *)
      on_view (ScrollDown 2) ;;
      (* Rehighlight the entire buffer *)
      updateViewport ;;
      ret false
  | ButtonOther => ret true
  end.

(** [HandleEvent] handles an event passed by the main loop. *)
Definition HandleEvent (event : Event) : M unit :=
  (* By default we don't update and syntax highlighting *)
  on_view (UpdateLines (-2) 0) ;;
  relocate <- match event with
              | EventResize w h => on_view (Resize w h) ;; ret true
              | EventKey k r => handleKey k r
              | EventMouse x0 y0 b => handleMouse x0 y0 b
              | EventOther => ret true
              end ;;
  when relocate
    (modify (fun w => mkWorld (snd (Relocate (settings (glob w)) (view w))) (glob w))) ;;
  s <- the_settings ;;
  when (Syntax s) (modify (fun w => mkWorld (with_matches (Match (view w)) (view w)) (glob w))).

(** [NewViewWidthHeight] returns a new view with the specified width and
    height percentages, sized after the screen. *)
Definition NewViewWidthHeight (g : Globals) (b : Buffer) (w h : Z) : View :=
  let v := mkView (mkCursor 0 0 0 (0, 0) (0, 0)) 0 0 0 0 0 0 0 nil_eh b
             false 0 false false nil_matches nil_matches (0, 0) in
  let v := with_percent w h v in
  let v := Resize (fst (screenSize g)) (snd (screenSize g)) v in
  let v := with_topline 0 v in
  let v := with_cursor (mkCursor 0 0 0 (0, 0) (0, 0)) v in
  let v := with_cursor (ResetSelection (cursor v)) v in
  let v := with_eh (NewEventHandler v) v in
  let v := UpdateLines (topline v) (topline v + height v) v in
  let v := with_matches (Match v) v in
  let v := with_mouseReleased true v in
  with_lastClickTime 0 v.

(** [NewView] returns a new fullscreen view. *)
Definition NewView (g : Globals) (b : Buffer) : View :=
  NewViewWidthHeight g b 100 100.

(** The main loop hands the events to the view one after the other; each
    comes with the reading of the clock at the time it is handled. *)
Fixpoint run (events : list (Z * Event)) (w : World) : option World :=
  match events with
  | [] => Some w
  | (t, e) :: rest =>
      match exec (HandleEvent e) (mkWorld (view w) (with_now t (glob w))) with
      | Some w' => run rest w'
      | None => None
      end
  end.

End Model.

Arguments M {ET} A.

(** ** The scroll methods on the machine

    [ScrollUp] and [ScrollDown] with the arithmetic of a 64-bit [int]:
    [v.topline-n], [v.topline+n], [len(v.buf.lines)-v.height] and the
    assignments [v.topline -= n], [v.topline += n], [v.topline--] and
    [v.topline++] wrap around.  The fields of the view and the step are
    taken to be within [int64]. *)

Module Machine.

Section Scroll.

Context {ET : Extern}.

(** [ScrollUp] scrolls the view up [n] lines (if possible). *)
Definition ScrollUp (n : Z) (v : View) : View :=
  if wrap64 (topline v - n) >=? 0 then with_topline (wrap64 (topline v - n)) v
  else if topline v >? 0 then with_topline (wrap64 (topline v - 1)) v
  else v.

(** [ScrollDown] scrolls the view down [n] lines (if possible). *)
Definition ScrollDown (n : Z) (v : View) : View :=
  if wrap64 (topline v + n) <=? wrap64 (numLines v - height v)
  then with_topline (wrap64 (topline v + n)) v
  else if topline v <? wrap64 (numLines v - height v)
  then with_topline (wrap64 (topline v + 1)) v
  else v.

End Scroll.

End Machine.

(** ** A concrete editing core

    Modelled from the spec: the cursor, the buffer, the undo/redo log,
    the messenger, the highlighter and the search, none of which is
    defined in [view.go].  This module gives them an executable
    implementation that follows the design document, so that the model of
    [view.go] can be run on concrete documents and events.  The general
    theorems do not depend on it. *)

Module Core.

Local Open Scope string_scope.
Local Open Scope Z_scope.

Definition nl : string := string_of_bytes [10].
Definition tab : string := string_of_bytes [9].

(** *** Characters

    Modelled from the spec: an offset is an "absolute character index"; a
    character is one UTF-8 encoded code point, that is a byte together
    with the continuation bytes that follow it. *)
Definition continuation (c : ascii) : bool :=
  let n := nat_of_ascii c in ((128 <=? n) && (n <? 192))%nat.

Fixpoint chars (s : string) : list string :=
  match s with
  | EmptyString => []
  | String c s' =>
      match chars s' with
      | String d t :: rest =>
          if continuation d then String c (String d t) :: rest
          else String c "" :: String d t :: rest
      | other => String c "" :: other
      end
  end.

Definition unchars (cs : list string) : string := String.concat "" cs.

(** Modelled from the spec: [Count], the number of characters of a
    string (the helper is declared outside [view.go]). *)
Definition Count (s : string) : Z := Z.of_nat (List.length (chars s)).

(** Modelled from the spec: [Spaces n], a string of [n] spaces. *)
Definition Spaces (n : Z) : string := unchars (repeat " " (Z.to_nat n)).

(** *** TextBuffer

    Modelled from the spec: the document is "an ordered sequence of
    lines", addressed by an offset in which a "newline counts as one
    character". *)
Definition text (b : Buffer) : list string := chars (String.concat nl (lines b)).

Fixpoint split_lines (cs : list string) : list string :=
  match cs with
  | [] => [""]
  | c :: rest =>
      if (c =? nl)%string then "" :: split_lines rest
      else match split_lines rest with
           | l :: ls => (c ++ l)%string :: ls
           | [] => [c]
           end
  end.

Definition clamp (lo hi a : Z) : Z := Z.max lo (Z.min hi a).

Definition Buffer_Len (b : Buffer) : Z := Z.of_nat (List.length (text b)).

Definition set_text (cs : list string) (b : Buffer) : Buffer :=
  mkBuffer (split_lines cs) (path b) (name b) true.

(** Modelled from the spec: "Inputs are clamped to [0, length] before
    mutation; mutation always marks the dirty flag." *)
Definition buf_Insert (offset : Z) (txt : string) (b : Buffer) : Buffer :=
  let n := Z.to_nat (clamp 0 (Buffer_Len b) offset) in
  set_text (firstn n (text b) ++ chars txt ++ skipn n (text b)) b.

Definition slice (from to : Z) (b : Buffer) : list string :=
  let lo := Z.to_nat (clamp 0 (Buffer_Len b) from) in
  let hi := Z.to_nat (clamp 0 (Buffer_Len b) to) in
  firstn (hi - lo) (skipn lo (text b)).

Definition buf_Remove (from to : Z) (b : Buffer) : Buffer :=
  let lo := Z.to_nat (clamp 0 (Buffer_Len b) from) in
  let hi := Z.to_nat (clamp 0 (Buffer_Len b) to) in
  set_text (firstn lo (text b) ++ skipn (Nat.max lo hi) (text b)) b.

(** Modelled from the spec: [NewBuffer] ("created on file open"), clean
    at creation. *)
Definition NewBuffer (txt p : string) : Buffer :=
  mkBuffer (split_lines (chars txt)) p p false.

Definition Buffer_IsDirty (b : Buffer) : bool := dirty b.

(** *** Offsets and positions *)

Definition line (n : Z) (b : Buffer) : string := nth (Z.to_nat n) (lines b) "".

(** Modelled from the spec: [ToCharPos], the offset of column [cx] of
    line [cy]. *)
Definition ToCharPos (cx cy : Z) (b : Buffer) : Z :=
  fold_left (fun acc l => acc + Count l + 1) (firstn (Z.to_nat cy) (lines b)) cx.

Fixpoint from_pos (ls : list string) (loc yy : Z) : Z * Z :=
  match ls with
  | [] => (0, yy)
  | l :: rest =>
      match rest with
      | [] => (Z.min loc (Count l), yy)
      | _ => if loc <=? Count l then (loc, yy)
             else from_pos rest (loc - Count l - 1) (yy + 1)
      end
  end.

(** Modelled from the spec: [GetVisualX] "expands tabs to the next
    multiple of tabSize from the current visual position". *)
Definition advance (tabSize vx : Z) (c : string) : Z :=
  if (c =? tab)%string && (0 <? tabSize) then (vx / tabSize + 1) * tabSize else vx + 1.

Definition visual (tabSize : Z) (cs : list string) : Z :=
  fold_left (advance tabSize) cs 0.

Definition GetVisualX (s : Settings) (b : Buffer) (c : Cursor) : Z :=
  visual (TabSize s) (firstn (Z.to_nat (x c)) (chars (line (y c) b))).

(** Modelled from the spec: the inverse of the tab expansion, "locating
    the tab whose expanded range contains the clicked visual column and
    snapping to that tab's logical column". *)
Fixpoint pos_in (tabSize : Z) (cs : list string) (vx i target : Z) : Z :=
  match cs with
  | [] => i
  | c :: rest =>
      let vx' := advance tabSize vx c in
      if target <? vx' then i else pos_in tabSize rest vx' (i + 1) target
  end.

Definition GetCharPosInLine (s : Settings) (b : Buffer) (c : Cursor)
    (lineNum visualPos : Z) : Z :=
  pos_in (TabSize s) (chars (line lineNum b)) 0 0 visualPos.

(** *** Cursor *)

Definition Loc (b : Buffer) (c : Cursor) : Z := ToCharPos (x c) (y c) b.

Definition storeVisual (s : Settings) (b : Buffer) (c : Cursor) : Cursor :=
  with_lastVisualX (GetVisualX s b c) c.

(** Modelled from the spec: [SetLoc] "clamps to [0, length], recomputes
    (line, column)". *)
Definition SetLoc (loc : Z) (s : Settings) (b : Buffer) (c : Cursor) : Cursor :=
  let '(cx, cy) := from_pos (lines b) (clamp 0 (Buffer_Len b) loc) 0 in
  storeVisual s b (with_y cy (with_x cx c)).

(** Modelled from the spec: vertical movement "moves to the adjacent
    logical line, clamps column to that line's length, but preserves
    desiredVisualColumn". *)
Definition toLine (cy : Z) (s : Settings) (b : Buffer) (c : Cursor) : Cursor :=
  with_y cy (with_x (GetCharPosInLine s b c cy (lastVisualX c)) c).

Definition Up (s : Settings) (b : Buffer) (c : Cursor) : Cursor :=
  if (0 <? y c)%Z then toLine (y c - 1) s b c else c.

Definition Down (s : Settings) (b : Buffer) (c : Cursor) : Cursor :=
  if (y c <? Z.of_nat (List.length (lines b)) - 1)%Z then toLine (y c + 1) s b c else c.

(** Modelled from the spec: "Left/Right advance/retreat one character,
    crossing line boundaries at the ends". *)
Definition Left (s : Settings) (b : Buffer) (c : Cursor) : Cursor :=
  if (0 <? x c)%Z then storeVisual s b (with_x (x c - 1) c)
  else if (0 <? y c)%Z
       then storeVisual s b (with_y (y c - 1) (with_x (Count (line (y c - 1) b)) c))
       else c.

Definition Right (s : Settings) (b : Buffer) (c : Cursor) : Cursor :=
  if (x c <? Count (line (y c) b))%Z then storeVisual s b (with_x (x c + 1) c)
  else if (y c <? Z.of_nat (List.length (lines b)) - 1)%Z
       then storeVisual s b (with_y (y c + 1) (with_x 0 c))
       else c.

(** Modelled from the spec: a selection is "empty iff anchor == active";
    [curSelection] holds the anchor first and the active end second. *)
Definition HasSelection (c : Cursor) : bool :=
  negb (fst (curSelection c) =? snd (curSelection c))%Z.

(** Modelled from the spec: "ResetSelection() collapses anchor to
    active". *)
Definition ResetSelection (c : Cursor) : Cursor :=
  with_curSelection (snd (curSelection c), snd (curSelection c)) c.

Definition selMin (c : Cursor) : Z := Z.min (fst (curSelection c)) (snd (curSelection c)).
Definition selMax (c : Cursor) : Z := Z.max (fst (curSelection c)) (snd (curSelection c)).

Definition GetSelection (b : Buffer) (c : Cursor) : string :=
  unchars (slice (selMin c) (selMax c) b).

(** Modelled from the spec: a word is a run of letters, digits and
    underscores; characters outside ASCII count as letters. *)
Definition isWordChar (c : string) : bool :=
  match c with
  | String a EmptyString =>
      let n := nat_of_ascii a in
      (((48 <=? n) && (n <=? 57)) || ((65 <=? n) && (n <=? 90))
       || ((97 <=? n) && (n <=? 122)) || (n =? 95) || (128 <=? n))%nat
  | _ => true
  end.

Fixpoint takeWhile {A : Type} (f : A -> bool) (l : list A) : list A :=
  match l with
  | [] => []
  | a :: l' => if f a then a :: takeWhile f l' else []
  end.

(** The columns at which the word around column [cx] starts and ends. *)
Definition wordBounds (cx : Z) (l : string) : Z * Z :=
  let cs := chars l in
  let n := Z.to_nat cx in
  (cx - Z.of_nat (List.length (takeWhile isWordChar (rev (firstn n cs)))),
   cx + Z.of_nat (List.length (takeWhile isWordChar (skipn n cs)))).

Definition wordRange (b : Buffer) (c : Cursor) : Z * Z :=
  let '(a, e) := wordBounds (x c) (line (y c) b) in
  (ToCharPos a (y c) b, ToCharPos e (y c) b).

Definition lineRange (b : Buffer) (c : Cursor) : Z * Z :=
  (ToCharPos 0 (y c) b, ToCharPos (Count (line (y c) b)) (y c) b).

(** Modelled from the spec: "SelectWord()/SelectLine() expand the
    selection to the word/line boundaries containing the current
    offset". *)
Definition SelectWord (s : Settings) (b : Buffer) (c : Cursor) : Cursor :=
  with_origSelection (wordRange b c) (with_curSelection (wordRange b c) c).

Definition SelectLine (s : Settings) (b : Buffer) (c : Cursor) : Cursor :=
  with_origSelection (lineRange b c) (with_curSelection (lineRange b c) c).

(** Modelled from the spec: the drag keeps "the original click's
    word/line boundary as a fixed anchor edge" and moves "only the far
    edge to the boundary containing the new drag point". *)
Definition extendTo (r : Z * Z) (b : Buffer) (c : Cursor) : Cursor :=
  let o := origSelection c in
  if (Loc b c <? fst o)%Z then with_curSelection (snd o, fst r) c
  else if (snd o <? Loc b c)%Z then with_curSelection (fst o, snd r) c
  else with_curSelection o c.

Definition AddWordToSelection (s : Settings) (b : Buffer) (c : Cursor) : Cursor :=
  extendTo (wordRange b c) b c.

Definition AddLineToSelection (s : Settings) (b : Buffer) (c : Cursor) : Cursor :=
  extendTo (lineRange b c) b c.


(** *** EditLog

    Modelled from the spec: an edit operation is "Insert{at, text} |
    Remove{from, to}" and "each has a computable inverse", for which a
    removal keeps the text it removed; a transaction is a sequence of
    operations "tagged with the cursor position before and after".
    [typing] marks a transaction that is a run of typed characters and is
    still open. *)
Inductive EditOperation : Type :=
| Insert (at_ : Z) (txt : string)
| Remove (from to : Z) (txt : string).

Record Transaction : Type := mkTransaction {
  ops : list EditOperation;
  before : Cursor;
  after : Cursor;
  typing : bool
}.

Record EditLog : Type := mkEditLog {
  undoStack : list Transaction;
  redoStack : list Transaction
}.

Definition apply (op : EditOperation) (b : Buffer) : Buffer :=
  match op with
  | Insert a t => buf_Insert a t b
  | Remove f t _ => buf_Remove f t b
  end.

Definition inverse (op : EditOperation) : EditOperation :=
  match op with
  | Insert a t => Remove a (a + Count t) t
  | Remove f _ t => Insert f t
  end.

(** Modelled from the spec: the coalescing policy.  The log sees offsets
    and texts, not keys: a typing run goes on when one ordinary character
    (no newline, no tab) is inserted where the open run ended; any other
    operation is a boundary. *)
Definition ordinary (txt : string) : bool :=
  (Count txt =? 1) && negb (txt =? nl)%string && negb (txt =? tab)%string.

Definition continues (a : Z) (txt : string) (b : Buffer) (t : Transaction) : bool :=
  typing t && ordinary txt && (Loc b (after t) =? a).

Definition Editing : Type := (Cursor * Buffer * EditLog)%type.

(** Modelled from the spec: "Record(transaction): pushes onto UndoStack,
    clears RedoStack". *)
Definition Record_ (t : Transaction) (h : EditLog) : EditLog :=
  mkEditLog (t :: undoStack h) [].

Definition eh_Insert (a : Z) (txt : string) (s : Settings) (e : Editing) : Editing :=
  let '(c, b, h) := e in
  let a := clamp 0 (Buffer_Len b) a in
  let b' := buf_Insert a txt b in
  let c' := SetLoc (a + Count txt) s b' c in
  match undoStack h with
  | t :: rest =>
      if continues a txt b t
      then (c, b', mkEditLog
                     (mkTransaction (ops t ++ [Insert a txt]) (before t) c' true :: rest) [])
      else (c, b', Record_ (mkTransaction [Insert a txt] c c' (ordinary txt)) h)
  | [] => (c, b', Record_ (mkTransaction [Insert a txt] c c' (ordinary txt)) h)
  end.

Definition eh_Remove (from to : Z) (s : Settings) (e : Editing) : Editing :=
  let '(c, b, h) := e in
  let from := clamp 0 (Buffer_Len b) from in
  let to := clamp from (Buffer_Len b) to in
  let b' := buf_Remove from to b in
  (c, b',
   Record_ (mkTransaction [Remove from to (unchars (slice from to b))] c
              (SetLoc from s b' c) false) h).

(** Modelled from the spec: "Undo(): if UndoStack empty, no-op; else pop
    latest Transaction, apply its operations' inverses to TextBuffer in
    reverse order, restore the pre-transaction cursor/selection, push the
    Transaction onto RedoStack". *)
Definition eh_Undo (s : Settings) (e : Editing) : Editing :=
  let '(c, b, h) := e in
  match undoStack h with
  | [] => e
  | t :: rest =>
      (before t,
       fold_left (fun b op => apply (inverse op) b) (rev (ops t)) b,
       mkEditLog rest (t :: redoStack h))
  end.

(** Modelled from the spec: "Redo(): if RedoStack empty, no-op; else pop
    latest, reapply its operations forward, restore the post-transaction
    cursor/selection, push back onto UndoStack". *)
Definition eh_Redo (s : Settings) (e : Editing) : Editing :=
  let '(c, b, h) := e in
  match redoStack h with
  | [] => e
  | t :: rest =>
      (after t,
       fold_left (fun b op => apply op b) (ops t) b,
       mkEditLog (mkTransaction (ops t) (before t) (after t) false :: undoStack h) rest)
  end.

(** Modelled from the spec: "DeleteSelection() removes the (min,max)
    range as one Transaction and collapses the cursor to the range
    start". *)
Definition DeleteSelection (s : Settings) (e : Editing) : Editing :=
  let '(c, b, h) := e in
  let '(c1, b1, h1) := eh_Remove (selMin c) (selMax c) s e in
  (SetLoc (selMin c) s b1 c1, b1, h1).

(** *** Messenger, clipboard and files

    Modelled from the spec: the messenger shows status and error
    messages and asks the questions of the modal prompts; the answers of
    the user are scripted, and a prompt without answer is canceled.  The
    clipboard is the provider with "Read() -> text | Unsupported" and
    "Write(text) -> ok | Unsupported"; the file store maps paths to
    contents. *)
Record MessengerState : Type := mkMessenger {
  shown : list (bool * string);
  answers : list (string * bool)
}.

Definition messenger_Error (msg : string) (m : MessengerState) : MessengerState :=
  mkMessenger (shown m ++ [(true, msg)]) (answers m).
Definition messenger_Message (msg : string) (m : MessengerState) : MessengerState :=
  mkMessenger (shown m ++ [(false, msg)]) (answers m).
Definition messenger_Prompt (msg : string) (m : MessengerState)
    : (string * bool) * MessengerState :=
  match answers m with
  | a :: rest => (a, mkMessenger (shown m) rest)
  | [] => (("", true), m)
  end.

Record ClipboardState : Type := mkClipboard {
  unsupported : bool;
  content : string
}.

Definition clipboard_WriteAll (txt : string) (c : ClipboardState) : ClipboardState :=
  if unsupported c then c else mkClipboard false txt.
Definition clipboard_ReadAll (c : ClipboardState) : string :=
  if unsupported c then "" else content c.

Definition FileStore : Type := list (string * string).

Fixpoint lookup (p : string) (fs : FileStore) : option string :=
  match fs with
  | [] => None
  | (q, c) :: rest => if (p =? q)%string then Some c else lookup p rest
  end.

Definition ReadFile (p : string) (fs : FileStore) : string + string :=
  match lookup p fs with
  | Some c => inl c
  | None => inr ("open " ++ p ++ ": no such file or directory")%string
  end.

Definition Buffer_Save (b : Buffer) (fs : FileStore) : option string * Buffer * FileStore :=
  if (path b =? "")%string
  then (Some "open : no such file or directory", b, fs)
  else (None, mkBuffer (lines b) (path b) (name b) false,
        (path b, String.concat nl (lines b)) :: fs).

#[local] Instance extern : Extern := {
  EventHandler := EditLog;
  SyntaxMatches := list (list Z);
  Messenger := MessengerState;
  Clipboard := ClipboardState;
  Files := FileStore;
  nil_eh := mkEditLog [] [];
  nil_matches := []
}.

Definition NewEventHandler (v : View) : EditLog := mkEditLog [] [].

(** Modelled from the spec: the highlighter returns "an updated per-line
    array of per-character style tags" for the dirty range recorded in
    [updateLines]; here every character gets the default style [0]. *)
Definition Match (v : View) : list (list Z) :=
  let lo := Z.to_nat (fst (updateLines v)) in
  let hi := Z.to_nat (snd (updateLines v)) in
  map (fun l => repeat 0 (List.length (chars l)))
      (firstn (hi - lo) (skipn lo (lines (buf v)))).

(** *** Search

    Modelled from the spec: find is a modal operation that leaves the
    state untouched when it is canceled.  A search selects the first
    occurrence at or after [searchStart] (downwards) or the last one
    before it (upwards) and puts the cursor at its end. *)
Fixpoint isPrefix (p cs : list string) : bool :=
  match p, cs with
  | [], _ => true
  | a :: p', c :: cs' => (a =? c)%string && isPrefix p' cs'
  | _ :: _, [] => false
  end.

Fixpoint occurrences (p cs : list string) (i : Z) : list Z :=
  match cs with
  | [] => []
  | _ :: cs' =>
      if isPrefix p cs then i :: occurrences p cs' (i + 1)
      else occurrences p cs' (i + 1)
  end.

Definition selectAt (i n : Z) (w : World) : World :=
  let v := view w in
  let c := SetLoc (i + n) (settings (glob w)) (buf v)
             (with_curSelection (i, i + n) (cursor v)) in
  mkWorld (with_cursor c v) (glob w).

Definition Search (str : string) (down : bool) (w : World) : World :=
  let found := occurrences (chars str) (text (buf (view w))) 0 in
  let start := searchStart (glob w) in
  let hit := if down then hd_error (filter (fun i => start <=? i) found)
             else hd_error (rev (filter (fun i => i <? start) found)) in
  match chars str, hit with
  | _ :: _, Some i => selectAt i (Count str) w
  | _, _ => w
  end.

Definition BeginSearch (w : World) : World :=
  let '((str, canceled), m) := messenger_Prompt "Find: " (messenger (glob w)) in
  if canceled then w
  else
    let g := glob w in
    Search str true
      (mkWorld (view w)
         (mkGlobals (settings g) m (clipboard g) (files g) (searchStart g)
            str (now g) (screenSize g))).

(** The threshold of the multi-click detection, in milliseconds. *)
Definition doubleClickThreshold : Z := 400.

#[local] Instance collab : Collab :=
  @Build_Collab extern
    HasSelection GetSelection ResetSelection DeleteSelection Loc SetLoc
    Up Down Left Right GetVisualX GetCharPosInLine
    SelectWord SelectLine AddWordToSelection AddLineToSelection
    NewEventHandler eh_Insert eh_Remove eh_Undo eh_Redo
    NewBuffer Buffer_Len Buffer_IsDirty Buffer_Save
    Count ToCharPos Spaces
    Match BeginSearch Search
    messenger_Error messenger_Message messenger_Prompt
    unsupported clipboard_WriteAll clipboard_ReadAll
    ReadFile
    doubleClickThreshold.

(** *** Building worlds *)

Definition defaultSettings : Settings := mkSettings false 4 true.

(** The globals of a session on a terminal of [w] columns and [h] rows. *)
Definition globals (w h : Z) (clipUnsupported : bool) : Globals :=
  mkGlobals defaultSettings (mkMessenger [] []) (mkClipboard clipUnsupported "")
    [] 0 "" 0 (w, h).

(** The editor opened on a document, full screen. *)
Definition open (txt : string) (w h : Z) (clipUnsupported : bool) : World :=
  let g := globals w h clipUnsupported in
  mkWorld (NewView g (NewBuffer txt "doc.txt")) g.

(** What [DisplayView] does to the view between two events: it stores
    the gutter width. *)
Definition display (w : World) : World :=
  mkWorld (with_lineNumOffset (gutterWidth (view w)) (view w)) (glob w).

(** The state after a list of events, each with its clock reading; a
    panic leaves the state where it was. *)
Definition after_ (events : list (Z * Event)) (w : World) : World :=
  match run events w with
  | Some w' => w'
  | None => w
  end.

Definition keys (l : list Key) : list (Z * Event) :=
  map (fun k => (0, EventKey k 0)) l.

(** A clock reading, given in milliseconds. *)
Definition ms (t : Z) : Z := t * Millisecond.

(** *** Sample sessions *)

(** Thirty lines on a terminal of twelve rows: the view is ten lines
    high. *)
Definition session30 : World :=
  display (open (String.concat nl (repeat "text" 30)) 80 12 false).

(** The same, scrolled to the end of the document. *)
Definition session30end : World := after_ (keys [KeyEnd]) session30.

(** One line of 26 letters on a terminal of ten columns, after the
    cursor went twelve columns right and seven back: the cursor is in
    column 5, the leftmost visible column. *)
Definition sessionWide : World :=
  after_ (keys (repeat KeyRight 12 ++ repeat KeyLeft 7))
    (display (open "abcdefghijklmnopqrstuvwxyz" 10 24 false)).

(** The view that the next [KeyLeft] hands to [Relocate]: the cursor has
    moved to column 4. *)
Definition viewWideLeft : View :=
  let v := UpdateLines (-2) 0 (view sessionWide) in
  with_cursor (Left defaultSettings (buf v) (ResetSelection (cursor v))) v.

(** A terminal of two columns, as wide as the gutter, after one step to
    the right. *)
Definition sessionNarrow : World :=
  after_ (keys [KeyRight]) (display (open "abc" 2 24 false)).

(** Two lines on a terminal of 80 columns and 24 rows. *)
Definition sessionHello : World :=
  display (open "hello world
foo bar" 80 24 false).


(** The same after a click on the [e] of [hello] at 1000 ms, released at
    1050 ms; the clock then reads 1100 ms. *)
Definition sessionClicked : World :=
  let w := after_ [(ms 1000, EventMouse 4 1 Button1);
                   (ms 1050, EventMouse 4 1 ButtonNone)] sessionHello in
  mkWorld (view w) (with_now (ms 1100) (glob w)).

(** The same after a second click there at 1100 ms, released at 1150 ms;
    the clock then reads 1200 ms. *)
Definition sessionDoubleClicked : World :=
  let w := after_ [(ms 1100, EventMouse 4 1 Button1);
                   (ms 1150, EventMouse 4 1 ButtonNone)] sessionClicked in
  mkWorld (view w) (with_now (ms 1200) (glob w)).

(** A press on the [e] of [hello] at 1000 ms, a drag to the [r] of
    [world], the release there at 1100 ms. *)
Definition dragged : list (Z * Event) :=
  [(ms 1000, EventMouse 4 1 Button1);
   (ms 1050, EventMouse 11 1 Button1);
   (ms 1100, EventMouse 11 1 ButtonNone)].

(** A session whose clipboard is unsupported, with the whole text
    selected. *)
Definition sessionNoClipboard : World :=
  after_ (keys [KeyCtrlA]) (display (open "hello world" 80 24 true)).

End Core.

(** * Vocabulary of the statements *)

Section Statements.

Context {ET : Extern} {CO : Collab}.

(** The invariant of the vertical scroll position. *)
Definition toplineInv (v : View) : Prop :=
  0 <= topline v <= Z.max 0 (numLines v - height v).

(** The scroll methods change [topline] and nothing else. *)
Definition sameButTopline (v v' : View) : Prop :=
  v' = with_topline (topline v') v.

(** The visual column of the cursor. *)
Definition cursorX (s : Settings) (v : View) : Z :=
  GetVisualX s (buf v) (cursor v).

(** The cursor's line is one of the [height] lines from [topline] on. *)
Definition lineVisible (v : View) : Prop :=
  topline v <= y (cursor v) < topline v + height v.

(** The cursor's column passes the two tests of [Relocate], negated: it
    is not left of [leftCol], and behind the gutter it still falls
    inside the width. *)
Definition columnVisible (s : Settings) (v : View) : Prop :=
  leftCol v <= cursorX s v /\
  cursorX s v + lineNumOffset v < leftCol v + width v.

(** The visual column plus gutter lies within
    [[leftCol, leftCol+width)]. *)
Definition columnInWindow (s : Settings) (v : View) : Prop :=
  leftCol v <= cursorX s v + lineNumOffset v < leftCol v + width v.

(** The world after [messenger.Error(msg)]: the message is handed to the
    messenger, nothing else changes. *)
Definition afterError (msg : string) (w : World) : World :=
  mkWorld (view w) (with_messenger (messenger_Error msg (messenger (glob w))) (glob w)).

Definition unsupportedMsg : string := "Clipboard is not supported on your system".

(** [HandleEvent] in three steps: the reset of the dirty range, the case
    of the event, and the closing relocation and highlighting. *)
Definition start (w : World) : World :=
  mkWorld (UpdateLines (-2) 0 (view w)) (glob w).

Definition dispatch (event : Event) : M bool :=
  match event with
  | EventResize w h => bind (on_view (Resize w h)) (fun _ => ret true)
  | EventKey k r => handleKey k r
  | EventMouse x0 y0 b => handleMouse x0 y0 b
  | EventOther => ret true
  end.

Definition finish (relocate : bool) (w : World) : World :=
  let w := if relocate
           then mkWorld (snd (Relocate (settings (glob w)) (view w))) (glob w)
           else w in
  if Syntax (settings (glob w))
  then mkWorld (with_matches (Match (view w)) (view w)) (glob w)
  else w.

(** The lines of the viewport, as [UpdateLines(topline, topline+height)]
    records them (the end of the range is exclusive). *)
Definition viewportRange (v : View) : Z * Z :=
  (topline v, topline v + height v + 1).


(** The cell of the document that a mouse event at screen cell
    [(x0, y0)] refers to, before [MoveToMouseClick] resolves it. *)
Definition clickTarget (w : World) (x0 y0 : Z) : Z * Z :=
  (x0 - (lineNumOffset (view w) - leftCol (view w)) - 1,
   y0 + topline (view w) - 1).

(** The view after the click has been resolved to a cursor position. *)
Definition resolve (w : World) (x0 y0 : Z) : option View :=
  MoveToMouseClick (settings (glob w))
    (fst (clickTarget w x0 y0)) (snd (clickTarget w x0 y0)) (view (start w)).

(** The click resolves to the position that the cursor has already. *)
Definition sameAsCursor (w : World) (v1 : View) : bool :=
  (x (cursor (view w)) =? x (cursor v1)) && (y (cursor (view w)) =? y (cursor v1)).

(** The collapsed selection at the cursor. *)
Definition collapsed (b : Buffer) (c : Cursor) : Cursor :=
  with_curSelection (Loc b c, Loc b c) c.

End Statements.

(** * Vocabulary of the further statements *)

Section FurtherStatements.

Context {ET : Extern} {CO : Collab}.

(** A computation that does not panic, whose result satisfies [P] and
    that leaves the observation [obs] of the world as it was. *)
Definition yields {X A : Type} (obs : World -> X) (P : A -> Prop) (m : M A) : Prop :=
  forall w, exists a w', m w = Some (a, w') /\ P a /\ obs w' = obs w.

(** A computation that leaves the observation [obs] of the world as it
    was whenever it does not panic. *)
Definition preserves {X A : Type} (obs : World -> X) (m : M A) : Prop :=
  forall w a w', m w = Some (a, w') -> obs w' = obs w.

(** What the closing [Relocate] of [HandleEvent] works with, the cursor
    apart: the size of the view, the gutter and the settings. *)
Definition geometry (w : World) : Z * Z * Z * Settings :=
  (height (view w), width (view w), lineNumOffset (view w), settings (glob w)).

(** The dirty range of the view. *)
Definition marks (w : World) : Z * Z := updateLines (view w).

(** The fields of the view that scrolling has no business with: all but
    [topline], the dirty range and the matches. *)
Definition unscrolled (v : View) :=
  (cursor v, leftCol v, widthPercent v, heightPercent v, width v, height v,
   lineNumOffset v, eh v, buf v, mouseReleased v, lastClickTime v,
   doubleClick v, tripleClick v, lastMatches v).

(** The keys that move the cursor or edit the text: their case leaves
    [relocate] set and calls nothing but methods of the cursor, the
    event handler and the clipboard commands. *)
Definition cursorKeys : list Key :=
  [KeyUp; KeyDown; KeyLeft; KeyRight; KeyEnter; KeySpace; KeyBackspace2;
   KeyBackspace; KeyTab; KeyCtrlZ; KeyCtrlY; KeyCtrlC; KeyCtrlX; KeyCtrlV;
   KeyCtrlA; KeyRune; KeyOther].

(** The keys that scroll without moving the cursor. *)
Definition scrollKeys : list Key :=
  [KeyHome; KeyEnd; KeyPgUp; KeyPgDn; KeyCtrlU; KeyCtrlD].

(** The keys whose case calls [UpdateLines] nowhere (the three search
    keys apart, whose case is in the hands of the search). *)
Definition quietKeys : list Key :=
  [KeyUp; KeyDown; KeyLeft; KeyRight; KeyCtrlS; KeyCtrlA; KeyHome; KeyEnd;
   KeyPgUp; KeyPgDn; KeyCtrlU; KeyCtrlD; KeyOther].

(** The events that edit nothing and do not scroll by the wheel. *)
Definition quietEvent (e : Event) : Prop :=
  match e with
  | EventResize _ _ => True
  | EventKey k _ => In k quietKeys
  | EventMouse _ _ b => b <> WheelUp /\ b <> WheelDown
  | EventOther => True
  end.

(** The scroll method behind a scroll key. *)
Definition scrollOf (k : Key) (v : View) : View :=
  match k with
  | KeyHome => with_topline 0 v
  | KeyEnd => with_topline (Z.max 0 (numLines v - height v)) v
  | KeyPgUp => PageUp v
  | KeyPgDn => PageDown v
  | KeyCtrlU => HalfPageUp v
  | KeyCtrlD => HalfPageDown v
  | _ => v
  end.

(** Everything in the view that is not the document being edited: all
    fields but the cursor, the buffer and the undo log. *)
Definition aroundEditing (v : View) :=
  (topline v, leftCol v, widthPercent v, heightPercent v, width v, height v,
   lineNumOffset v, mouseReleased v, lastClickTime v, doubleClick v,
   tripleClick v, matches v, lastMatches v, updateLines v).

(** The globals that a clipboard command has no business with. *)
Definition besidesClipboard (g : Globals) :=
  (settings g, files g, searchStart g, lastSearch g, now g, screenSize g).

(** The answers that [CanClose] takes for a yes. *)
Definition yesAnswers : list string :=
  ["y"; "Y"; "yes"; "yeS"; "yEs"; "yES"; "Yes"; "YeS"; "YEs"; "YES"]%string.

(** The question of [CanClose]. *)
Definition closeQuestion (msg : string) : string :=
  ("You have unsaved changes. " ++ msg)%string.

(** The globals after [Save] has reported the outcome [e] of writing
    the buffer [b]: the error, or the path that was saved. *)
Definition reported (e : option string) (b : Buffer) (g : Globals) : Globals :=
  with_messenger
    (match e with
     | Some err => messenger_Error err (messenger g)
     | None => messenger_Message ("Saved " ++ path b) (messenger g)
     end) g.

(** The globals that neither [Save] nor [OpenFile] touches. *)
Definition besidesFiles (g : Globals) :=
  (settings g, clipboard g, searchStart g, lastSearch g, now g, screenSize g).

End FurtherStatements.


(** * Go strings: splitting and ranging *)

Module GoText.

(** The bytes of a string. *)
Definition bytes (s : string) : list Z :=
  map (fun c => Z.of_N (N_of_ascii c)) (list_ascii_of_string s).

(** [strings.Split(s, "\n")]: the pieces of [s] between the newlines;
    one piece more than there are newlines. *)
Fixpoint SplitLines (s : string) : list string :=
  match s with
  | EmptyString => [EmptyString]
  | String c s' =>
      if (N_of_ascii c =? 10)%N then EmptyString :: SplitLines s'
      else match SplitLines s' with
           | l :: ls => String c l :: ls
           | [] => [String c EmptyString]
           end
  end.

(** [utf8.RuneError] *)
Definition RuneError : Z := 65533.

(** The size of the encoding that the first byte announces and the
    range accepted for the second byte; [None] for a byte that starts
    no encoding of two bytes or more. *)
Definition lead (s0 : Z) : option (Z * Z * Z) :=
  if (194 <=? s0) && (s0 <=? 223) then Some (2, 128, 191)
  else if s0 =? 224 then Some (3, 160, 191)
  else if (225 <=? s0) && (s0 <=? 236) then Some (3, 128, 191)
  else if s0 =? 237 then Some (3, 128, 159)
  else if (238 <=? s0) && (s0 <=? 239) then Some (3, 128, 191)
  else if s0 =? 240 then Some (4, 144, 191)
  else if (241 <=? s0) && (s0 <=? 243) then Some (4, 128, 191)
  else if s0 =? 244 then Some (4, 128, 143)
  else None.

Definition continuation (b : Z) : bool := (128 <=? b) && (b <=? 191).

(** [utf8.DecodeRuneInString]: the first rune of the bytes and its
    width; an encoding that is not well formed gives [RuneError] and
    the width 1. *)
Definition decodeRune (bs : list Z) : Z * nat :=
  match bs with
  | [] => (RuneError, 0%nat)
  | s0 :: rest =>
      if s0 <? 128 then (s0, 1%nat)
      else
        match lead s0, rest with
        | Some (sz, lo, hi), s1 :: r1 =>
            if (lo <=? s1) && (s1 <=? hi) then
              if sz =? 2 then
                (Z.lor (Z.shiftl (Z.land s0 31) 6) (Z.land s1 63), 2%nat)
              else
                match r1 with
                | s2 :: r2 =>
                    if continuation s2 then
                      if sz =? 3 then
                        (Z.lor (Z.shiftl (Z.land s0 15) 12)
                           (Z.lor (Z.shiftl (Z.land s1 63) 6) (Z.land s2 63)),
                         3%nat)
                      else
                        match r2 with
                        | s3 :: _ =>
                            if continuation s3 then
                              (Z.lor (Z.shiftl (Z.land s0 7) 18)
                                 (Z.lor (Z.shiftl (Z.land s1 63) 12)
                                    (Z.lor (Z.shiftl (Z.land s2 63) 6)
                                       (Z.land s3 63))),
                               4%nat)
                            else (RuneError, 1%nat)
                        | [] => (RuneError, 1%nat)
                        end
                    else (RuneError, 1%nat)
                | [] => (RuneError, 1%nat)
                end
            else (RuneError, 1%nat)
        | _, _ => (RuneError, 1%nat)
        end
  end.

(** [for i, ch := range s]: the runes of [s], each with the index of
    its first byte.  [skip] counts the bytes of the current rune that
    are still to be passed over. *)
Fixpoint rangeFrom (bs : list Z) (i : Z) (skip : nat) : list (Z * Z) :=
  match bs with
  | [] => []
  | _ :: rest =>
      match skip with
      | S k => rangeFrom rest (i + 1) k
      | O => (i, fst (decodeRune bs))
             :: rangeFrom rest (i + 1) (snd (decodeRune bs) - 1)
      end
  end.

Definition rangeString (s : string) : list (Z * Z) := rangeFrom (bytes s) 0 0.

(** [l[lo:hi]] for a slice whose capacity is its length: a panic unless
    [0 <= lo <= hi <= len(l)]. *)
Definition slice {A : Type} (l : list A) (lo hi : Z) : option (list A) :=
  if (0 <=? lo) && (lo <=? hi) && (hi <=? Z.of_nat (List.length l))
  then Some (firstn (Z.to_nat (hi - lo)) (skipn (Z.to_nat lo) l))
  else None.

(** [l[i]]: a panic unless [0 <= i < len(l)]. *)
Definition index {A : Type} (l : list A) (i : Z) : option A :=
  if i <? 0 then None else nth_error l (Z.to_nat i).

(** [[]rune(s)]: the runes that ranging over [s] gives. *)
Definition runes (s : string) : list Z := map snd (rangeString s).

End GoText.

(** * The help screen of [help.go] *)

Module Help.

Import GoText.

Local Open Scope string_scope.
Local Open Scope Z_scope.

Definition dq : string := string_of_bytes [34].
Definition tab : string := string_of_bytes [9].
Definition nl : string := string_of_bytes [10].

(** The lines of the constant [helpTxt]; the last one is empty, the
    text ends with a newline. *)
Definition helpLines : list string :=
  [
   "Press Ctrl-q to quit help";
   "";
   "Micro keybindings:";
   "";
   "Ctrl-q:   Quit";
   "Ctrl-s:   Save";
   "Ctrl-o:   Open file";
   "";
   "Ctrl-z:   Undo";
   "Ctrl-y:   Redo";
   "";
   "Ctrl-f:   Find";
   "Ctrl-n:   Find next";
   "Ctrl-p:   Find previous";
   "";
   "Ctrl-a:   Select all";
   "";
   "Ctrl-c:   Copy";
   "Ctrl-x:   Cut";
   "Ctrl-v:   Paste";
   "";
   "Ctrl-g:   Open this help screen";
   "";
   "Ctrl-u:   Half page up";
   "Ctrl-d:   Half page down";
   "PageUp:   Page up";
   "PageDown: Page down";
   "";
   "Home:     Go to beginning";
   "End:      Go to end";
   "";
   "Ctrl-e:   Execute a command";
   "";
   "Possible commands:";
   "";
   "'quit': Quits micro";
   "'save': saves the current buffer";
   "";
   "'replace " ++ dq ++ "search" ++ dq ++ " " ++ dq ++ "value" ++ dq ++ "': This will replace 'search' with 'value'.";
   "Note that 'search' must be a valid regex.  If one of the arguments";
   "does not have any spaces in it, you may omit the quotes.";
   "";
   "'set option value': sets the option to value. Please see the next section for a list of options you can set";
   "";
   "Micro options:";
   "";
   "Configuration directory:";
   "";
   "Micro uses the $XDG_CONFIG_HOME/micro as the configuration directory. As per the XDG spec,";
   "if $XDG_CONFIG_HOME is not set, ~/.config/micro is used as the config directory.";
   "";
   "colorscheme: loads the colorscheme stored in $(configDir)/colorschemes/'option'.micro";
   tab ++ "default value: 'default'";
   tab ++ "Note that the default colorschemes (default, solarized, and solarized-tc) are not located in configDir,";
   tab ++ "because they are embedded in the micro binary";
   "";
   "tabsize: sets the tab size to 'option'";
   tab ++ "default value: '4'";
   "";
   "syntax: turns syntax on or off";
   tab ++ "default value: 'on'";
   "";
   "tabsToSpaces: use spaces instead of tabs";
   tab ++ "default value: 'off'";
   ""
  ].

(** The constant [helpTxt]. *)
Definition helpTxt : string := String.concat nl helpLines.

(** The keys that [DisplayHelp] distinguishes. *)
Inductive Key : Type :=
| KeyUp | KeyDown | KeyCtrlQ | KeyCtrlW | KeyEscape | KeyCtrlC | KeyOther.

(** The events that [DisplayHelp] distinguishes. *)
Inductive Event : Type :=
| EventResize (w h : Z)
| EventKey (k : Key)
| EventOther.

(** The local variables [topline] and [height] of [DisplayHelp]. *)
Record State : Type := mkState {
  topline : Z;
  height : Z
}.

(** A call [screen.SetContent(x, y, ch, nil, defStyle)]: the column, the
    row and the rune. *)
Definition Cell : Type := (Z * Z * Z)%type.

(** [for y, line := range lines { for x, ch := range line {
    screen.SetContent(x, y, ch, nil, st) } }] *)
Fixpoint drawLines (y : Z) (ls : list string) : list Cell :=
  match ls with
  | [] => []
  | l :: rest =>
      map (fun xc => (fst xc, y, snd xc)) (rangeString l)
      ++ drawLines (y + 1) rest
  end.

(** The end of the visible slice: [topline + height], cut at the number
    of lines. *)
Definition lineEnd (totalLines : list string) (st : State) : Z :=
  if topline st + height st >? Z.of_nat (List.length totalLines)
  then Z.of_nat (List.length totalLines)
  else topline st + height st.

(** One frame: the cells set between [screen.Clear()] and
    [screen.Show()]; [None] when the slice expression panics. *)
Definition frame (totalLines : list string) (st : State) : option (list Cell) :=
  match slice totalLines (topline st) (lineEnd totalLines st) with
  | Some ls => Some (drawLines 0 ls)
  | None => None
  end.

(** The [switch] on the polled event: the next state, or [None] when
    [DisplayHelp] returns. *)
Definition step (totalLines : list string) (e : Event) (st : State) : option State :=
  match e with
  | EventResize _ h => Some (mkState (topline st) h)
  | EventKey KeyUp =>
      Some (if topline st >? 0 then mkState (topline st - 1) (height st) else st)
  | EventKey KeyDown =>
      Some (if topline st <? Z.of_nat (List.length totalLines) - height st
            then mkState (topline st + 1) (height st) else st)
  | EventKey KeyCtrlQ | EventKey KeyCtrlW | EventKey KeyEscape
  | EventKey KeyCtrlC => None
  | EventKey KeyOther => Some st
  | EventOther => Some st
  end.

(** How a run of the loop on a finite list of events ends: it returned,
    it panicked, or it waits in [screen.PollEvent()] for the next
    event; each with the frames shown so far. *)
Inductive Outcome : Type :=
| Returned (frames : list (list Cell))
| Panicked (frames : list (list Cell))
| Waiting (frames : list (list Cell)) (st : State).

(** The [for] loop of [DisplayHelp]. *)
Fixpoint loop (totalLines : list string) (events : list Event) (st : State)
    (frames : list (list Cell)) : Outcome :=
  match frame totalLines st with
  | None => Panicked frames
  | Some f =>
      match events with
      | [] => Waiting (frames ++ [f]) st
      | e :: rest =>
          match step totalLines e st with
          | None => Returned (frames ++ [f])
          | Some st' => loop totalLines rest st' (frames ++ [f])
          end
      end
  end.

(** [DisplayHelp] displays the help text on a screen of the given size
    and handles the events polled, until it returns.  (Hiding the
    cursor is left out.) *)
Definition DisplayHelp (size : Z * Z) (events : list Event) : Outcome :=
  loop (SplitLines helpTxt) events (mkState 0 (snd size)) [].

(** The keys that end the help screen. *)
Definition quits (e : Event) : bool :=
  match e with
  | EventKey KeyCtrlQ | EventKey KeyCtrlW | EventKey KeyEscape
  | EventKey KeyCtrlC => true
  | _ => false
  end.

(** The heights that the resize events of a list announce are not
    negative. *)
Definition sizesOk (events : list Event) : Prop :=
  forall w h, In (EventResize w h) events -> 0 <= h.

End Help.

(** The states of the help screen from which a frame can be drawn. *)
Definition helpSafe (totalLines : list string) (st : Help.State) : Prop :=
  0 <= Help.topline st <= Z.of_nat (List.length totalLines) /\
  0 <= Help.height st.

(** * Rendering the view

    [DisplayView] draws through [screen.SetContent]; the styles of the
    screen library, the colour scheme and the slices of the syntax
    matches are defined outside [view.go]. *)

Class Styles {ET : Extern} : Type := {
  (** [tcell.Style] *)
  Style : Type;
  (** the global [defStyle] *)
  defStyle : Style;
  (** the zero value of [tcell.Style], with which
      [var highlightStyle tcell.Style] starts *)
  zeroStyle : Style;
  (** [st.Reverse(true)] *)
  Reverse : Style -> Style;
  (** the global map [colorscheme] *)
  colorscheme : string -> option Style;
  (** [m[lineN][colN]]; [None] when an index is out of range *)
  matchAt : SyntaxMatches -> Z -> Z -> option Style
}.

Section Rendering.

Context {ET : Extern} {CO : Collab} {SY : Styles}.

Import GoText.

(** A call [screen.SetContent(x, y, ch, nil, style)]: the column, the
    row, the rune and the style. *)
Definition Write : Type := (Z * Z * Z * Style)%type.

Definition row (w : Write) : Z := snd (fst (fst w)).
Definition column (w : Write) : Z := fst (fst (fst w)).

(** [lineNumStyle := defStyle; if style, ok :=
    colorscheme["line-number"]; ok { lineNumStyle = style }] *)
Definition lineNumStyle : Style :=
  match colorscheme "line-number" with
  | Some style => style
  | None => defStyle
  end.

(** [defStyle.Reverse(true)], or [colorscheme["selection"]] when the
    colour scheme has it. *)
Definition selectionStyle : Style :=
  match colorscheme "selection" with
  | Some style => style
  | None => Reverse defStyle
  end.

(** The test of [DisplayView] for a selected character. *)
Definition selected (c : Cursor) (charNum : Z) : bool :=
  HasSelection c &&
  ((charNum >=? fst (curSelection c)) && (charNum <? snd (curSelection c))
   || (charNum <? fst (curSelection c)) && (charNum >=? snd (curSelection c))).

(** [screen.SetContent(x, lineN, ch, nil, st); x++] for each rune of a
    list. *)
Fixpoint putRunes (x0 lineN : Z) (rs : list Z) (st : Style) : list Write :=
  match rs with
  | [] => []
  | ch :: rest => (x0, lineN, ch, st) :: putRunes (x0 + 1) lineN rest st
  end.

(** The line number of a row: the spaces before it, its digits and the
    space after it, from column 0 on; with the writes, the column [x]
    reached. *)
Definition drawLineNum (maxLineLength lineN lineNo : Z) : list Write * Z :=
  let lineNum := Itoa lineNo in
  let cells :=
    repeat 32 (Z.to_nat (maxLineLength - Z.of_nat (String.length lineNum)))
    ++ runes lineNum ++ [32] in
  (putRunes 0 lineN cells lineNumStyle, Z.of_nat (List.length cells)).

(** The variables that the loop over the columns of a row updates. *)
Record Pen : Type := mkPen {
  charNum : Z;
  highlightStyle : Style;
  tabchars : Z;
  xpos : Z
}.

(** [for i := 0; i < tabSize-1; i++ { tabchars++; if
    x-v.leftCol+tabchars >= v.lineNumOffset { screen.SetContent(...) } }]:
    the writes and the value of [tabchars] reached. *)
Fixpoint tabFill (n : nat) (v : View) (lineN x0 tc : Z) (st : Style)
    : list Write * Z :=
  match n with
  | O => ([], tc)
  | S n' =>
      let r := tabFill n' v lineN x0 (tc + 1) st in
      ((if x0 - leftCol v + (tc + 1) >=? lineNumOffset v
        then [(x0 - leftCol v + (tc + 1), lineN, 32, st)] else [])
       ++ fst r,
       snd r)
  end.

(** The body of the loop over the columns, after its [break]: the rune
    in column [colN] is drawn; [None] when an index is out of range. *)
Definition drawRune (s : Settings) (v : View) (rs : list Z) (lineN colN : Z)
    (p : Pen) : option (Pen * list Write) :=
  match index rs colN with
  | None => None
  | Some ch =>
      match (if Syntax s then matchAt (matches v) lineN colN
             else Some (highlightStyle p)) with
      | None => None
      | Some hl =>
          let lineStyle :=
            if selected (cursor v) (charNum p) then selectionStyle else hl in
          let drawn :=
            if ch =? 9 then
              let r := tabFill (Z.to_nat (TabSize s - 1)) v lineN (xpos p)
                         (tabchars p) lineStyle in
              ((xpos p + tabchars p, lineN, 32, lineStyle) :: fst r, snd r)
            else
              (if xpos p - leftCol v + tabchars p >=? lineNumOffset v
               then [(xpos p - leftCol v + tabchars p, lineN, ch, lineStyle)]
               else [],
               tabchars p) in
          Some (mkPen (charNum p + 1) hl (snd drawn) (xpos p + 1), fst drawn)
      end
  end.

(** [for colN := v.leftCol; colN < v.leftCol+v.width; colN++]: [n] is
    the number of columns still to go. *)
Fixpoint drawRunes (n : nat) (s : Settings) (v : View) (rs : list Z)
    (lineN colN : Z) (p : Pen) : option (Pen * list Write) :=
  match n with
  | O => Some (p, [])
  | S n' =>
      if colN >=? Z.of_nat (List.length rs) then Some (p, [])
      else
        match drawRune s v rs lineN colN p with
        | None => None
        | Some (p1, ws) =>
            match drawRunes n' s v rs lineN (colN + 1) p1 with
            | None => None
            | Some (p2, ws') => Some (p2, ws ++ ws')
            end
        end
  end.

(** The body of the loop over the rows, after its [break]: the line
    number, the runes of the line and the cell of a selected newline.
    With the writes, the values of [charNum] and [highlightStyle] for
    the next row. *)
Definition drawLine (s : Settings) (v : View) (maxLineLength lineN : Z)
    (charNum0 : Z) (hl : Style) : option (Z * Style * list Write) :=
  match index (lines (buf v)) (lineN + topline v) with
  | None => None
  | Some line =>
      let g := drawLineNum maxLineLength lineN (lineN + topline v + 1) in
      match drawRunes (Z.to_nat (width v)) s v (runes line) lineN (leftCol v)
              (mkPen charNum0 hl 0 (snd g)) with
      | None => None
      | Some (p, ws) =>
          Some (charNum p + 1, highlightStyle p,
                fst g ++ ws ++
                (if selected (cursor v) (charNum p)
                 then [(xpos p - leftCol v + tabchars p, lineN, 32, selectionStyle)]
                 else []))
      end
  end.

(** [for lineN := 0; lineN < v.height; lineN++]: [n] is the number of
    rows still to go. *)
Fixpoint drawLines (n : nat) (s : Settings) (v : View) (maxLineLength lineN : Z)
    (charNum0 : Z) (hl : Style) : option (list Write) :=
  match n with
  | O => Some []
  | S n' =>
      if lineN + topline v >=? numLines v then Some []
      else
        match drawLine s v maxLineLength lineN charNum0 hl with
        | None => None
        | Some (c, hl', ws) =>
            match drawLines n' s v maxLineLength (lineN + 1) c hl' with
            | None => None
            | Some ws' => Some (ws ++ ws')
            end
        end
  end.

(** [DisplayView]: the view with the gutter width stored, and the calls
    of [screen.SetContent] in their order; [None] for a panic. *)
Definition DisplayView (s : Settings) (v : View) : option (View * list Write) :=
  let charNum0 := ToCharPos 0 (topline v) (buf v) in
  let maxLineLength := Itoa_len (numLines v) in
  let v' := with_lineNumOffset (maxLineLength + 1) v in
  match drawLines (Z.to_nat (height v')) s v' maxLineLength 0 charNum0 zeroStyle with
  | None => None
  | Some ws => Some (v', ws)
  end.

(** ** Vocabulary of the statements on [DisplayView] *)

(** The writes of a frame that go to one row of the screen. *)
Definition rowOf (lineN : Z) (ws : list Write) : list Write :=
  filter (fun w => row w =? lineN) ws.

(** [screen.SetContent] for a run of cells, each with its style, from
    column [x0] on. *)
Fixpoint putCells (x0 lineN : Z) (cs : list (Z * Style)) : list Write :=
  match cs with
  | [] => []
  | c :: rest => (x0, lineN, fst c, snd c) :: putCells (x0 + 1) lineN rest
  end.

(** What stands for a rune on the screen: the rune itself, and for a
    tab as many spaces as the tab size, one at least. *)
Definition shown (s : Settings) (ch : Z) : list Z :=
  if ch =? 9 then repeat 32 (Z.to_nat (Z.max 1 (TabSize s))) else [ch].

(** The style of the rune in column [colN] of row [lineN] that is drawn
    when [charNum] is [c]: the selection style inside the selection,
    otherwise the style of the syntax matches, or the zero style when
    syntax highlighting is off. *)
Definition styleOf (s : Settings) (v : View) (lineN colN c : Z) : Style :=
  if selected (cursor v) c then selectionStyle
  else if Syntax s then
    match matchAt (matches v) lineN colN with
    | Some st => st
    | None => zeroStyle
    end
  else zeroStyle.

(** The cells of the runes [rs], which stand in the columns from [colN]
    on and are numbered from [c] on. *)
Fixpoint textCells (s : Settings) (v : View) (lineN colN c : Z) (rs : list Z)
    : list (Z * Style) :=
  match rs with
  | [] => []
  | ch :: rest =>
      map (fun r => (r, styleOf s v lineN colN c)) (shown s ch)
      ++ textCells s v lineN (colN + 1) (c + 1) rest
  end.

(** The columns of a line that the loop over the columns visits. *)
Definition visited (v : View) (line : string) : list Z :=
  filter (fun colN => (leftCol v <=? colN) && (colN <? leftCol v + width v))
    (map Z.of_nat (seq 0 (List.length (runes line)))).

(** The syntax matches have a style for every rune that the view
    shows. *)
Definition covered (v : View) : bool :=
  forallb
    (fun lineN =>
       match index (lines (buf v)) (lineN + topline v) with
       | None => true
       | Some line =>
           forallb (fun colN =>
                      match matchAt (matches v) lineN colN with
                      | Some _ => true
                      | None => false
                      end)
             (visited v line)
       end)
    (map Z.of_nat (seq 0 (Z.to_nat (height v)))).

End Rendering.

(** ** Further sample sessions *)

Section FurtherSessions.

#[local] Existing Instance Core.extern.
#[local] Existing Instance Core.collab.

(** Thirty lines in a view of height 10, scrolled down by five. *)
Definition session30at5 : View := ScrollDown 5 (view Core.session30).

(** The two-line session with the whole text selected. *)
Definition sessionSelected : World :=
  Core.after_ (Core.keys [KeyCtrlA]) Core.sessionHello.

(** The two-line session with the left button held down on the [e] of
    [hello]. *)
Definition sessionPressed : World :=
  Core.after_ [(Core.ms 1000, EventMouse 4 1 Button1)] Core.sessionHello.

(** The two-line session after an [a] was typed, with the answer [Y]
    waiting at the prompt. *)
Definition sessionUnsaved : World :=
  let w := Core.after_ [(0, EventKey KeyRune 97)] Core.sessionHello in
  mkWorld (view w)
    (with_messenger (Core.mkMessenger [] [("Y"%string, false)]) (glob w)).

(** Two lines down, a resize to ten rows, one line up. *)
Definition helpEvents : list Help.Event :=
  [Help.EventKey Help.KeyDown; Help.EventKey Help.KeyDown;
   Help.EventResize 80 10; Help.EventKey Help.KeyUp].

(** The styles as numbers: the default style is 1, the zero style 0,
    a reversed style lies 100 above its style; the colour scheme has a
    style for the selection only; the matches of the concrete core are
    indexed as slices. *)
Definition plainStyles : @Styles Core.extern :=
  @Build_Styles Core.extern Z 1 0 (fun st => st + 100)
    (fun name => if String.eqb name "selection" then Some 7 else None)
    (fun m lineN colN =>
       match GoText.index m lineN with
       | Some styles => GoText.index styles colN
       | None => None
       end).


End FurtherSessions.



(** * Properties of the numerics *)

(** Without overflow the machine integer is the mathematical one. *)
Lemma wrap64_exact (z : Z) : - 2 ^ 63 <= z < 2 ^ 63 -> wrap64 z = z.
Proof.
  intros H. unfold wrap64. rewrite Z.mod_small; lia.
Qed.

Lemma wrap64_int64 (z : Z) : int64 z -> wrap64 z = z.
Proof.
  unfold int64, minInt64, maxInt64. intros H. apply wrap64_exact. lia.
Qed.


(** On every screen of up to 2000 cells, a view of 100 percent has the
    size of the screen and a view of 50 percent half of it, rounded
    down: the [float32] arithmetic of [Resize] is exact there. *)
Example percent_of_exact :
  forallb (fun n => (percent_of n 100 =? n) && (percent_of n 50 =? n / 2))
    (map Z.of_nat (seq 0 2001)) = true.
Proof. vm_compute. reflexivity. Qed.

(** * Properties of the viewport *)

(** Case analysis on the integer tests of the source. *)
Ltac ztests :=
  rewrite ?Z.geb_leb, ?Z.gtb_ltb in *;
  repeat match goal with
         | |- context [(?a <=? ?b)%Z] => destruct (Z.leb_spec a b)
         | |- context [(?a <? ?b)%Z] => destruct (Z.ltb_spec a b)
         end.

Ltac viewport :=
  unfold PageUp, PageDown, HalfPageUp, HalfPageDown, ScrollUp, ScrollDown,
    numLines in *;
  ztests; cbn in *; try lia.

Section Viewport.

Context {ET : Extern}.

Lemma sameButTopline_refl (v : View) : sameButTopline v v.
Proof. destruct v; reflexivity. Qed.

Lemma sameButTopline_set (a : Z) (v : View) : sameButTopline v (with_topline a v).
Proof. reflexivity. Qed.

Lemma ScrollUp_frame (n : Z) (v : View) : sameButTopline v (ScrollUp n v).
Proof.
  unfold ScrollUp.
  destruct (topline v - n >=? 0); [apply sameButTopline_set|].
  destruct (topline v >? 0); [apply sameButTopline_set|apply sameButTopline_refl].
Qed.

Lemma ScrollDown_frame (n : Z) (v : View) : sameButTopline v (ScrollDown n v).
Proof.
  unfold ScrollDown.
  destruct (topline v + n <=? numLines v - height v); [apply sameButTopline_set|].
  destruct (topline v <? numLines v - height v);
    [apply sameButTopline_set|apply sameButTopline_refl].
Qed.

Lemma frame_numLines (v v' : View) :
  sameButTopline v v' -> numLines v' = numLines v /\ height v' = height v.
Proof. intros ->. split; reflexivity. Qed.

(** [numLines] is a length. *)
Lemma numLines_nonneg (v : View) : 0 <= numLines v.
Proof. unfold numLines. lia. Qed.

(** Within [int64] the scroll methods of the machine are those of the
    model. *)
Lemma ScrollUp_machine (n : Z) (v : View) :
  int64 (topline v) -> int64 (topline v - n) ->
  Machine.ScrollUp n v = ScrollUp n v.
Proof.
  intros Ht Hn. unfold Machine.ScrollUp, ScrollUp.
  rewrite (wrap64_int64 _ Hn).
  destruct (topline v - n >=? 0); [reflexivity|].
  rewrite Z.gtb_ltb. destruct (Z.ltb_spec 0 (topline v)); [|reflexivity].
  rewrite wrap64_int64; [reflexivity|].
  unfold int64, minInt64, maxInt64 in *. lia.
Qed.

Lemma ScrollDown_machine (n : Z) (v : View) :
  int64 (topline v) -> int64 (topline v + n) ->
  int64 (numLines v - height v) ->
  Machine.ScrollDown n v = ScrollDown n v.
Proof.
  intros Ht Hn Hl. unfold Machine.ScrollDown, ScrollDown.
  rewrite (wrap64_int64 _ Hn), (wrap64_int64 _ Hl).
  destruct (topline v + n <=? numLines v - height v); [reflexivity|].
  destruct (Z.ltb_spec (topline v) (numLines v - height v)); [|reflexivity].
  rewrite wrap64_int64; [reflexivity|].
  unfold int64, minInt64, maxInt64 in *. lia.
Qed.




(** C7.  [PageDown] and [HalfPageDown] clamp at the end of the document:
    when fewer lines than the step remain below the viewport and the
    document is at least as long as the viewport, [topline] becomes
    exactly [L-H]; on a document shorter than the viewport [PageDown]
    changes nothing. *)
Theorem PageDown_end_clamp (v : View) :
  (numLines v >= height v ->
   numLines v - (topline v + height v) < height v ->
   topline (PageDown v) = numLines v - height v) /\
  (numLines v >= height v ->
   numLines v - (topline v + height v) < Z.quot (height v) 2 ->
   topline (HalfPageDown v) = numLines v - height v) /\
  (numLines v < height v -> 0 <= topline v -> PageDown v = v).
Proof.
  repeat split; intros.
  - viewport.
  - unfold HalfPageDown, ScrollDown. ztests; cbn; lia.
  - pose proof (numLines_nonneg v). unfold PageDown, ScrollDown. ztests; try lia.
    reflexivity.
Qed.

(** [Resize] recomputes the size and leaves the scroll position alone. *)
Lemma Resize_topline (w h : Z) (v : View) :
  topline (Resize w h v) = topline v /\ numLines (Resize w h v) = numLines v.
Proof. split; reflexivity. Qed.

Lemma quot2_nonneg (h : Z) : 0 <= h -> 0 <= Z.quot h 2.
Proof. intros. apply Z.quot_pos; lia. Qed.

Lemma ScrollUp_inv (n : Z) (v : View) :
  0 <= n -> toplineInv v -> toplineInv (ScrollUp n v).
Proof. unfold toplineInv. intros. viewport. Qed.

Lemma ScrollDown_inv (n : Z) (v : View) :
  0 <= n -> toplineInv v -> toplineInv (ScrollDown n v).
Proof. unfold toplineInv. intros. viewport. Qed.

(** The same on the machine, for a step and a sum within [int64]. *)
Lemma Machine_ScrollUp_inv (n : Z) (v : View) :
  0 <= n <= maxInt64 -> int64 (numLines v - height v) ->
  toplineInv v -> toplineInv (Machine.ScrollUp n v).
Proof.
  intros Hn Hl Hi. rewrite ScrollUp_machine.
  - apply ScrollUp_inv; [lia|exact Hi].
  - unfold toplineInv, int64, minInt64, maxInt64 in *. lia.
  - unfold toplineInv, int64, minInt64, maxInt64 in *. lia.
Qed.

Lemma Machine_ScrollDown_inv (n : Z) (v : View) :
  0 <= n -> topline v + n <= maxInt64 -> int64 (numLines v - height v) ->
  toplineInv v -> toplineInv (Machine.ScrollDown n v).
Proof.
  intros Hn Hs Hl Hi. rewrite ScrollDown_machine.
  - apply ScrollDown_inv; [lia|exact Hi].
  - unfold toplineInv, int64, minInt64, maxInt64 in *. lia.
  - unfold toplineInv, int64, minInt64, maxInt64 in *. lia.
  - exact Hl.
Qed.

Lemma PageUp_inv (v : View) :
  0 <= height v -> toplineInv v -> toplineInv (PageUp v).
Proof. unfold toplineInv. intros. viewport. Qed.

Lemma PageDown_inv (v : View) :
  0 <= height v -> toplineInv v -> toplineInv (PageDown v).
Proof. unfold toplineInv. intros. viewport. Qed.

Lemma HalfPageUp_inv (v : View) :
  0 <= height v -> toplineInv v -> toplineInv (HalfPageUp v).
Proof.
  unfold toplineInv. intros H0 H. pose proof (quot2_nonneg _ H0).
  unfold HalfPageUp, ScrollUp, numLines in *. ztests; cbn; lia.
Qed.

Lemma HalfPageDown_inv (v : View) :
  0 <= height v -> toplineInv v -> toplineInv (HalfPageDown v).
Proof.
  unfold toplineInv. intros H0 H. pose proof (quot2_nonneg _ H0).
  unfold HalfPageDown, ScrollDown, numLines in *. ztests; cbn; lia.
Qed.

(** The steps below zero that the hypotheses of the lemmas above exclude:
    a negative step moves the view the other way, past the boundary. *)
Lemma ScrollUp_negative_step (v : View) :
  0 <= topline v -> topline (ScrollUp (-1) v) = topline v + 1.
Proof. intros. viewport. Qed.

End Viewport.

(** * Properties of [Relocate] *)

Section Relocation.

Context {ET : Extern} {CO : Collab}.

Ltac relocate :=
  unfold Relocate, lineVisible, columnVisible, columnInWindow, cursorX,
    toplineInv, numLines in *;
  repeat (ztests; cbn in * ); try lia.

(** [Relocate] touches [topline] and [leftCol] only. *)
Lemma Relocate_frame (s : Settings) (v : View) :
  snd (Relocate s v) =
  with_leftCol (leftCol (snd (Relocate s v)))
    (with_topline (topline (snd (Relocate s v))) v).
Proof. destruct v. relocate; reflexivity. Qed.

Lemma Relocate_cursor (s : Settings) (v : View) :
  cursor (snd (Relocate s v)) = cursor v /\
  buf (snd (Relocate s v)) = buf v /\
  updateLines (snd (Relocate s v)) = updateLines v /\
  height (snd (Relocate s v)) = height v.
Proof. rewrite Relocate_frame. repeat split. Qed.

(** A cursor that is visible makes [Relocate] answer [false] and change
    nothing. *)
Lemma Relocate_visible (s : Settings) (v : View) :
  lineVisible v -> columnVisible s v -> Relocate s v = (false, v).
Proof. intros Hl [Hc1 Hc2]. relocate; reflexivity. Qed.

(** A changed [topline] or [leftCol] is always reported. *)
Lemma Relocate_moved_true (s : Settings) (v : View) :
  topline (snd (Relocate s v)) <> topline v \/
  leftCol (snd (Relocate s v)) <> leftCol v ->
  fst (Relocate s v) = true.
Proof. relocate; intros [H|H]; try reflexivity; congruence. Qed.

Lemma Relocate_inv (s : Settings) (v : View) :
  0 <= y (cursor v) <= numLines v - 1 ->
  toplineInv v -> toplineInv (snd (Relocate s v)).
Proof. intros Hy Hi. relocate. Qed.

(** C1, amended.  For a view of height at least 1 whose cursor line is a
    line of the document and whose width exceeds the gutter width plus 1:
    after [Relocate] the cursor's line lies within
    [[topline, topline+height)], its visual column is not left of
    [leftCol] and, with the gutter added, lies below [leftCol+width] (so
    that column plus gutter lies within [[leftCol, leftCol+width)]); and
    when the cursor already was visible in this sense, [Relocate] leaves
    the view as it is. *)
Theorem Relocate_brings_cursor_into_view (s : Settings) (v : View) :
  1 <= height v ->
  0 <= y (cursor v) <= numLines v - 1 ->
  0 <= lineNumOffset v ->
  lineNumOffset v + 1 < width v ->
  lineVisible (snd (Relocate s v)) /\
  columnVisible s (snd (Relocate s v)) /\
  columnInWindow s (snd (Relocate s v)) /\
  (lineVisible v -> columnVisible s v ->
   topline (snd (Relocate s v)) = topline v /\
   leftCol (snd (Relocate s v)) = leftCol v).
Proof.
  intros Hh Hy Hg Hw. repeat split.
  1-6: relocate.
  all: rewrite (Relocate_visible s v) by assumption; reflexivity.
Qed.

(** C9, amended.  For a view of height at least 1 that is at least as
    wide as the gutter plus 1, [Relocate] returns true exactly when it
    changed [topline] or [leftCol].  For every view, of any size, a
    changed [topline] or [leftCol] makes it return true, and when the
    cursor is visible it returns false and leaves the view as it is. *)
Theorem Relocate_true_iff_moved (s : Settings) (v : View) :
  (1 <= height v ->
   lineNumOffset v + 1 <= width v ->
   (fst (Relocate s v) = true <->
    topline (snd (Relocate s v)) <> topline v \/
    leftCol (snd (Relocate s v)) <> leftCol v)) /\
  (topline (snd (Relocate s v)) <> topline v \/
   leftCol (snd (Relocate s v)) <> leftCol v ->
   fst (Relocate s v) = true) /\
  (lineVisible v -> columnVisible s v -> Relocate s v = (false, v)).
Proof.
  split; [|split].
  - intros Hh Hw. split.
    + relocate; intros H; try discriminate H; lia.
    + apply Relocate_moved_true.
  - apply Relocate_moved_true.
  - apply Relocate_visible.
Qed.

End Relocation.

(** * Properties of the clipboard commands *)

Section Commands.

Context {ET : Extern} {CO : Collab}.

(** C8.  When the clipboard is unsupported, [Cut] with a selection and
    [Paste] hand the error message to the messenger and do nothing else:
    the view (buffer, cursor position, selection) is the one before. *)
Theorem Cut_Paste_unsupported_abort (w : World) :
  clipboard_Unsupported (clipboard (glob w)) = true ->
  (HasSelection (cursor (view w)) = true ->
   Cut w = Some (tt, afterError unsupportedMsg w)) /\
  Paste w = Some (tt, afterError unsupportedMsg w).
Proof.
  intros Hu. split.
  - intros Hs. unfold Cut, bind, cursor_HasSelection, gets. cbn.
    rewrite Hs, Hu. reflexivity.
  - unfold Paste, bind, gets. cbn. rewrite Hu. reflexivity.
Qed.

(** C10.  Without a selection, [Copy] and [Cut] return the world they
    were given: clipboard, buffer, cursor, selection and messenger are
    untouched, whether the clipboard is supported or not. *)
Theorem Copy_Cut_without_selection_noop (w : World) :
  HasSelection (cursor (view w)) = false ->
  Copy w = Some (tt, w) /\ Cut w = Some (tt, w).
Proof.
  intros Hs. split.
  - unfold Copy, bind, cursor_HasSelection, gets. cbn. rewrite Hs. reflexivity.
  - unfold Cut, bind, cursor_HasSelection, gets. cbn. rewrite Hs. reflexivity.
Qed.

End Commands.

(** * Properties of the event dispatch *)

Section Dispatch.

Context {ET : Extern} {CO : Collab}.

Lemma closing_eq (r : bool) (w : World) :
  bind (when r (modify (fun w =>
          mkWorld (snd (Relocate (settings (glob w)) (view w))) (glob w))))
    (fun _ => bind the_settings (fun s =>
       when (Syntax s) (modify (fun w =>
          mkWorld (with_matches (Match (view w)) (view w)) (glob w))))) w =
  Some (tt, finish r w).
Proof.
  unfold finish, bind, the_settings, gets, when, modify, ret.
  destruct r; cbn; destruct (Syntax (settings (glob w))); reflexivity.
Qed.

Lemma HandleEvent_eq (event : Event) (w : World) :
  HandleEvent event w =
  match dispatch event (start w) with
  | Some (r, w1) => Some (tt, finish r w1)
  | None => None
  end.
Proof.
  unfold HandleEvent. unfold bind at 1. unfold on_view at 1, modify at 1.
  unfold bind at 1. fold (start w).
  change (match event with
          | EventResize w0 h => bind (on_view (Resize w0 h)) (fun _ => ret true)
          | EventKey k r => handleKey k r
          | EventMouse x0 y0 b => handleMouse x0 y0 b
          | EventOther => ret true
          end) with (dispatch event).
  destruct (dispatch event (start w)) as [[r w1]|]; [|reflexivity].
  apply closing_eq.
Qed.

(** The closing step touches the scroll position and the matches only. *)
Lemma finish_keeps (r : bool) (w : World) :
  cursor (view (finish r w)) = cursor (view w) /\
  buf (view (finish r w)) = buf (view w) /\
  updateLines (view (finish r w)) = updateLines (view w) /\
  height (view (finish r w)) = height (view w) /\
  mouseReleased (view (finish r w)) = mouseReleased (view w) /\
  lastClickTime (view (finish r w)) = lastClickTime (view w) /\
  doubleClick (view (finish r w)) = doubleClick (view w) /\
  tripleClick (view (finish r w)) = tripleClick (view w) /\
  glob (finish r w) = glob w.
Proof.
  unfold finish. destruct r; cbn.
  - rewrite Relocate_frame.
    destruct (Syntax (settings (glob w))); cbn; repeat split.
  - destruct (Syntax (settings (glob w))); cbn; repeat split.
Qed.











(** *** Mouse clicks *)

Lemma nth_error_line (v : View) (n : Z) :
  0 <= n < numLines v ->
  exists l, nth_error (lines (buf v)) (Z.to_nat n) = Some l.
Proof.
  unfold numLines. intros H.
  destruct (nth_error (lines (buf v)) (Z.to_nat n)) as [l|] eqn:E.
  - exists l. reflexivity.
  - apply nth_error_None in E. lia.
Qed.

(** [MoveToMouseClick] moves the cursor and may scroll down; nothing
    else changes. *)
Lemma MoveToMouseClick_frame (s : Settings) (a b : Z) (v v1 : View) :
  MoveToMouseClick s a b v = Some v1 ->
  v1 = with_cursor (cursor v1) (with_topline (topline v1) v).
Proof.
  unfold MoveToMouseClick.
  destruct (b - topline v >? height v - 1).
  - pose proof (ScrollDown_frame 1 v) as Hf. unfold sameButTopline in Hf.
    revert Hf. generalize (ScrollDown 1 v). intros v2 Hf.
    match goal with
    | |- context [nth_error ?l ?n] => destruct (nth_error l n)
    end; [|discriminate].
    intros [= <-]. rewrite Hf. reflexivity.
  - match goal with
    | |- context [nth_error ?l ?n] => destruct (nth_error l n)
    end; [|discriminate].
    intros [= <-]. destruct v. reflexivity.
Qed.

(** On a buffer with at least one line, [MoveToMouseClick] does not
    panic. *)
Lemma MoveToMouseClick_total (s : Settings) (a b : Z) (v : View) :
  lines (buf v) <> [] -> exists v1, MoveToMouseClick s a b v = Some v1.
Proof.
  intros Hne.
  assert (Hpos : 0 < numLines v).
  { unfold numLines. destruct (lines (buf v)); [congruence|cbn; lia]. }
  unfold MoveToMouseClick.
  destruct (b - topline v >? height v - 1).
  - pose proof (ScrollDown_frame 1 v) as Hf.
    apply frame_numLines in Hf. destruct Hf as [Hn _].
    revert Hn. generalize (ScrollDown 1 v). intros v2 Hn.
    match goal with
    | |- context [nth_error (lines (buf v2)) (Z.to_nat ?n)] =>
        destruct (nth_error_line v2 n) as [l Hl]
    end.
    { rewrite Hn. ztests; lia. }
    rewrite Hl. eexists. reflexivity.
  - match goal with
    | |- context [nth_error (lines (buf v)) (Z.to_nat ?n)] =>
        destruct (nth_error_line v n) as [l Hl]
    end.
    { ztests; lia. }
    rewrite Hl. eexists. reflexivity.
Qed.

(** The case of a left button-down while the mouse is released, once the
    click is resolved. *)
Lemma click_released_case (w : World) (x0 y0 : Z) (v1 : View) :
  mouseReleased (view w) = true ->
  resolve w x0 y0 = Some v1 ->
  handleMouse x0 y0 Button1 (start w) =
  Some (true,
    let s := settings (glob w) in
    let c1 := cursor v1 in
    let v2 := with_lastClickTime (now (glob w)) v1 in
    let v3 :=
      if withinThreshold w && sameAsCursor w v1 then
        if doubleClick (view w)
        then with_cursor (SelectLine s (buf v1) c1)
               (with_doubleClick false (with_tripleClick true v2))
        else with_cursor (SelectWord s (buf v1) c1)
               (with_tripleClick false (with_doubleClick true v2))
      else with_cursor (collapsed (buf v1) c1)
             (with_tripleClick false (with_doubleClick false v2)) in
    mkWorld (with_mouseReleased false v3) (glob w)).
Proof.
  intros Hr Hv. unfold resolve, clickTarget in Hv. cbn [fst snd] in Hv.
  pose proof (MoveToMouseClick_frame _ _ _ _ _ Hv) as Hf.
  assert (Hk : mouseReleased v1 = true /\ doubleClick v1 = doubleClick (view w) /\
               lastClickTime v1 = lastClickTime (view w)).
  { rewrite Hf. cbn. auto. }
  destruct Hk as (Hk1 & Hk2 & Hk3).
  unfold handleMouse, moveToMouseClick, try_view, the_settings.
  unfold bind, gets. cbn.
  unfold start in Hv. cbn [view] in Hv. rewrite Hv. cbn.
  rewrite Hk1.
  unfold withinThreshold, sameAsCursor. cbn. rewrite Hk3.
  destruct (_ && _); cbn.
  - rewrite Hk2. destruct (doubleClick (view w)); cbn;
      unfold cursor_call, modify, ret; cbn; reflexivity.
  - unfold on_cursor, on_view, modify, ret, collapsed. cbn.
    destruct v1 as [c1 ? ? ? ? ? ? ? ? ? ? ? ? ? ? ? ?]. destruct c1.
    reflexivity.
Qed.

(** C5, amended.  When the mouse is released and the buffer has a line,
    a left button-down is resolved to a cursor position and then: if it
    arrives within the threshold after the previous button-down and
    resolves to the position the cursor had already, it selects the word
    at that position when the previous click was not a double click and
    the line when it was; otherwise it restarts as a single click, with
    the selection collapsed at the click position. *)
Theorem click_when_released (w : World) (x0 y0 : Z) :
  mouseReleased (view w) = true ->
  lines (buf (view w)) <> [] ->
  exists v1 w',
    resolve w x0 y0 = Some v1 /\
    HandleEvent (EventMouse x0 y0 Button1) w = Some (tt, w') /\
    mouseReleased (view w') = false /\
    lastClickTime (view w') = now (glob w) /\
    buf (view w') = buf v1 /\
    ((withinThreshold w && sameAsCursor w v1) = true ->
     doubleClick (view w) = false ->
     cursor (view w') = SelectWord (settings (glob w)) (buf v1) (cursor v1) /\
     doubleClick (view w') = true /\ tripleClick (view w') = false) /\
    ((withinThreshold w && sameAsCursor w v1) = true ->
     doubleClick (view w) = true ->
     cursor (view w') = SelectLine (settings (glob w)) (buf v1) (cursor v1) /\
     doubleClick (view w') = false /\ tripleClick (view w') = true) /\
    ((withinThreshold w && sameAsCursor w v1) = false ->
     cursor (view w') = collapsed (buf v1) (cursor v1) /\
     doubleClick (view w') = false /\ tripleClick (view w') = false).
Proof.
  intros Hr Hne.
  destruct (MoveToMouseClick_total (settings (glob w))
              (fst (clickTarget w x0 y0)) (snd (clickTarget w x0 y0))
              (view (start w))) as [v1 Hv]; [exact Hne|].
  fold (resolve w x0 y0) in Hv.
  pose proof (click_released_case w x0 y0 v1 Hr Hv) as Hc.
  eexists v1, _. split; [exact Hv|].
  rewrite HandleEvent_eq. cbn [dispatch]. rewrite Hc.
  split; [reflexivity|].
  match goal with
  | |- context [finish true ?w1] =>
      destruct (finish_keeps true w1) as (-> & -> & _ & _ & -> & -> & -> & -> & _)
  end.
  cbn [view].
  destruct (withinThreshold w && sameAsCursor w v1);
    destruct (doubleClick (view w)); cbn;
    repeat split; intros; try discriminate; reflexivity.
Qed.

End Dispatch.

(** * The invariant of the scroll position *)

Section Invariant.

Context {ET : Extern} {CO : Collab}.

Lemma Resize_inv (w h : Z) (v : View) :
  toplineInv v -> height (Resize w h v) <= height v -> toplineInv (Resize w h v).
Proof.
  unfold toplineInv. intros Hi Hh.
  destruct (Resize_topline w h v) as [-> ->]. lia.
Qed.

(** C3, amended.  [topline] within [[0, max(0, lineCount-height)]] is
    preserved by [ScrollUp n] for every step [n >= 0] within [int64] and
    by [ScrollDown n] for every step [n >= 0] whose sum [topline + n] is
    within [int64] (a sum beyond it wraps below zero), by [PageUp],
    [PageDown], [HalfPageUp] and [HalfPageDown] when the height is not
    negative, and by [Relocate] when the cursor is on a line of the
    document.  [Resize] never changes [topline]; the invariant survives
    it when the height does not grow. *)
Theorem topline_invariant_preserved (s : Settings) (v : View) :
  toplineInv v ->
  (forall n,
     0 <= n <= maxInt64 -> int64 (numLines v - height v) ->
     toplineInv (Machine.ScrollUp n v) /\
     (topline v + n <= maxInt64 -> toplineInv (Machine.ScrollDown n v))) /\
  (0 <= height v ->
   toplineInv (PageUp v) /\ toplineInv (PageDown v) /\
   toplineInv (HalfPageUp v) /\ toplineInv (HalfPageDown v)) /\
  (0 <= y (cursor v) <= numLines v - 1 -> toplineInv (snd (Relocate s v))) /\
  (forall w h,
     topline (Resize w h v) = topline v /\
     (height (Resize w h v) <= height v -> toplineInv (Resize w h v))).
Proof.
  intros Hi. split; [|repeat split].
  - intros n Hn Hl. split.
    + apply Machine_ScrollUp_inv; assumption.
    + intros Hs. apply Machine_ScrollDown_inv; try assumption. lia.
  - apply PageUp_inv; assumption.
  - apply PageUp_inv; assumption.
  - apply PageDown_inv; assumption.
  - apply PageDown_inv; assumption.
  - apply HalfPageUp_inv; assumption.
  - apply HalfPageUp_inv; assumption.
  - apply HalfPageDown_inv; assumption.
  - apply HalfPageDown_inv; assumption.
  - apply Relocate_inv; assumption.
  - apply Relocate_inv; assumption.
  - apply Resize_inv; assumption.
  - apply Resize_inv; assumption.
Qed.

End Invariant.


(** * Scrolling and paging compose *)

Section Paging.

Context {ET : Extern}.

(** The four paging methods as one assignment to [topline]. *)
Lemma PageUp_eq (v : View) :
  PageUp v = with_topline (Z.max 0 (topline v - height v)) v.
Proof.
  unfold PageUp, ScrollUp. ztests; destruct v; cbn in *; f_equal; lia.
Qed.

Lemma HalfPageUp_eq (v : View) :
  HalfPageUp v = with_topline (Z.max 0 (topline v - Z.quot (height v) 2)) v.
Proof.
  unfold HalfPageUp, ScrollUp. generalize (Z.quot (height v) 2). intros q.
  ztests; destruct v; cbn in *; f_equal; lia.
Qed.

Lemma PageDown_eq (v : View) :
  height v <= numLines v ->
  PageDown v =
  with_topline (Z.min (topline v + height v) (numLines v - height v)) v.
Proof.
  intros H. unfold PageDown, ScrollDown.
  ztests; destruct v; unfold numLines in *; cbn in *; f_equal; lia.
Qed.

Lemma HalfPageDown_eq (v : View) :
  height v <= numLines v ->
  HalfPageDown v =
  with_topline
    (Z.min (topline v + Z.quot (height v) 2) (numLines v - height v)) v.
Proof.
  intros H. unfold HalfPageDown, ScrollDown.
  generalize (Z.quot (height v) 2). intros q.
  ztests; destruct v; unfold numLines in *; cbn in *; f_equal; lia.
Qed.

(** The round trip on the mathematical integers. *)
Lemma Scroll_round_trip_model (v : View) (n : Z) :
  (0 <= topline v - n -> topline v <= numLines v - height v ->
   ScrollUp n v = with_topline (topline v - n) v /\
   ScrollDown n (ScrollUp n v) = v) /\
  (topline v + n <= numLines v - height v -> 0 <= topline v ->
   ScrollDown n v = with_topline (topline v + n) v /\
   ScrollUp n (ScrollDown n v) = v).
Proof.
  split; intros H1 H2.
  - assert (Hu : ScrollUp n v = with_topline (topline v - n) v).
    { unfold ScrollUp. ztests; first [reflexivity|exfalso; lia]. }
    split; [exact Hu|].
    rewrite Hu. unfold ScrollDown, numLines in *. cbn.
    ztests; try (exfalso; lia). destruct v; unfold with_topline; cbn in *. f_equal. lia.
  - assert (Hd : ScrollDown n v = with_topline (topline v + n) v).
    { unfold ScrollDown. ztests; first [reflexivity|exfalso; lia]. }
    split; [exact Hd|].
    rewrite Hd. unfold ScrollUp. cbn.
    ztests; try (exfalso; lia). destruct v; unfold with_topline; cbn in *. f_equal. lia.
Qed.

(** X1.  Scrolling by [n] one way and then by [n] the other way gives
    the view back, when the first step has room and stays within
    [int64]: with [topline] and [lineCount - height] within [int64],
    [ScrollDown n] undoes [ScrollUp n] when
    [0 <= topline - n <= 2^63 - 1] and [topline] was not beyond the last
    page, and [ScrollUp n] undoes [ScrollDown n] when
    [-2^63 <= topline + n <= lineCount - height] and [topline >= 0]. *)
Theorem Scroll_round_trip (v : View) (n : Z) :
  int64 (topline v) ->
  int64 (numLines v - height v) ->
  (0 <= topline v - n <= maxInt64 ->
   topline v <= numLines v - height v ->
   Machine.ScrollDown n (Machine.ScrollUp n v) = v) /\
  (minInt64 <= topline v + n <= numLines v - height v ->
   0 <= topline v ->
   Machine.ScrollUp n (Machine.ScrollDown n v) = v).
Proof.
  intros Ht Hl.
  destruct (Scroll_round_trip_model v n) as [Hup Hdown].
  split; intros H1 H2.
  - destruct Hup as [Hu Hback]; [lia|exact H2|].
    rewrite ScrollUp_machine;
      [|exact Ht|unfold int64, minInt64, maxInt64 in *; lia].
    rewrite ScrollDown_machine; [exact Hback|..]; rewrite Hu;
      unfold int64, minInt64, maxInt64, numLines in *;
      cbn [topline with_topline buf height lines]; lia.
  - destruct Hdown as [Hd Hback]; [lia|exact H2|].
    rewrite (ScrollDown_machine n v);
      [|exact Ht|unfold int64, minInt64, maxInt64 in *; lia|exact Hl].
    rewrite ScrollUp_machine; [exact Hback|..]; rewrite Hd;
      unfold int64, minInt64, maxInt64 in *;
      cbn [topline with_topline]; lia.
Qed.

(** X2.  A page up moves [topline] up by the height but not above line
    0, a half page up by half the height; on a document at least as long
    as the viewport a page down moves it down by the height but not
    beyond [lineCount - height], a half page down by half the height.
    Nothing else in the view changes. *)
Theorem paging_closed_form (v : View) :
  PageUp v = with_topline (Z.max 0 (topline v - height v)) v /\
  HalfPageUp v = with_topline (Z.max 0 (topline v - Z.quot (height v) 2)) v /\
  (height v <= numLines v ->
   PageDown v =
   with_topline (Z.min (topline v + height v) (numLines v - height v)) v /\
   HalfPageDown v =
   with_topline
     (Z.min (topline v + Z.quot (height v) 2) (numLines v - height v)) v).
Proof.
  split; [apply PageUp_eq|]. split; [apply HalfPageUp_eq|].
  intros H. split; [apply PageDown_eq|apply HalfPageDown_eq]; exact H.
Qed.

Lemma iter_PageUp (k : nat) (v : View) :
  0 <= height v ->
  Nat.iter (S k) PageUp v =
  with_topline (Z.max 0 (topline v - Z.of_nat (S k) * height v)) v.
Proof.
  intros Hh. induction k as [|k IH].
  - change (Nat.iter 1 PageUp v) with (PageUp v).
    rewrite PageUp_eq. f_equal. lia.
  - change (Nat.iter (S (S k)) PageUp v) with (PageUp (Nat.iter (S k) PageUp v)).
    rewrite IH, PageUp_eq.
    rewrite (Nat2Z.inj_succ (S k)), Z.mul_succ_l.
    generalize (Z.of_nat (S k)). intros m.
    destruct v; unfold with_topline; cbn in *. f_equal. lia.
Qed.

Lemma iter_PageDown (k : nat) (v : View) :
  0 <= height v <= numLines v ->
  Nat.iter (S k) PageDown v =
  with_topline
    (Z.min (topline v + Z.of_nat (S k) * height v) (numLines v - height v)) v.
Proof.
  intros Hh. induction k as [|k IH].
  - change (Nat.iter 1 PageDown v) with (PageDown v).
    rewrite PageDown_eq by lia. f_equal. lia.
  - change (Nat.iter (S (S k)) PageDown v) with (PageDown (Nat.iter (S k) PageDown v)).
    rewrite IH, PageDown_eq by (unfold numLines in *; cbn; lia).
    rewrite (Nat2Z.inj_succ (S k)), Z.mul_succ_l.
    generalize (Z.of_nat (S k)). intros m.
    destruct v; unfold with_topline, numLines in *; cbn in *. f_equal. lia.
Qed.

(** X3.  With a height that is not negative, [k >= 1] page-ups leave
    [topline] at [max(0, topline - k*height)], and on a document at
    least as long as the viewport [k] page-downs leave it at
    [min(topline + k*height, lineCount - height)]: paging reaches the
    top after [topline <= k*height] and the last page after
    [topline + k*height >= lineCount - height], and stays there. *)
Theorem paging_iterated (v : View) (k : nat) :
  (0 < k)%nat ->
  0 <= height v ->
  topline (Nat.iter k PageUp v) =
    Z.max 0 (topline v - Z.of_nat k * height v) /\
  (height v <= numLines v ->
   topline (Nat.iter k PageDown v) =
     Z.min (topline v + Z.of_nat k * height v) (numLines v - height v)).
Proof.
  intros Hk Hh. destruct k as [|k]; [lia|]. split.
  - rewrite iter_PageUp by exact Hh. reflexivity.
  - intros HL. rewrite iter_PageDown by lia. reflexivity.
Qed.

End Paging.

(** * Frame rules for the computations of [HandleEvent] *)

Section FrameRules.

Context {ET : Extern} {CO : Collab}.

Context {X : Type} (obs : World -> X).

Lemma yields_ret {A : Type} (P : A -> Prop) (a : A) :
  P a -> yields obs P (ret a).
Proof. intros H w. exists a, w. repeat split. exact H. Qed.

Lemma yields_gets {A : Type} (f : World -> A) :
  yields obs (fun _ => True) (gets f).
Proof. intros w. exists (f w), w. repeat split. Qed.

Lemma yields_modify (f : World -> World) :
  (forall w, obs (f w) = obs w) -> yields obs (fun _ => True) (modify f).
Proof. intros H w. exists tt, (f w). repeat split. apply H. Qed.

Lemma yields_bind {A B : Type} (P : B -> Prop) (m : M A) (k : A -> M B) :
  yields obs (fun _ => True) m ->
  (forall a, yields obs P (k a)) ->
  yields obs P (bind m k).
Proof.
  intros Hm Hk w. destruct (Hm w) as (a & w1 & E1 & _ & O1).
  destruct (Hk a w1) as (b & w2 & E2 & Pb & O2).
  exists b, w2. unfold bind. rewrite E1. repeat split; try assumption.
  congruence.
Qed.

Lemma yields_repeatM (n : nat) (m : M unit) :
  yields obs (fun _ => True) m -> yields obs (fun _ => True) (repeatM n m).
Proof.
  intros Hm. induction n as [|n IH]; cbn [repeatM].
  - apply yields_ret. exact I.
  - apply yields_bind; [exact Hm|intros _; exact IH].
Qed.

End FrameRules.

(** Decompose a computation into its steps; every step that changes the
    world must leave the observation alone by computation. *)
Ltac frame :=
  repeat first
    [ apply yields_ret; first [reflexivity | exact I]
    | apply yields_gets
    | apply yields_modify; intros ?; reflexivity
    | apply yields_repeatM
    | apply yields_bind; [|intros ?]
    | match goal with
      | |- yields _ _ (if ?b then _ else _) => destruct b
      end ].

Ltac unfold_steps :=
  unfold handleKey, deleteSelected, updateViewport, updateCursorLine,
    storeVisualX, selectToCursor, Copy, Cut, Paste, cursor_HasSelection,
    cursor_Loc, cursor_GetVisualX, cursor_GetSelection, the_settings,
    Error, Message, when, on_cursor, on_view, on_glob, on_buf,
    cursor_call, editing_call.

Section KeysAndFrames.

Context {ET : Extern} {CO : Collab}.

(** The keys that move the cursor or edit leave the size of the view,
    the gutter and the settings alone, and ask for the relocation. *)
Lemma cursorKeys_geometry (k : Key) (r : Z) :
  In k cursorKeys -> yields geometry (eq true) (handleKey k r).
Proof.
  unfold cursorKeys. cbn [In]. intros Hk.
  repeat (destruct Hk as [<-|Hk]; [unfold_steps; frame|]).
  contradiction.
Qed.

(** When the view is at least one line high and as wide as the gutter
    plus one, [Relocate] makes the cursor visible. *)
Lemma Relocate_establishes (s : Settings) (v : View) :
  1 <= height v ->
  lineNumOffset v + 1 <= width v ->
  lineVisible (snd (Relocate s v)) /\ columnVisible s (snd (Relocate s v)).
Proof.
  intros Hh Hw.
  unfold Relocate, lineVisible, columnVisible, cursorX.
  repeat (ztests; cbn in * ); lia.
Qed.

(** X4.  In a view at least one line high and at least as wide as the
    gutter plus one, a second [Relocate] right after the first finds
    the cursor visible: it returns false and changes nothing. *)
Theorem Relocate_twice (s : Settings) (v : View) :
  1 <= height v ->
  lineNumOffset v + 1 <= width v ->
  Relocate s (snd (Relocate s v)) = (false, snd (Relocate s v)).
Proof.
  intros Hh Hw.
  destruct (Relocate_establishes s v Hh Hw) as [Hl Hc].
  apply Relocate_visible; assumption.
Qed.

(** X5.  In a view at least one line high and at least as wide as the
    gutter plus one, every key that moves the cursor or edits the text
    (arrows, newline, space, backspace, tab, undo, redo, copy, cut,
    paste, select-all, a rune, an unbound key) is handled without panic
    and leaves the cursor inside the window that [Relocate] tests: its
    line [cy] with [topline <= cy < topline + height] and its visual
    column [cx] with [leftCol <= cx] and
    [cx + lineNumOffset < leftCol + width], where [lineNumOffset] is the
    gutter width that the last [DisplayView] stored.  This is the test
    of [Relocate] and not a statement on the cells that [DisplayView]
    draws next. *)
Theorem cursor_in_window_after_key (w : World) (k : Key) (r : Z) :
  In k cursorKeys ->
  1 <= height (view w) ->
  lineNumOffset (view w) + 1 <= width (view w) ->
  exists w',
    HandleEvent (EventKey k r) w = Some (tt, w') /\
    lineVisible (view w') /\
    columnVisible (settings (glob w')) (view w').
Proof.
  intros Hk Hh Hw.
  destruct (cursorKeys_geometry k r Hk (start w)) as (b & w1 & E & <- & G).
  exists (finish true w1). rewrite HandleEvent_eq. cbn [dispatch]. rewrite E.
  split; [reflexivity|].
  unfold geometry in G. cbn in G. injection G as G1 G2 G3 G4.
  destruct (Relocate_establishes (settings (glob w1)) (view w1)) as [Hl Hc];
    [lia|lia|].
  unfold finish.
  destruct (Syntax _); cbn; split; assumption.
Qed.

End KeysAndFrames.

(** * Scrolling by key and wheel *)

Section ScrollEvents.

Context {ET : Extern} {CO : Collab}.

Lemma paging_frame (v : View) :
  sameButTopline v (PageUp v) /\ sameButTopline v (PageDown v) /\
  sameButTopline v (HalfPageUp v) /\ sameButTopline v (HalfPageDown v).
Proof.
  unfold PageUp, PageDown, HalfPageUp, HalfPageDown. repeat split.
  - destruct (_ >? _); [apply ScrollUp_frame|apply sameButTopline_set].
  - destruct (_ >? _); [apply ScrollDown_frame|].
    destruct (_ >=? _); [apply sameButTopline_set|apply sameButTopline_refl].
  - destruct (_ >? _); [apply ScrollUp_frame|apply sameButTopline_set].
  - destruct (_ >? _); [apply ScrollDown_frame|].
    destruct (_ >=? _); [apply sameButTopline_set|apply sameButTopline_refl].
Qed.

Lemma sameButTopline_unscrolled (v v' : View) :
  sameButTopline v v' ->
  unscrolled v' = unscrolled v /\ updateLines v' = updateLines v /\
  matches v' = matches v.
Proof. intros ->. repeat split. Qed.

(** What a scroll key does before the closing step. *)
Lemma scrollKeys_case (k : Key) (r : Z) (w : World) :
  In k scrollKeys ->
  handleKey k r w = Some (false, mkWorld (scrollOf k (view w)) (glob w)).
Proof.
  unfold scrollKeys. cbn [In]. intros Hk.
  repeat (destruct Hk as [<-|Hk]; [try reflexivity|]); [|contradiction].
  (* KeyEnd *)
  unfold handleKey, bind, on_view, modify, ret, scrollOf. cbn.
  do 2 f_equal. f_equal. rewrite Z.gtb_ltb.
  destruct (Z.ltb_spec (numLines (view w)) (height (view w))); f_equal; lia.
Qed.

Lemma scrollOf_frame (k : Key) (v : View) : sameButTopline v (scrollOf k v).
Proof.
  destruct (paging_frame v) as (H1 & H2 & H3 & H4).
  destruct k; cbn [scrollOf]; try assumption;
    first [apply sameButTopline_set | apply sameButTopline_refl].
Qed.

(** Scrolling does not look at the dirty range. *)
Lemma scrollOf_UpdateLines (k : Key) (a b : Z) (v : View) :
  topline (scrollOf k (UpdateLines a b v)) = topline (scrollOf k v).
Proof.
  destruct k; cbn [scrollOf]; try reflexivity;
    unfold PageUp, PageDown, HalfPageUp, HalfPageDown, ScrollUp, ScrollDown,
      numLines; cbn;
    repeat match goal with
           | |- context [if ?c then _ else _] => destruct c
           end; reflexivity.
Qed.

(** The closing step without relocation touches the matches only. *)
Lemma finish_false (w : World) :
  glob (finish false w) = glob w /\
  unscrolled (view (finish false w)) = unscrolled (view w) /\
  topline (view (finish false w)) = topline (view w) /\
  updateLines (view (finish false w)) = updateLines (view w) /\
  height (view (finish false w)) = height (view w).
Proof.
  unfold finish. destruct (Syntax _); cbn; repeat split.
Qed.

Lemma ScrollUp_UpdateLines (n a b : Z) (v : View) :
  topline (ScrollUp n (UpdateLines a b v)) = topline (ScrollUp n v).
Proof.
  unfold ScrollUp; cbn;
    repeat match goal with
           | |- context [if ?c then _ else _] => destruct c
           end; reflexivity.
Qed.

Lemma ScrollDown_UpdateLines (n a b : Z) (v : View) :
  topline (ScrollDown n (UpdateLines a b v)) = topline (ScrollDown n v).
Proof.
  unfold ScrollDown, numLines; cbn;
    repeat match goal with
           | |- context [if ?c then _ else _] => destruct c
           end; reflexivity.
Qed.

(** The wheel cases before the closing step. *)
Lemma wheel_case (x0 y0 : Z) (up : bool) (w : World) :
  handleMouse x0 y0 (if up then WheelUp else WheelDown) (start w) =
  Some (false,
        mkWorld
          (let v := (if up then ScrollUp 2 else ScrollDown 2) (view (start w)) in
           UpdateLines (topline v) (topline v + height v) v)
          (glob w)).
Proof. destruct up; reflexivity. Qed.

(** A scroll followed by [UpdateLines(topline, topline+height)] and the
    closing step without relocation. *)
Lemma scrolled_and_marked (f : View -> View) (w : World) :
  (forall v, sameButTopline v (f v)) ->
  (forall a b v, topline (f (UpdateLines a b v)) = topline (f v)) ->
  let w1 := finish false
              (mkWorld
                 (let v := f (view (start w)) in
                  UpdateLines (topline v) (topline v + height v) v)
                 (glob w)) in
  unscrolled (view w1) = unscrolled (view w) /\ glob w1 = glob w /\
  topline (view w1) = topline (f (view w)) /\
  updateLines (view w1) = viewportRange (view w1).
Proof.
  intros Hf Hu. cbv zeta.
  match goal with
  | |- context [finish false ?w1] =>
      destruct (finish_false w1) as (F1 & F2 & F3 & F4 & F5)
  end.
  unfold viewportRange. rewrite F1, F2, F3, F4, F5. cbn [view glob].
  destruct (sameButTopline_unscrolled _ _ (Hf (view (start w)))) as (E & _ & _).
  unfold UpdateLines. cbn. repeat split; [exact E|apply Hu].
Qed.

(** X6.  The Home key puts [topline] at 0 and the End key at
    [max(0, lineCount - height)], from any state; afterwards [topline]
    lies within [[0, max(0, lineCount - height)]], and the cursor has
    not moved. *)
Theorem Home_End_keys (w : World) (r : Z) :
  exists w1 w2,
    HandleEvent (EventKey KeyHome r) w = Some (tt, w1) /\
    HandleEvent (EventKey KeyEnd r) w = Some (tt, w2) /\
    topline (view w1) = 0 /\
    topline (view w2) = Z.max 0 (numLines (view w) - height (view w)) /\
    toplineInv (view w1) /\ toplineInv (view w2) /\
    cursor (view w1) = cursor (view w) /\ cursor (view w2) = cursor (view w).
Proof.
  exists (finish false (mkWorld (scrollOf KeyHome (view (start w))) (glob (start w)))),
         (finish false (mkWorld (scrollOf KeyEnd (view (start w))) (glob (start w)))).
  rewrite !HandleEvent_eq. cbn [dispatch].
  rewrite (scrollKeys_case KeyHome), (scrollKeys_case KeyEnd)
    by (unfold scrollKeys; cbn; auto).
  split; [reflexivity|]. split; [reflexivity|].
  unfold toplineInv, finish. cbn.
  destruct (Syntax _); cbn; unfold numLines; cbn; repeat split; lia.
Qed.

(** X7.  The scroll keys (Home, End, PageUp, PageDown, Ctrl-U, Ctrl-D)
    and the mouse wheel are handled without panic and change nothing
    but the scroll position, the dirty range and the matches: the
    cursor, the selection, the buffer, the undo log, the horizontal
    scroll, the size, the click state and the globals stay as they
    are, even when the cursor leaves the viewport.  After the wheel the
    dirty range is the viewport now shown. *)
Theorem scrolling_moves_nothing_else (w : World) :
  (forall k r, In k scrollKeys ->
     exists w',
       HandleEvent (EventKey k r) w = Some (tt, w') /\
       unscrolled (view w') = unscrolled (view w) /\ glob w' = glob w /\
       topline (view w') = topline (scrollOf k (view w))) /\
  (forall x0 y0,
     exists w1 w2,
       HandleEvent (EventMouse x0 y0 WheelUp) w = Some (tt, w1) /\
       HandleEvent (EventMouse x0 y0 WheelDown) w = Some (tt, w2) /\
       unscrolled (view w1) = unscrolled (view w) /\ glob w1 = glob w /\
       unscrolled (view w2) = unscrolled (view w) /\ glob w2 = glob w /\
       topline (view w1) = topline (ScrollUp 2 (view w)) /\
       topline (view w2) = topline (ScrollDown 2 (view w)) /\
       updateLines (view w1) = viewportRange (view w1) /\
       updateLines (view w2) = viewportRange (view w2)).
Proof.
  split.
  - intros k r Hk. eexists. rewrite HandleEvent_eq. cbn [dispatch].
    rewrite (scrollKeys_case k r (start w) Hk).
    split; [reflexivity|].
    match goal with
    | |- context [finish false ?w1] =>
        destruct (finish_false w1) as (-> & -> & -> & _ & _)
    end.
    cbn [view glob start].
    pose proof (scrollOf_frame k (UpdateLines (-2) 0 (view w))) as Hf.
    destruct (sameButTopline_unscrolled _ _ Hf) as (-> & _ & _).
    repeat split.
    apply scrollOf_UpdateLines.
  - intros x0 y0.
    destruct (scrolled_and_marked (ScrollUp 2) w) as (U1 & U2 & U3 & U4);
      [apply ScrollUp_frame|apply ScrollUp_UpdateLines|].
    destruct (scrolled_and_marked (ScrollDown 2) w) as (D1 & D2 & D3 & D4);
      [apply ScrollDown_frame|apply ScrollDown_UpdateLines|].
    eexists _, _. rewrite !HandleEvent_eq. cbn [dispatch].
    rewrite (wheel_case x0 y0 true), (wheel_case x0 y0 false).
    split; [reflexivity|]. split; [reflexivity|].
    repeat split; assumption.
Qed.

End ScrollEvents.

(** * Events that mark no line *)

Section QuietEvents.

Context {ET : Extern} {CO : Collab}.

Context {X : Type} (obs : World -> X).

Lemma preserves_ret {A : Type} (a : A) : preserves obs (ret a).
Proof. intros w b w' [= <- <-]. reflexivity. Qed.

Lemma preserves_gets {A : Type} (f : World -> A) : preserves obs (gets f).
Proof. intros w b w' [= <- <-]. reflexivity. Qed.

Lemma preserves_modify (f : World -> World) :
  (forall w, obs (f w) = obs w) -> preserves obs (modify f).
Proof. intros H w b w' [= <- <-]. apply H. Qed.

Lemma preserves_bind {A B : Type} (m : M A) (k : A -> M B) :
  preserves obs m -> (forall a, preserves obs (k a)) -> preserves obs (bind m k).
Proof.
  intros Hm Hk w b w' E. unfold bind in E.
  destruct (m w) as [[a w1]|] eqn:E1; [|discriminate].
  rewrite (Hk a w1 b w' E). apply (Hm w a w1 E1).
Qed.

Lemma preserves_try_view (f : View -> option View) :
  (forall v v1 g, f v = Some v1 -> obs (mkWorld v1 g) = obs (mkWorld v g)) ->
  preserves obs (try_view f).
Proof.
  intros H w b w' E. unfold try_view in E.
  destruct (f (view w)) as [v1|] eqn:E1; [|discriminate].
  injection E as <- <-. rewrite (H _ _ _ E1). destruct w; reflexivity.
Qed.

Lemma preserves_Prompt (msg : string) :
  (forall v g m, obs (mkWorld v (with_messenger m g)) = obs (mkWorld v g)) ->
  preserves obs (Prompt msg).
Proof.
  intros H w b w' E. unfold Prompt in E.
  destruct (messenger_Prompt msg (messenger (glob w))) as [r m].
  injection E as <- <-. rewrite H. destruct w; reflexivity.
Qed.

End QuietEvents.

Ltac keep :=
  repeat first
    [ apply preserves_ret
    | apply preserves_gets
    | apply preserves_modify; intros ?; reflexivity
    | apply preserves_Prompt; intros ? ? ?; reflexivity
    | apply preserves_bind; [|intros ?]
    | match goal with
      | |- preserves _ (if ?b then _ else _) => destruct b
      | |- preserves _ (match ?p with (_, _) => _ end) => destruct p
      | |- preserves _ (match ?p with Some _ => _ | None => _ end) => destruct p
      end ].

Section QuietEventsMark.

Context {ET : Extern} {CO : Collab}.

Lemma MoveToMouseClick_marks (s : Settings) (a b : Z) (v v1 : View) (g : Globals) :
  MoveToMouseClick s a b v = Some v1 ->
  marks (mkWorld v1 g) = marks (mkWorld v g).
Proof.
  intros E. apply MoveToMouseClick_frame in E. unfold marks. cbn.
  rewrite E. reflexivity.
Qed.

Lemma Save_marks : preserves marks Save.
Proof.
  unfold Save. unfold_steps. keep.
  intros w0 r0 w1 E.
  destruct (Buffer_Save (buf (view w0)) (files (glob w0))) as [[e b] fs].
  injection E as <- <-. reflexivity.
Qed.

Lemma quietKeys_marks (k : Key) (r : Z) :
  In k quietKeys -> preserves marks (handleKey k r).
Proof.
  unfold quietKeys. cbn [In]. intros Hk.
  assert (Hs : forall k', In k' scrollKeys -> preserves marks (handleKey k' r)).
  { intros k' Hk' w a w' E. rewrite (scrollKeys_case k' r w Hk') in E.
    injection E as <- <-. unfold marks. cbn.
    destruct (sameButTopline_unscrolled _ _ (scrollOf_frame k' (view w)))
      as (_ & -> & _). reflexivity. }
  repeat (destruct Hk as [<-|Hk];
          [first [ apply Hs; unfold scrollKeys; cbn; tauto
                 | apply preserves_bind; [apply Save_marks|intros ?; keep]
                 | unfold_steps; keep ]|]).
  contradiction.
Qed.

Lemma quietMouse_marks (x0 y0 : Z) (b : Button) :
  b <> WheelUp /\ b <> WheelDown -> preserves marks (handleMouse x0 y0 b).
Proof.
  intros [H1 H2].
  destruct b; try congruence;
    unfold handleMouse, moveToMouseClick, stampClick; unfold_steps; keep;
    apply preserves_try_view; intros; eapply MoveToMouseClick_marks; eassumption.
Qed.

(** X8.  An event that edits nothing marks no line for the highlighter:
    after a resize, an arrow key, Ctrl-S, Ctrl-A, a scroll key, an
    unbound key, a mouse press, drag or release, or an event of another
    kind, the dirty range is the empty default [(-2, 1)] that
    [HandleEvent] starts with. *)
Theorem quiet_events_mark_nothing (e : Event) (w w' : World) :
  quietEvent e ->
  HandleEvent e w = Some (tt, w') ->
  updateLines (view w') = (-2, 1).
Proof.
  intros Hq E. rewrite HandleEvent_eq in E.
  destruct (dispatch e (start w)) as [[r w1]|] eqn:E1; [|discriminate].
  injection E as <-.
  destruct (finish_keeps r w1) as (_ & _ & -> & _).
  assert (Hp : preserves marks (dispatch e)).
  { destruct e as [a b|k c|a b c|]; cbn [dispatch quietEvent] in *.
    - unfold_steps. keep.
    - apply quietKeys_marks. exact Hq.
    - apply quietMouse_marks. exact Hq.
    - keep. }
  apply (Hp _ _ _ E1).
Qed.

End QuietEventsMark.

(** * The mouse *)

Section Mouse.

Context {ET : Extern} {CO : Collab}.

(** [MoveToMouseClick] after its optional scroll: [v2] is the view it
    goes on with and [b2] the line aimed at. *)
Lemma MoveToMouseClick_core (s : Settings) (a b2 : Z) (v2 v1 : View) :
  (let y0 := if b2 >=? numLines v2 then numLines v2 - 1 else b2 in
   let y0 := if y0 <? 0 then 0 else y0 in
   let x0 := if a <? 0 then 0 else a in
   let x0 := GetCharPosInLine s (buf v2) (cursor v2) y0 x0 in
   match nth_error (lines (buf v2)) (Z.to_nat y0) with
   | None => None
   | Some line =>
       let x0 := if x0 >? Count line then Count line else x0 in
       let v := with_cursor (with_x x0 (cursor v2)) v2 in
       let v := with_cursor (with_y y0 (cursor v)) v in
       Some (with_cursor
               (with_lastVisualX (GetVisualX s (buf v) (cursor v)) (cursor v)) v)
   end) = Some v1 ->
  y (cursor v1) = Z.max 0 (Z.min b2 (numLines v2 - 1)) /\
  0 <= y (cursor v1) < numLines v2 /\
  (exists l, nth_error (lines (buf v2)) (Z.to_nat (y (cursor v1))) = Some l /\
             x (cursor v1) <= Count l) /\
  lastVisualX (cursor v1) =
    GetVisualX s (buf v1)
      (with_lastVisualX (lastVisualX (cursor v2)) (cursor v1)) /\
  curSelection (cursor v1) = curSelection (cursor v2) /\
  buf v1 = buf v2 /\ topline v1 = topline v2.
Proof.
  cbv zeta.
  set (yc := if (if b2 >=? numLines v2 then numLines v2 - 1 else b2) <? 0
             then 0 else if b2 >=? numLines v2 then numLines v2 - 1 else b2).
  assert (Hyc : yc = Z.max 0 (Z.min b2 (numLines v2 - 1))).
  { subst yc. ztests; lia. }
  destruct (nth_error (lines (buf v2)) (Z.to_nat yc)) as [l|] eqn:El;
    [|discriminate].
  intros [= <-]. cbn.
  assert (Hlt : (Z.to_nat yc < List.length (lines (buf v2)))%nat).
  { apply nth_error_Some. congruence. }
  assert (Hy0 : 0 <= yc) by lia.
  repeat split; try assumption; try (unfold numLines; lia).
  exists l. split; [exact El|]. ztests; lia.
Qed.

(** X9.  [MoveToMouseClick] panics exactly when the buffer has no line.
    Otherwise the cursor lands on a line of the buffer, at a column no
    greater than the length of that line, and [lastVisualX] is the
    visual column computed there; the selection and the buffer are
    untouched.  A
    target inside or above the viewport does not scroll and aims at the
    nearest line of the document; a target below the viewport scrolls
    down by [ScrollDown(1)] and aims at the last line of the new
    viewport. *)
Theorem MoveToMouseClick_lands_on_a_line (s : Settings) (a b : Z) (v : View) :
  (MoveToMouseClick s a b v = None <-> lines (buf v) = []) /\
  (forall v1, MoveToMouseClick s a b v = Some v1 ->
     0 <= y (cursor v1) < numLines v /\
     (exists l, nth_error (lines (buf v)) (Z.to_nat (y (cursor v1))) = Some l /\
                x (cursor v1) <= Count l) /\
     lastVisualX (cursor v1) =
       GetVisualX s (buf v1)
         (with_lastVisualX (lastVisualX (cursor v)) (cursor v1)) /\
     curSelection (cursor v1) = curSelection (cursor v) /\
     buf v1 = buf v /\
     (b - topline v <= height v - 1 ->
      topline v1 = topline v /\
      y (cursor v1) = Z.max 0 (Z.min b (numLines v - 1))) /\
     (b - topline v > height v - 1 ->
      topline v1 = topline (ScrollDown 1 v) /\
      y (cursor v1) =
        Z.max 0 (Z.min (topline v1 + height v - 1) (numLines v - 1)))).
Proof.
  split.
  - split.
    + intros E. destruct (lines (buf v)) eqn:El; [reflexivity|].
      destruct (MoveToMouseClick_total s a b v) as [v1 E1]; congruence.
    + intros El. unfold MoveToMouseClick.
      destruct (b - topline v >? height v - 1).
      * pose proof (ScrollDown_frame 1 v) as Hf. unfold sameButTopline in Hf.
        assert (Hb : lines (buf (ScrollDown 1 v)) = []).
        { rewrite Hf. cbn. exact El. }
        rewrite Hb. destruct (Z.to_nat _); reflexivity.
      * rewrite El. destruct (Z.to_nat _); reflexivity.
  - intros v1 E. unfold MoveToMouseClick in E. rewrite Z.gtb_ltb in E.
    destruct (Z.ltb_spec (height v - 1) (b - topline v)) as [Hb|Hb].
    + pose proof (ScrollDown_frame 1 v) as Hf.
      destruct (frame_numLines _ _ Hf) as [Hn Hh].
      assert (Hbuf : buf (ScrollDown 1 v) = buf v /\
                     cursor (ScrollDown 1 v) = cursor v).
      { unfold sameButTopline in Hf. rewrite Hf. split; reflexivity. }
      destruct Hbuf as [Hbuf Hcur].
      apply MoveToMouseClick_core in E.
      destruct E as (E1 & E2 & E3 & E4 & E5 & E6 & E7).
      rewrite Hn, Hbuf in *. rewrite Hcur in E4, E5. rewrite Hh in E1.
      repeat split; try assumption; try lia.
    + apply MoveToMouseClick_core in E.
      destruct E as (E1 & E2 & E3 & E4 & E5 & E6 & E7).
      repeat split; try assumption; try lia.
Qed.

(** What [MoveToMouseClick] leaves of the click state. *)
Lemma resolve_keeps (w : World) (x0 y0 : Z) (v1 : View) :
  resolve w x0 y0 = Some v1 ->
  mouseReleased v1 = mouseReleased (view w) /\
  doubleClick v1 = doubleClick (view w) /\
  tripleClick v1 = tripleClick (view w) /\
  lastClickTime v1 = lastClickTime (view w) /\
  buf v1 = buf (view w) /\
  curSelection (cursor v1) = curSelection (cursor (view w)).
Proof.
  intros Hv. unfold resolve in Hv.
  pose proof (MoveToMouseClick_frame _ _ _ _ _ Hv) as Hf.
  assert (Hs : curSelection (cursor v1) = curSelection (cursor (view w))).
  { unfold MoveToMouseClick in Hv.
    destruct (_ >? _).
    - pose proof (ScrollDown_frame 1 (view (start w))) as Hd.
      assert (Hc : cursor (ScrollDown 1 (view (start w))) = cursor (view w)).
      { unfold sameButTopline in Hd. rewrite Hd. reflexivity. }
      apply MoveToMouseClick_core in Hv.
      destruct Hv as (_ & _ & _ & _ & E5 & _). rewrite E5, Hc. reflexivity.
    - apply MoveToMouseClick_core in Hv.
      destruct Hv as (_ & _ & _ & _ & E5 & _). rewrite E5. reflexivity. }
  rewrite Hf. cbn. repeat split. congruence.
Qed.

(** The case of a left button event while the button is held down. *)
Lemma drag_case (w : World) (x0 y0 : Z) (v1 : View) :
  mouseReleased (view w) = false ->
  resolve w x0 y0 = Some v1 ->
  handleMouse x0 y0 Button1 (start w) =
  Some (true,
    let s := settings (glob w) in
    let c :=
      if tripleClick (view w) then AddLineToSelection s (buf v1) (cursor v1)
      else if doubleClick (view w) then AddWordToSelection s (buf v1) (cursor v1)
      else set_sel1 (Loc (buf v1) (cursor v1)) (cursor v1) in
    mkWorld (with_mouseReleased false (with_cursor c v1)) (glob w)).
Proof.
  intros Hr Hv.
  destruct (resolve_keeps w x0 y0 v1 Hv) as (K1 & K2 & K3 & _).
  unfold resolve, clickTarget in Hv. cbn [fst snd] in Hv.
  unfold handleMouse, moveToMouseClick, try_view, the_settings, selectToCursor.
  unfold bind, gets. cbn.
  unfold start in Hv. cbn [view] in Hv. rewrite Hv. cbn.
  rewrite K1, Hr. cbn. rewrite ?K2, ?K3.
  destruct (tripleClick (view w)); [reflexivity|].
  destruct (doubleClick (view w)); reflexivity.
Qed.

(** The case of a mouse event without button. *)
Lemma release_case (w : World) (x0 y0 : Z) :
  handleMouse x0 y0 ButtonNone (start w) =
  if mouseReleased (view w) then Some (false, start w)
  else if negb (doubleClick (view w)) && negb (tripleClick (view w)) then
    match resolve w x0 y0 with
    | Some v1 =>
        Some (false,
              mkWorld (with_mouseReleased true
                         (with_cursor (set_sel1 (Loc (buf v1) (cursor v1)) (cursor v1)) v1))
                      (glob w))
    | None => None
    end
  else Some (false, mkWorld (with_mouseReleased true (view (start w))) (glob w)).
Proof.
  unfold handleMouse, moveToMouseClick, try_view, the_settings, selectToCursor,
    when, resolve, clickTarget.
  unfold bind, gets, on_view, on_cursor, modify, ret. cbn.
  destruct (mouseReleased (view w)); cbn; [destruct w; reflexivity|].
  destruct (doubleClick (view w)), (tripleClick (view w)); cbn; try reflexivity.
  destruct (MoveToMouseClick _ _ _ _); reflexivity.
Qed.

(** X10.  While the left button is held down on a buffer with a line,
    a further button event moves the cursor to the pointer and extends
    the selection by the unit of the click: by lines after a triple
    click, by words after a double click, and after a single click by
    moving the active end [curSelection[1]] to the cursor while the
    anchor [curSelection[0]] stays.  The click state (time of the last
    click, double and triple flags) is not touched and the button stays
    pressed. *)
Theorem drag_extends_selection (w : World) (x0 y0 : Z) :
  mouseReleased (view w) = false ->
  lines (buf (view w)) <> [] ->
  exists v1 w',
    resolve w x0 y0 = Some v1 /\
    HandleEvent (EventMouse x0 y0 Button1) w = Some (tt, w') /\
    mouseReleased (view w') = false /\
    lastClickTime (view w') = lastClickTime (view w) /\
    doubleClick (view w') = doubleClick (view w) /\
    tripleClick (view w') = tripleClick (view w) /\
    buf (view w') = buf (view w) /\
    (tripleClick (view w) = true ->
     cursor (view w') = AddLineToSelection (settings (glob w)) (buf v1) (cursor v1)) /\
    (tripleClick (view w) = false -> doubleClick (view w) = true ->
     cursor (view w') = AddWordToSelection (settings (glob w)) (buf v1) (cursor v1)) /\
    (tripleClick (view w) = false -> doubleClick (view w) = false ->
     cursor (view w') = set_sel1 (Loc (buf v1) (cursor v1)) (cursor v1) /\
     fst (curSelection (cursor (view w'))) = fst (curSelection (cursor (view w)))).
Proof.
  intros Hr Hne.
  destruct (MoveToMouseClick_total (settings (glob w))
              (fst (clickTarget w x0 y0)) (snd (clickTarget w x0 y0))
              (view (start w))) as [v1 Hv]; [exact Hne|].
  fold (resolve w x0 y0) in Hv.
  destruct (resolve_keeps w x0 y0 v1 Hv) as (K1 & K2 & K3 & K4 & K5 & K6).
  eexists v1, _. split; [exact Hv|].
  rewrite HandleEvent_eq. cbn [dispatch]. rewrite (drag_case w x0 y0 v1 Hr Hv).
  split; [reflexivity|].
  match goal with
  | |- context [finish true ?w1] =>
      destruct (finish_keeps true w1) as (-> & -> & _ & _ & -> & -> & -> & -> & _)
  end.
  cbn [view].
  destruct (tripleClick (view w)) eqn:Et, (doubleClick (view w)) eqn:Ed; cbn;
    repeat split; intros; try discriminate; try congruence.
Qed.

(** X11.  A mouse event without button is never relocated.  When no
    button was down it changes neither cursor, selection, scroll
    position nor click state, on any buffer.  When the button was down
    it marks it released; after a double or triple click the cursor and
    the selection stay as the last drag left them, and after a single
    click, on a buffer with a line, the cursor moves to the pointer and
    the active end of the selection follows it while the anchor
    stays. *)
Theorem mouse_release (w : World) (x0 y0 : Z) :
  (mouseReleased (view w) = true ->
   exists w', HandleEvent (EventMouse x0 y0 ButtonNone) w = Some (tt, w') /\
              unscrolled (view w') = unscrolled (view w) /\
              topline (view w') = topline (view w) /\ glob w' = glob w) /\
  (mouseReleased (view w) = false ->
   doubleClick (view w) = true \/ tripleClick (view w) = true ->
   exists w', HandleEvent (EventMouse x0 y0 ButtonNone) w = Some (tt, w') /\
              mouseReleased (view w') = true /\
              cursor (view w') = cursor (view w) /\
              topline (view w') = topline (view w)) /\
  (mouseReleased (view w) = false ->
   doubleClick (view w) = false -> tripleClick (view w) = false ->
   lines (buf (view w)) <> [] ->
   exists v1 w',
     resolve w x0 y0 = Some v1 /\
     HandleEvent (EventMouse x0 y0 ButtonNone) w = Some (tt, w') /\
     mouseReleased (view w') = true /\
     cursor (view w') = set_sel1 (Loc (buf v1) (cursor v1)) (cursor v1) /\
     fst (curSelection (cursor (view w'))) = fst (curSelection (cursor (view w))) /\
     topline (view w') = topline v1).
Proof.
  repeat split.
  - intros Hr. eexists. rewrite HandleEvent_eq. cbn [dispatch].
    rewrite release_case, Hr. split; [reflexivity|].
    destruct (finish_false (start w)) as (-> & -> & -> & _).
    repeat split.
  - intros Hr Hd. eexists. rewrite HandleEvent_eq. cbn [dispatch].
    rewrite release_case, Hr.
    assert (Hn : negb (doubleClick (view w)) && negb (tripleClick (view w)) = false).
    { destruct Hd as [-> | ->]; [reflexivity|apply andb_false_r]. }
    rewrite Hn. split; [reflexivity|].
    match goal with
    | |- context [finish false ?w1] =>
        destruct (finish_keeps false w1) as (-> & _ & _ & _ & -> & _);
        destruct (finish_false w1) as (_ & _ & -> & _)
    end.
    repeat split.
  - intros Hr Hd Ht Hne.
    destruct (MoveToMouseClick_total (settings (glob w))
                (fst (clickTarget w x0 y0)) (snd (clickTarget w x0 y0))
                (view (start w))) as [v1 Hv]; [exact Hne|].
    fold (resolve w x0 y0) in Hv.
    destruct (resolve_keeps w x0 y0 v1 Hv) as (_ & _ & _ & _ & _ & K6).
    eexists v1, _. split; [exact Hv|].
    rewrite HandleEvent_eq. cbn [dispatch].
    rewrite release_case, Hr, Hd, Ht, Hv. cbn [negb andb].
    split; [reflexivity|].
    match goal with
    | |- context [finish false ?w1] =>
        destruct (finish_keeps false w1) as (-> & _ & _ & _ & -> & _);
        destruct (finish_false w1) as (_ & _ & -> & _)
    end.
    cbn. rewrite K6. repeat split.
Qed.

End Mouse.

(** * The commands: clipboard, closing, saving, opening *)

Section MoreCommands.

Context {ET : Extern} {CO : Collab}.

(** X12.  [Copy] never changes the view: buffer, cursor, selection and
    scroll position are those of before, and so are the globals beside
    clipboard and messenger.  With a selection and a supported
    clipboard, the clipboard is written with the selected text and no
    message is shown; with a selection and an unsupported clipboard the
    error message is shown and the clipboard is left alone. *)
Theorem Copy_effects (w : World) :
  exists w',
    Copy w = Some (tt, w') /\
    view w' = view w /\
    besidesClipboard (glob w') = besidesClipboard (glob w) /\
    (HasSelection (cursor (view w)) = true ->
     clipboard_Unsupported (clipboard (glob w)) = false ->
     clipboard (glob w') =
       clipboard_WriteAll (GetSelection (buf (view w)) (cursor (view w)))
         (clipboard (glob w)) /\
     messenger (glob w') = messenger (glob w)) /\
    (HasSelection (cursor (view w)) = true ->
     clipboard_Unsupported (clipboard (glob w)) = true ->
     clipboard (glob w') = clipboard (glob w) /\
     messenger (glob w') = messenger_Error unsupportedMsg (messenger (glob w))).
Proof.
  unfold Copy, bind, cursor_HasSelection, cursor_GetSelection, gets, Error,
    on_glob, modify, ret.
  destruct (HasSelection (cursor (view w)));
    destruct (clipboard_Unsupported (clipboard (glob w))); cbn;
    eexists; (split; [reflexivity|]); cbn;
    repeat split; intros; try discriminate; destruct w; reflexivity.
Qed.

(** X13.  With a selection and a supported clipboard, [Cut] is [Copy]
    followed by the deletion of the selection: the clipboard holds the
    text that was selected before the deletion, and of the view only
    the cursor, the buffer and the undo log may change. *)
Theorem Cut_is_Copy_then_delete (w : World) :
  HasSelection (cursor (view w)) = true ->
  clipboard_Unsupported (clipboard (glob w)) = false ->
  Cut w = bind Copy (fun _ => deleteSelected) w /\
  exists w',
    Cut w = Some (tt, w') /\
    clipboard (glob w') =
      clipboard_WriteAll (GetSelection (buf (view w)) (cursor (view w)))
        (clipboard (glob w)) /\
    messenger (glob w') = messenger (glob w) /\
    aroundEditing (view w') = aroundEditing (view w).
Proof.
  intros Hs Hu.
  unfold Cut, Copy, deleteSelected, bind, cursor_HasSelection,
    cursor_GetSelection, gets, on_glob, on_cursor, on_view, editing_call,
    modify, ret.
  rewrite Hs, Hu. cbn. split; [reflexivity|].
  eexists. split; [reflexivity|]. cbn. repeat split.
Qed.

(** X14.  With a supported clipboard, [Paste] does not panic, leaves
    the globals as they are (the clipboard still holds the text, no
    message is shown) and changes nothing of the view but the cursor,
    the buffer and the undo log. *)
Theorem Paste_keeps_clipboard (w : World) :
  clipboard_Unsupported (clipboard (glob w)) = false ->
  exists w',
    Paste w = Some (tt, w') /\
    glob w' = glob w /\
    aroundEditing (view w') = aroundEditing (view w).
Proof.
  intros Hu.
  unfold Paste, when, bind, cursor_HasSelection, cursor_Loc, gets, on_cursor,
    on_view, editing_call, cursor_call, modify, ret.
  rewrite Hu. cbn.
  destruct (HasSelection (cursor (view w))); cbn;
    eexists; (split; [reflexivity|]); cbn; repeat split.
Qed.

Lemma lower_y (c : ascii) : lower c = "y"%char -> c = "y"%char \/ c = "Y"%char.
Proof.
  destruct c as [[] [] [] [] [] [] [] []]; vm_compute; intros H;
    first [discriminate H | left; reflexivity | right; reflexivity].
Qed.

Lemma lower_e (c : ascii) : lower c = "e"%char -> c = "e"%char \/ c = "E"%char.
Proof.
  destruct c as [[] [] [] [] [] [] [] []]; vm_compute; intros H;
    first [discriminate H | left; reflexivity | right; reflexivity].
Qed.

Lemma lower_s (c : ascii) : lower c = "s"%char -> c = "s"%char \/ c = "S"%char.
Proof.
  destruct c as [[] [] [] [] [] [] [] []]; vm_compute; intros H;
    first [discriminate H | left; reflexivity | right; reflexivity].
Qed.

(** The answers whose lower case is [yes] or [y]. *)
Lemma yes_answers (q : string) :
  ((ToLower q =? "yes")%string || (ToLower q =? "y")%string) = true <->
  In q yesAnswers.
Proof.
  split.
  - intros H. apply orb_true_iff in H.
    destruct H as [H|H]; apply String.eqb_eq in H.
    + destruct q as [|c1 [|c2 [|c3 [|c4 q]]]]; try discriminate H.
      cbn in H. injection H as H1 H2 H3.
      apply lower_y in H1. apply lower_e in H2. apply lower_s in H3.
      destruct H1 as [-> | ->], H2 as [-> | ->], H3 as [-> | ->];
        unfold yesAnswers; cbn; tauto.
    + destruct q as [|c1 [|c2 q]]; try discriminate H.
      cbn in H. injection H as H1. apply lower_y in H1.
      destruct H1 as [-> | ->]; unfold yesAnswers; cbn; tauto.
  - unfold yesAnswers. cbn [In]. intros H.
    repeat (destruct H as [<-|H]; [reflexivity|]). contradiction.
Qed.

(** X15.  [CanClose] never changes the view and never panics.  On a
    buffer without unsaved changes it returns true and asks nothing.
    On a buffer with unsaved changes it asks once and returns true
    exactly when the prompt was not canceled and the answer is [yes] or
    [y] in any mix of upper and lower case. *)
Theorem CanClose_answers (msg : string) (w : World) :
  (Buffer_IsDirty (buf (view w)) = false -> CanClose msg w = Some (true, w)) /\
  (Buffer_IsDirty (buf (view w)) = true ->
   forall q canceled m,
     messenger_Prompt (closeQuestion msg) (messenger (glob w)) = ((q, canceled), m) ->
     exists b,
       CanClose msg w = Some (b, mkWorld (view w) (with_messenger m (glob w))) /\
       (b = true <-> canceled = false /\ In q yesAnswers)).
Proof.
  split.
  - intros Hd. unfold CanClose, bind, gets. rewrite Hd. reflexivity.
  - intros Hd q canceled m Hp.
    unfold CanClose, bind, gets, Prompt. rewrite Hd.
    fold (closeQuestion msg). rewrite Hp.
    destruct canceled; cbn.
    + exists false. split; [reflexivity|]. split; [discriminate|intros [? _]; discriminate].
    + destruct ((ToLower q =? "yes")%string || (ToLower q =? "y")%string) eqn:E.
      * exists true. split; [reflexivity|].
        split; [intros _; split; [reflexivity|apply yes_answers; exact E]|reflexivity].
      * exists false. split; [reflexivity|].
        split; [discriminate|].
        intros [_ Hq]. apply yes_answers in Hq. congruence.
Qed.

(** X16.  [Save] never panics and changes nothing of the view but the
    buffer.  On a buffer without path it asks for a file name: when the
    prompt is canceled, nothing is written and the buffer is left as it
    is; when it is answered, path and name of the buffer are both set
    to the answer before the buffer is written.  The outcome is
    reported once: the error of the write, or the path that was
    saved. *)
Theorem Save_outcomes (w : World) :
  (exists w',
     Save w = Some (tt, w') /\
     view w' = with_buf (buf (view w')) (view w) /\
     besidesFiles (glob w') = besidesFiles (glob w)) /\
  (path (buf (view w)) = ""%string ->
   forall q m,
     messenger_Prompt "Filename: " (messenger (glob w)) = ((q, true), m) ->
     Save w = Some (tt, mkWorld (view w) (with_messenger m (glob w)))) /\
  (path (buf (view w)) = ""%string ->
   forall q m e b fs,
     messenger_Prompt "Filename: " (messenger (glob w)) = ((q, false), m) ->
     Buffer_Save (mkBuffer (lines (buf (view w))) q q (dirty (buf (view w))))
       (files (glob w)) = (e, b, fs) ->
     Save w = Some (tt, mkWorld (with_buf b (view w))
                          (reported e b (with_files fs (with_messenger m (glob w)))))) /\
  (path (buf (view w)) <> ""%string ->
   forall e b fs,
     Buffer_Save (buf (view w)) (files (glob w)) = (e, b, fs) ->
     Save w = Some (tt, mkWorld (with_buf b (view w))
                          (reported e b (with_files fs (glob w))))).
Proof.
  unfold Save, Prompt, Error, Message, reported.
  unfold bind, gets, on_buf, on_view, on_glob, modify, ret.
  destruct (String.eqb_spec (path (buf (view w))) "") as [Hp|Hp]; cbn.
  - destruct (messenger_Prompt "Filename: " (messenger (glob w)))
      as [[q canceled] m] eqn:Em.
    destruct canceled; cbn.
    + repeat split.
      * eexists. split; [reflexivity|]. cbn. destruct w as [[] ?]; split; reflexivity.
      * intros _ q' m' [= <- <-]. reflexivity.
      * intros _ q' m' e b fs [= ]. 
      * intros H. congruence.
    + destruct (Buffer_Save _ _) as [[e b] fs] eqn:Eb.
      repeat split.
      * destruct e; eexists; (split; [reflexivity|]); cbn; split; reflexivity.
      * intros _ q' m' [= ].
      * intros _ q' m' e' b' fs' [= <- <-] Eb'.
        rewrite Eb in Eb'. injection Eb' as <- <- <-. destruct e; reflexivity.
      * intros H. congruence.
  - destruct (Buffer_Save _ _) as [[e b] fs] eqn:Eb.
    repeat split; try (intros H; congruence).
    + destruct e; eexists; (split; [reflexivity|]); cbn; split; reflexivity.
    + intros _ e' b' fs' [= <- <- <-]. destruct e; reflexivity.
Qed.

(** X17.  [OpenFile] never panics.  It leaves the buffer as it is or
    replaces it by [NewBuffer] of the content and the name of a file
    that could be read; in both cases everything else in the view (the
    cursor and its selection, the scroll position, the undo log) is
    what it was before, and no file is written. *)
Theorem OpenFile_replaces_buffer_only (w : World) :
  exists w',
    OpenFile w = Some (tt, w') /\
    view w' = with_buf (buf (view w')) (view w) /\
    files (glob w') = files (glob w) /\
    besidesFiles (glob w') = besidesFiles (glob w) /\
    (buf (view w') = buf (view w) \/
     exists filename content,
       ReadFile filename (files (glob w)) = inl content /\
       buf (view w') = NewBuffer content filename).
Proof.
  assert (Hv : view w = with_buf (buf (view w)) (view w)).
  { destruct w as [[] ?]; reflexivity. }
  unfold OpenFile, CanClose, Prompt, Error.
  unfold bind, gets, on_view, on_glob, modify, ret.
  destruct (Buffer_IsDirty (buf (view w))); cbn.
  - destruct (messenger_Prompt _ (messenger (glob w))) as [[q c] m]; cbn.
    destruct c; cbn;
      [eexists; split; [reflexivity|]; cbn; repeat split; auto|].
    destruct (_ || _); cbn;
      [|eexists; split; [reflexivity|]; cbn; repeat split; auto].
    destruct (messenger_Prompt _ m) as [[q2 c2] m2]; cbn.
    destruct c2; cbn;
      [eexists; split; [reflexivity|]; cbn; repeat split; auto|].
    destruct (ReadFile q2 (files (glob w))) as [content|err] eqn:Er; cbn;
      eexists; (split; [reflexivity|]); cbn; repeat split; auto.
    right. exists q2, content. split; [exact Er|reflexivity].
  - destruct (messenger_Prompt _ (messenger (glob w))) as [[q2 c2] m2]; cbn.
    destruct c2; cbn;
      [eexists; split; [reflexivity|]; cbn; repeat split; auto|].
    destruct (ReadFile q2 (files (glob w))) as [content|err] eqn:Er; cbn;
      eexists; (split; [reflexivity|]); cbn; repeat split; auto.
    right. exists q2, content. split; [exact Er|reflexivity].
Qed.

End MoreCommands.

(** * Sizes: [Resize], [NewView] and the gutter *)

Section Sizes.

Context {ET : Extern} {CO : Collab}.

(** The [float32] expression of [Resize] on every side of up to 500
    cells and every percentage: the product divided by 100, rounded
    down.  Checked on all 501 x 101 pairs. *)
Lemma percent_of_floor (n p : Z) :
  0 <= n <= 500 -> 0 <= p <= 100 -> percent_of n p = n * p / 100.
Proof.
  intros Hn Hp.
  assert (H : forallb
                (fun n => forallb (fun p => percent_of n p =? n * p / 100)
                            (map Z.of_nat (seq 0 101)))
                (map Z.of_nat (seq 0 501)) = true)
    by (vm_compute; reflexivity).
  rewrite forallb_forall in H.
  assert (Hin : forall m k, 0 <= m < Z.of_nat k -> In m (map Z.of_nat (seq 0 k))).
  { intros m k Hm. rewrite <- (Z2Nat.id m) by lia.
    apply in_map, in_seq. lia. }
  specialize (H n (Hin n 501%nat ltac:(lia))).
  rewrite forallb_forall in H.
  specialize (H p (Hin p 101%nat ltac:(lia))).
  apply Z.eqb_eq. exact H.
Qed.

Lemma Resize_floor (w h : Z) (v : View) :
  0 <= w <= 500 -> 1 <= h <= 501 ->
  0 <= widthPercent v <= 100 -> 0 <= heightPercent v <= 100 ->
  Resize w h v =
  with_height ((h - 1) * heightPercent v / 100 - 1)
    (with_width (w * widthPercent v / 100) v).
Proof.
  intros Hw Hh Hwp Hhp. unfold Resize. cbn.
  rewrite !percent_of_floor by lia. reflexivity.
Qed.

(** X18.  On a screen of up to 500 columns and 501 rows and with
    percentages between 0 and 100, [Resize] gives the view the width
    [w * widthPercent / 100] and the height
    [(h - 1) * heightPercent / 100 - 1], both rounded down: one row is
    kept for the command line and one for the status line, and the
    [float32] arithmetic loses no cell.  It changes nothing else. *)
Theorem Resize_exact (w h : Z) (v : View) :
  0 <= w <= 500 -> 1 <= h <= 501 ->
  0 <= widthPercent v <= 100 -> 0 <= heightPercent v <= 100 ->
  Resize w h v =
  with_height ((h - 1) * heightPercent v / 100 - 1)
    (with_width (w * widthPercent v / 100) v).
Proof. apply Resize_floor. Qed.

(** X19.  A new full-screen view on a screen of [w] columns and [h]
    rows (up to 500 by 501, one row at least) is [w] wide and [h - 2]
    high, shows the
    document from its first line and first column, satisfies the
    invariant of [topline], marks its whole viewport for the
    highlighter, and starts with the mouse released and no click
    recorded. *)
Theorem NewView_initial (g : Globals) (b : Buffer) (w h : Z) :
  screenSize g = (w, h) ->
  0 <= w <= 500 -> 1 <= h <= 501 ->
  let v := NewView g b in
  width v = w /\ height v = h - 2 /\
  topline v = 0 /\ leftCol v = 0 /\ toplineInv v /\
  updateLines v = viewportRange v /\
  buf v = b /\
  cursor v = ResetSelection (mkCursor 0 0 0 (0, 0) (0, 0)) /\
  mouseReleased v = true /\ doubleClick v = false /\ tripleClick v = false /\
  lastClickTime v = 0.
Proof.
  intros Hs Hw Hh v. subst v. unfold NewView, NewViewWidthHeight.
  rewrite Hs. cbn [fst snd].
  rewrite Resize_floor by (cbn; lia). cbn.
  unfold toplineInv, viewportRange, numLines. cbn.
  rewrite !Z.div_mul by lia.
  repeat split; lia.
Qed.

(** The decimal numeral of a number has at least one digit. *)
Lemma Itoa_len_pos (n : Z) : 1 <= Itoa_len n.
Proof.
  unfold Itoa_len, Itoa.
  assert (H : forall d, (1 <= String.length (NilZero.string_of_uint d))%nat).
  { intros d. destruct d; cbn; lia. }
  destruct n as [|p|p]; cbn.
  - lia.
  - specialize (H (Pos.to_uint p)). lia.
  - specialize (H (Pos.to_uint p)).
    unfold NilZero.string_of_uint in H. destruct (Pos.to_uint p); cbn in *; lia.
Qed.

(** X20.  The gutter width that [DisplayView] stores, the number of
    digits of the line count plus one, is at least 2 for every buffer;
    it is 2 up to 9 lines, 3 up to 99, 4 up to 999 and 5 up to 9999. *)
Theorem gutterWidth_bounds (v : View) :
  2 <= gutterWidth v /\
  (numLines v <= 9 -> gutterWidth v = 2) /\
  (10 <= numLines v <= 99 -> gutterWidth v = 3) /\
  (100 <= numLines v <= 999 -> gutterWidth v = 4) /\
  (1000 <= numLines v <= 9999 -> gutterWidth v = 5).
Proof.
  unfold gutterWidth. pose proof (numLines_nonneg v) as H0.
  pose proof (Itoa_len_pos (numLines v)) as H1.
  assert (H : forallb
                (fun n => Itoa_len n =?
                            (if n <=? 9 then 1 else if n <=? 99 then 2
                             else if n <=? 999 then 3 else 4))
                (map Z.of_nat (seq 0 (Z.to_nat 10000))) = true)
    by (vm_compute; reflexivity).
  rewrite forallb_forall in H.
  assert (Hin : forall m, 0 <= m <= 9999 ->
                          Itoa_len m = (if m <=? 9 then 1 else if m <=? 99 then 2
                                        else if m <=? 999 then 3 else 4)).
  { intros m Hm. apply Z.eqb_eq, H.
    rewrite <- (Z2Nat.id m) by lia. apply in_map, in_seq. lia. }
  split; [lia|].
  repeat split; intros Hr; rewrite Hin by lia; ztests; lia.
Qed.

End Sizes.

(** * The help screen *)

Section HelpScreen.

Import GoText.

Lemma frame_safe (totalLines : list string) (st : Help.State) :
  helpSafe totalLines st -> exists f, Help.frame totalLines st = Some f.
Proof.
  intros [Ht Hh]. unfold Help.frame, slice, Help.lineEnd.
  rewrite Z.gtb_ltb.
  destruct (Z.ltb_spec (Z.of_nat (List.length totalLines))
              (Help.topline st + Help.height st)).
  - replace (_ && _ && _) with true; [eexists; reflexivity|].
    symmetry. rewrite !andb_true_iff, !Z.leb_le. lia.
  - replace (_ && _ && _) with true; [eexists; reflexivity|].
    symmetry. rewrite !andb_true_iff, !Z.leb_le. lia.
Qed.

Lemma step_safe (totalLines : list string) (e : Help.Event) (st st' : Help.State) :
  helpSafe totalLines st ->
  (forall w h, e = Help.EventResize w h -> 0 <= h) ->
  Help.step totalLines e st = Some st' ->
  helpSafe totalLines st'.
Proof.
  unfold helpSafe. intros [Ht Hh] He E.
  destruct e as [w h|k|]; cbn in E.
  - injection E as <-. cbn. specialize (He w h eq_refl). lia.
  - destruct k; try discriminate E; injection E as <-;
      rewrite ?Z.gtb_ltb; ztests; cbn; lia.
  - injection E as <-. lia.
Qed.

Lemma loop_safe (totalLines : list string) (events : list Help.Event) :
  forall st frames,
    helpSafe totalLines st -> Help.sizesOk events ->
    forall fr, Help.loop totalLines events st frames <> Help.Panicked fr.
Proof.
  induction events as [|e rest IH]; intros st frames Hs Hz fr;
    destruct (frame_safe totalLines st Hs) as [f Hf]; cbn; rewrite Hf.
  - discriminate.
  - destruct (Help.step totalLines e st) as [st'|] eqn:E; [|discriminate].
    apply IH.
    + apply (step_safe totalLines e st st' Hs); [|exact E].
      intros w h ->. apply (Hz w h). left. reflexivity.
    + intros w h Hin. apply (Hz w h). right. exact Hin.
Qed.

(** X21.  [DisplayHelp] never panics: on a screen whose height is not
    negative, whatever keys and resizes (to heights that are not
    negative) arrive, the slice of the visible lines is always within
    bounds.  The same holds of the loop for every text, from every
    state with [0 <= topline <= len(totalLines)] and [0 <= height]. *)
Theorem DisplayHelp_never_panics :
  (forall size events fr,
     0 <= snd size -> Help.sizesOk events ->
     Help.DisplayHelp size events <> Help.Panicked fr) /\
  (forall totalLines events st frames fr,
     0 <= Help.topline st <= Z.of_nat (List.length totalLines) ->
     0 <= Help.height st ->
     Help.sizesOk events ->
     Help.loop totalLines events st frames <> Help.Panicked fr).
Proof.
  split.
  - intros size events fr Hh Hz. unfold Help.DisplayHelp.
    apply loop_safe; [|exact Hz].
    split; cbn; [lia|exact Hh].
  - intros totalLines events st frames fr Ht Hh Hz.
    apply loop_safe; [split; assumption|exact Hz].
Qed.

Lemma sizesOk_app (a b : list Help.Event) :
  Help.sizesOk (a ++ b) -> Help.sizesOk a /\ Help.sizesOk b.
Proof.
  intros H. split; intros w h Hin; apply (H w h), in_or_app; auto.
Qed.

Lemma step_quits (totalLines : list string) (e : Help.Event) (st : Help.State) :
  Help.step totalLines e st = None <-> Help.quits e = true.
Proof.
  destruct e as [w h|k|]; cbn; [split; discriminate| |split; discriminate].
  destruct k; cbn; split; intros H; try discriminate H; reflexivity.
Qed.

Lemma loop_until_quit (totalLines : list string) (pre : list Help.Event) :
  forall st frames,
    helpSafe totalLines st -> Help.sizesOk pre ->
    Forall (fun e => Help.quits e = false) pre ->
    (forall q post, Help.quits q = true ->
       exists fs, Help.loop totalLines (pre ++ q :: post) st frames = Help.Returned fs /\
                  List.length fs = (List.length frames + List.length pre + 1)%nat) /\
    (exists fs st', Help.loop totalLines pre st frames = Help.Waiting fs st' /\
                    List.length fs = (List.length frames + List.length pre + 1)%nat).
Proof.
  induction pre as [|e rest IH]; intros st frames Hs Hz Hq;
    destruct (frame_safe totalLines st Hs) as [f Hf].
  - split.
    + intros q post Hquit. cbn. rewrite Hf.
      rewrite (proj2 (step_quits totalLines q st) Hquit).
      eexists. split; [reflexivity|]. rewrite length_app. cbn. lia.
    + cbn. rewrite Hf. eexists _, _. split; [reflexivity|].
      rewrite length_app. cbn. lia.
  - inversion Hq as [|? ? He Hrest]; subst.
    destruct (Help.step totalLines e st) as [st'|] eqn:E.
    2:{ apply step_quits in E. congruence. }
    assert (Hs' : helpSafe totalLines st').
    { apply (step_safe totalLines e st st' Hs); [|exact E].
      intros w h ->. apply (Hz w h). left. reflexivity. }
    assert (Hz' : Help.sizesOk rest).
    { intros w h Hin. apply (Hz w h). right. exact Hin. }
    destruct (IH st' (frames ++ [f]) Hs' Hz' Hrest) as [IH1 IH2].
    split.
    + intros q post Hquit. destruct (IH1 q post Hquit) as (fs & E1 & L1).
      exists fs. cbn. rewrite Hf, E. split; [exact E1|].
      rewrite L1, length_app. cbn. lia.
    + destruct IH2 as (fs & st2 & E2 & L2).
      exists fs, st2. cbn. rewrite Hf, E. split; [exact E2|].
      rewrite L2, length_app. cbn. lia.
Qed.

(** X22.  On a screen whose height is not negative and with resizes
    to heights that are not negative, [DisplayHelp] returns at the first
    Ctrl-Q, Ctrl-W, Escape or Ctrl-C and not before: with [n] other
    events in front of it, it has
    shown [n + 1] frames when it returns, and the events after it are
    not looked at; as long as none of these keys arrives it goes on
    polling, having shown one frame more than it has seen events. *)
Theorem DisplayHelp_returns_at_first_quit (size : Z * Z)
    (pre : list Help.Event) :
  0 <= snd size ->
  Help.sizesOk pre ->
  Forall (fun e => Help.quits e = false) pre ->
  (forall q post, Help.quits q = true ->
     exists fs, Help.DisplayHelp size (pre ++ q :: post) = Help.Returned fs /\
                List.length fs = (List.length pre + 1)%nat) /\
  (exists fs st, Help.DisplayHelp size pre = Help.Waiting fs st /\
                 List.length fs = (List.length pre + 1)%nat).
Proof.
  intros Hh Hz Hq. unfold Help.DisplayHelp.
  apply (loop_until_quit (SplitLines Help.helpTxt) pre (Help.mkState 0 (snd size)) []);
    try assumption.
  split; cbn; [lia|exact Hh].
Qed.

Lemma drawLines_In (ls : list string) :
  forall y0 x y ch,
    In (x, y, ch) (Help.drawLines y0 ls) <->
    exists k l, nth_error ls k = Some l /\ y = y0 + Z.of_nat k /\
                In (x, ch) (rangeString l).
Proof.
  induction ls as [|l rest IH]; intros y0 x y ch; cbn [Help.drawLines].
  - split; [intros []|intros (k & l & E & _)]. destruct k; discriminate E.
  - rewrite in_app_iff, in_map_iff, IH. split.
    + intros [([x' ch'] & E & Hin)|(k & l' & E & Hy & Hin)].
      * injection E as <- <- <-. exists 0%nat, l. cbn.
        repeat split; [lia|exact Hin].
      * exists (S k), l'. cbn. repeat split; [exact E|lia|exact Hin].
    + intros (k & l' & E & Hy & Hin). destruct k as [|k]; cbn in E.
      * injection E as <-. left. exists (x, ch). split; [|exact Hin].
        cbn. f_equal. f_equal. lia.
      * right. exists k, l'. repeat split; [exact E|lia|exact Hin].
Qed.

Lemma slice_nth_error {A : Type} (l ls : list A) (lo hi : Z) :
  slice l lo hi = Some ls ->
  0 <= lo <= hi /\ hi <= Z.of_nat (List.length l) /\
  forall k a,
    nth_error ls k = Some a <->
    Z.of_nat k < hi - lo /\ nth_error l (Z.to_nat lo + k) = Some a.
Proof.
  unfold slice.
  destruct (_ && _ && _) eqn:E; [|discriminate]. intros [= <-].
  rewrite !andb_true_iff, !Z.leb_le in E. destruct E as [[H1 H2] H3].
  repeat split; try assumption.
  - rewrite nth_error_firstn in H. destruct (Nat.ltb_spec k (Z.to_nat (hi - lo))).
    + lia.
    + discriminate.
  - rewrite nth_error_firstn, nth_error_skipn in H.
    destruct (Nat.ltb_spec k (Z.to_nat (hi - lo))); [exact H|discriminate].
  - intros [Hk Hn]. rewrite nth_error_firstn, nth_error_skipn.
    destruct (Nat.ltb_spec k (Z.to_nat (hi - lo))); [exact Hn|lia].
Qed.

(** X23.  A frame of the help screen shows exactly the lines from
    [topline] on that exist and fit in the height: a cell [(x, y)] is
    set to the rune [ch] if and only if [0 <= y < height], line
    [topline + y] exists and has the rune [ch] starting at its byte
    [x].  Row [y] of the screen is line [topline + y] of the text, and
    nothing is drawn at or below row [height]. *)
Theorem help_frame_content (totalLines : list string) (st : Help.State)
    (cells : list Help.Cell) :
  Help.frame totalLines st = Some cells ->
  forall x y ch,
    In (x, y, ch) cells <->
    0 <= y < Help.height st /\
    exists l,
      nth_error totalLines (Z.to_nat (Help.topline st + y)) = Some l /\
      In (x, ch) (rangeString l).
Proof.
  unfold Help.frame.
  destruct (slice totalLines (Help.topline st) (Help.lineEnd totalLines st))
    as [ls|] eqn:Es; [|discriminate].
  intros [= <-] x y ch.
  destruct (slice_nth_error _ _ _ _ Es) as (Hlo & Hhi & Hn).
  assert (Hend : Help.lineEnd totalLines st <= Help.topline st + Help.height st).
  { unfold Help.lineEnd. ztests; lia. }
  assert (Hend' : Help.lineEnd totalLines st =
                  Z.min (Help.topline st + Help.height st)
                        (Z.of_nat (List.length totalLines))).
  { unfold Help.lineEnd. ztests; lia. }
  rewrite drawLines_In. split.
  - intros (k & l & E & Hy & Hin). apply Hn in E. destruct E as [Hk E].
    split; [lia|]. exists l. split; [|exact Hin].
    replace (Z.to_nat (Help.topline st + y))
      with (Z.to_nat (Help.topline st) + k)%nat by lia.
    exact E.
  - intros (Hy & l & E & Hin).
    exists (Z.to_nat y), l. repeat split; [|lia|exact Hin].
    apply Hn.
    assert (Hlt : (Z.to_nat (Help.topline st + y) < List.length totalLines)%nat).
    { apply nth_error_Some. congruence. }
    split; [lia|].
    replace (Z.to_nat (Help.topline st) + Z.to_nat y)%nat
      with (Z.to_nat (Help.topline st + y)) by lia.
    exact E.
Qed.

(** X24.  In the help screen the up and down keys move [topline] by at
    most one line, never change the height and keep [topline] within
    [[0, max(0, len - height)]]; strictly inside that range they undo
    each other. *)
Theorem help_scroll_keys (totalLines : list string) (st : Help.State) :
  let L := Z.of_nat (List.length totalLines) in
  (forall k st',
     In k [Help.KeyUp; Help.KeyDown] ->
     Help.step totalLines (Help.EventKey k) st = Some st' ->
     Help.height st' = Help.height st /\
     Help.topline st - 1 <= Help.topline st' <= Help.topline st + 1 /\
     (0 <= Help.topline st <= Z.max 0 (L - Help.height st) ->
      0 <= Help.topline st' <= Z.max 0 (L - Help.height st))) /\
  (0 < Help.topline st <= L - Help.height st ->
   exists st1,
     Help.step totalLines (Help.EventKey Help.KeyUp) st = Some st1 /\
     Help.step totalLines (Help.EventKey Help.KeyDown) st1 = Some st) /\
  (0 <= Help.topline st < L - Help.height st ->
   exists st1,
     Help.step totalLines (Help.EventKey Help.KeyDown) st = Some st1 /\
     Help.step totalLines (Help.EventKey Help.KeyUp) st1 = Some st).
Proof.
  intros L. subst L. repeat split.
  - destruct H as [<-|[<-|[]]]; cbn in H0; injection H0 as <-;
      rewrite ?Z.gtb_ltb; ztests; cbn; lia.
  - destruct H as [<-|[<-|[]]]; cbn in H0; injection H0 as <-;
      rewrite ?Z.gtb_ltb; ztests; cbn; lia.
  - destruct H as [<-|[<-|[]]]; cbn in H0; injection H0 as <-;
      rewrite ?Z.gtb_ltb; ztests; cbn; lia.
  - destruct H as [<-|[<-|[]]]; cbn in H0; injection H0 as <-;
      rewrite ?Z.gtb_ltb; ztests; cbn; lia.
  - destruct H as [<-|[<-|[]]]; cbn in H0; injection H0 as <-;
      rewrite ?Z.gtb_ltb in *; ztests; cbn in *; lia.
  - intros H. eexists. split; [reflexivity|]. cbn.
    rewrite !Z.gtb_ltb. destruct st as [t h]. cbn in *.
    ztests; cbn in *; try (exfalso; lia); do 2 f_equal; lia.
  - intros H. eexists. split; [reflexivity|]. cbn.
    rewrite !Z.gtb_ltb. destruct st as [t h]. cbn in *.
    ztests; cbn in *; try (exfalso; lia); do 2 f_equal; lia.
Qed.

End HelpScreen.

(** * Rendering *)

Section RenderingFacts.

Context {ET : Extern} {CO : Collab} {SY : Styles}.

Import GoText.

Lemma index_Some {A : Type} (l : list A) (i : Z) (a : A) :
  index l i = Some a ->
  0 <= i < Z.of_nat (List.length l) /\ nth_error l (Z.to_nat i) = Some a.
Proof.
  unfold index. destruct (Z.ltb_spec i 0); [discriminate|]. intros E.
  split; [|exact E].
  assert (Hlt : (Z.to_nat i < List.length l)%nat)
    by (apply nth_error_Some; congruence).
  lia.
Qed.

Lemma index_None {A : Type} (l : list A) (i : Z) :
  index l i = None <-> i < 0 \/ Z.of_nat (List.length l) <= i.
Proof.
  unfold index. destruct (Z.ltb_spec i 0).
  - split; [left; assumption|reflexivity].
  - rewrite nth_error_None. lia.
Qed.

Lemma covered_spec (v : View) :
  covered v = true ->
  forall lineN line colN,
    0 <= lineN < height v ->
    index (lines (buf v)) (lineN + topline v) = Some line ->
    leftCol v <= colN < leftCol v + width v ->
    0 <= colN < Z.of_nat (List.length (runes line)) ->
    matchAt (matches v) lineN colN <> None.
Proof.
  unfold covered. rewrite forallb_forall. intros H lineN line colN Hl El Hc Hr.
  specialize (H lineN). rewrite El, forallb_forall in H.
  assert (Hin : In lineN (map Z.of_nat (seq 0 (Z.to_nat (height v))))).
  { apply in_map_iff. exists (Z.to_nat lineN). split; [lia|].
    apply in_seq. lia. }
  specialize (H Hin colN).
  destruct (matchAt (matches v) lineN colN); [discriminate|].
  assert (false = true); [|discriminate].
  apply H. unfold visited. apply filter_In. split.
  - apply in_map_iff. exists (Z.to_nat colN). split; [lia|].
    apply in_seq. lia.
  - apply andb_true_iff. split; [apply Z.leb_le|apply Z.ltb_lt]; lia.
Qed.

(** The loop over the columns panics exactly when it starts left of
    column 0. *)
Lemma drawRunes_None (s : Settings) (v : View) (rs : list Z) (lineN : Z) :
  forall n colN p,
    (Syntax s = true ->
     forall c, colN <= c < colN + Z.of_nat n ->
               0 <= c < Z.of_nat (List.length rs) ->
               matchAt (matches v) lineN c <> None) ->
    (drawRunes n s v rs lineN colN p = None <-> (0 < n)%nat /\ colN < 0).
Proof.
  induction n as [|n IH]; intros colN p Hc.
  - cbn. split; [discriminate|lia].
  - cbn [drawRunes]. rewrite Z.geb_leb.
    destruct (Z.leb_spec (Z.of_nat (List.length rs)) colN) as [Hge|Hlt].
    + split; [discriminate|lia].
    + unfold drawRune.
      destruct (index rs colN) as [ch|] eqn:Ei.
      2:{ apply index_None in Ei. split; [lia|reflexivity]. }
      apply index_Some in Ei. destruct Ei as [Hi _].
      assert (Hhl : exists hl,
                 (if Syntax s then matchAt (matches v) lineN colN
                  else Some (highlightStyle p)) = Some hl).
      { destruct (Syntax s) eqn:Es; [|eexists; reflexivity].
        destruct (matchAt (matches v) lineN colN) eqn:Em; [eexists; reflexivity|].
        exfalso. apply (Hc eq_refl colN); [lia|lia|exact Em]. }
      destruct Hhl as [hl ->].
      match goal with
      | |- context [drawRunes n s v rs lineN (colN + 1) ?q] =>
          specialize (IH (colN + 1) q)
      end.
      destruct (drawRunes n s v rs lineN (colN + 1) _) as [[p2 ws']|].
      * split; [discriminate|lia].
      * exfalso.
        assert (Hn : (0 < n)%nat /\ colN + 1 < 0); [|lia].
        apply IH; [|reflexivity].
        intros Es c H1 H2. apply (Hc Es); lia.
Qed.

(** The loop over the rows panics exactly when its first row lies above
    the document, or when it draws a row in a view of positive width
    whose first column is negative. *)
Lemma drawLines_None (s : Settings) (v : View) (m : Z) :
  forall n lineN c hl,
    (Syntax s = true ->
     forall lineN' line colN,
       lineN <= lineN' < lineN + Z.of_nat n ->
       index (lines (buf v)) (lineN' + topline v) = Some line ->
       leftCol v <= colN < leftCol v + width v ->
       0 <= colN < Z.of_nat (List.length (runes line)) ->
       matchAt (matches v) lineN' colN <> None) ->
    (drawLines n s v m lineN c hl = None <->
     (0 < n)%nat /\ lineN + topline v < numLines v /\
     (lineN + topline v < 0 \/ (0 < width v /\ leftCol v < 0))).
Proof.
  induction n as [|n IH]; intros lineN c hl Hc.
  - cbn. split; [discriminate|lia].
  - cbn [drawLines]. rewrite Z.geb_leb.
    destruct (Z.leb_spec (numLines v) (lineN + topline v)) as [Hge|Hlt].
    + split; [discriminate|lia].
    + unfold drawLine.
      destruct (index (lines (buf v)) (lineN + topline v)) as [line|] eqn:Ei.
      2:{ apply index_None in Ei. unfold numLines in *.
          split; [intros _|reflexivity]. lia. }
      pose proof (index_Some _ _ _ Ei) as [Hi _].
      match goal with
      | |- context [drawRunes ?k s v ?rs lineN ?col ?q] =>
          pose proof (drawRunes_None s v rs lineN k col q) as Hr
      end.
      destruct (drawRunes _ s v (runes line) lineN (leftCol v) _) as [[p ws]|].
      * assert (Hno : ~ ((0 < Z.to_nat (width v))%nat /\ leftCol v < 0)).
        { intros Hbad. apply Hr in Hbad; [discriminate|].
          intros Es col H1 H2. apply (Hc Es lineN line); try lia. exact Ei. }
        specialize (IH (lineN + 1) (charNum p + 1) (highlightStyle p)).
        destruct (drawLines n s v m (lineN + 1) _ _) as [ws'|].
        -- split; [discriminate|lia].
        -- exfalso.
           assert (Hn : (0 < n)%nat /\ lineN + 1 + topline v < numLines v /\
                        (lineN + 1 + topline v < 0 \/
                         (0 < width v /\ leftCol v < 0))); [|lia].
           apply IH; [|reflexivity].
           intros Es lineN' line' col H1 H2 H3 H4.
           apply (Hc Es lineN' line'); try lia; assumption.
      * assert (Hbad : (0 < Z.to_nat (width v))%nat /\ leftCol v < 0).
        { apply Hr; [|reflexivity].
          intros Es col H1 H2. apply (Hc Es lineN line); try lia. exact Ei. }
        split; [intros _|reflexivity]. lia.
Qed.

(** X25.  With syntax highlighting off, or with matches that have a
    style for every rune shown, [DisplayView] panics in exactly two
    cases: in a view of positive height whose [topline] is negative,
    and in a view of positive height and width that shows a line of the
    document while [leftCol] is negative.  A [topline] at or beyond the
    end of the document draws nothing and does not panic. *)
Theorem DisplayView_panics_iff (s : Settings) (v : View) :
  (Syntax s = true -> covered v = true) ->
  (DisplayView s v = None <->
   0 < height v /\
   (topline v < 0 \/
    (topline v < numLines v /\ 0 < width v /\ leftCol v < 0))).
Proof.
  intros Hc. unfold DisplayView.
  set (v' := with_lineNumOffset (Itoa_len (numLines v) + 1) v).
  pose proof (drawLines_None s v' (Itoa_len (numLines v))
                (Z.to_nat (height v')) 0
                (ToCharPos 0 (topline v) (buf v)) zeroStyle) as H.
  destruct (drawLines _ s v' _ 0 _ _) as [ws|].
  - split; [discriminate|]. intros Hbad. exfalso.
    assert (E : Some ws = None); [|discriminate E].
    apply H.
    + intros Es lineN line colN H1 H2 H3 H4.
      apply (covered_spec v (Hc Es) lineN line colN); try assumption.
      change (height v') with (height v) in H1. lia.
    + change (height v') with (height v).
      change (topline v') with (topline v).
      change (numLines v') with (numLines v).
      change (width v') with (width v).
      change (leftCol v') with (leftCol v).
      pose proof (Zle_0_nat (List.length (lines (buf v)))).
      unfold numLines in *. lia.
  - split; [intros _|reflexivity].
    assert (E : @None (list Write) = None) by reflexivity.
    apply H in E.
    + change (height v') with (height v) in E.
      change (topline v') with (topline v) in E.
      change (numLines v') with (numLines v) in E.
      change (width v') with (width v) in E.
      change (leftCol v') with (leftCol v) in E.
      lia.
    + intros Es lineN line colN H1 H2 H3 H4.
      apply (covered_spec v (Hc Es) lineN line colN); try assumption.
      change (height v') with (height v) in H1. lia.
Qed.

(** ** The rows of a frame *)

Lemma putRunes_row (lineN : Z) (st : Style) (rs : list Z) :
  forall x0, Forall (fun w => row w = lineN) (putRunes x0 lineN rs st).
Proof.
  induction rs as [|ch rest IH]; intros x0; cbn; constructor;
    [reflexivity|apply IH].
Qed.

Lemma tabFill_row (v : View) (lineN x0 : Z) (st : Style) :
  forall n tc, Forall (fun w => row w = lineN) (fst (tabFill n v lineN x0 tc st)).
Proof.
  induction n as [|n IH]; intros tc; cbn; [constructor|].
  apply Forall_app. split; [|apply IH].
  destruct (_ >=? _); repeat constructor.
Qed.

Lemma drawRune_row (s : Settings) (v : View) (rs : list Z) (lineN colN : Z)
    (p p' : Pen) (ws : list Write) :
  drawRune s v rs lineN colN p = Some (p', ws) ->
  Forall (fun w => row w = lineN) ws /\
  (Syntax s = false -> highlightStyle p' = highlightStyle p).
Proof.
  unfold drawRune. destruct (index rs colN) as [ch|]; [|discriminate].
  destruct (Syntax s).
  - destruct (matchAt (matches v) lineN colN) as [hl|]; [|discriminate].
    intros [= <- <-]. split; [|discriminate].
    destruct (ch =? 9); cbn [fst].
    + constructor; [reflexivity|apply tabFill_row].
    + destruct (_ >=? _); repeat constructor.
  - intros [= <- <-]. split; [|reflexivity].
    destruct (ch =? 9); cbn [fst].
    + constructor; [reflexivity|apply tabFill_row].
    + destruct (_ >=? _); repeat constructor.
Qed.

Lemma drawRunes_row (s : Settings) (v : View) (rs : list Z) (lineN : Z) :
  forall n colN p p' ws,
    drawRunes n s v rs lineN colN p = Some (p', ws) ->
    Forall (fun w => row w = lineN) ws /\
    (Syntax s = false -> highlightStyle p' = highlightStyle p).
Proof.
  induction n as [|n IH]; intros colN p p' ws; cbn [drawRunes].
  - intros [= <- <-]. split; [constructor|reflexivity].
  - destruct (colN >=? _).
    + intros [= <- <-]. split; [constructor|reflexivity].
    + destruct (drawRune s v rs lineN colN p) as [[p1 ws1]|] eqn:E1;
        [|discriminate].
      destruct (drawRunes n s v rs lineN (colN + 1) p1) as [[p2 ws2]|] eqn:E2;
        [|discriminate].
      intros [= <- <-].
      destruct (drawRune_row _ _ _ _ _ _ _ _ E1) as [F1 H1].
      destruct (IH _ _ _ _ E2) as [F2 H2].
      split; [apply Forall_app; split; assumption|].
      intros Es. rewrite (H2 Es). exact (H1 Es).
Qed.

Lemma drawLine_row (s : Settings) (v : View) (m lineN c : Z) (hl : Style)
    (c' : Z) (hl' : Style) (ws : list Write) :
  drawLine s v m lineN c hl = Some (c', hl', ws) ->
  Forall (fun w => row w = lineN) ws /\
  (Syntax s = false -> hl' = hl).
Proof.
  unfold drawLine.
  destruct (index (lines (buf v)) (lineN + topline v)) as [line|]; [|discriminate].
  destruct (drawRunes _ s v (runes line) lineN (leftCol v) _) as [[p ws1]|] eqn:E;
    [|discriminate].
  intros [= <- <- <-].
  destruct (drawRunes_row _ _ _ _ _ _ _ _ _ E) as [F H].
  split; [|exact H].
  apply Forall_app. split; [apply putRunes_row|].
  apply Forall_app. split; [exact F|].
  destruct (selected _ _); repeat constructor.
Qed.

Lemma rowOf_app (lineN : Z) (a b : list Write) :
  rowOf lineN (a ++ b) = rowOf lineN a ++ rowOf lineN b.
Proof. apply filter_app. Qed.

Lemma rowOf_same (lineN : Z) (ws : list Write) :
  Forall (fun w => row w = lineN) ws -> rowOf lineN ws = ws.
Proof.
  induction 1 as [|w ws Hw _ IH]; cbn; [reflexivity|].
  rewrite Hw, Z.eqb_refl. f_equal. exact IH.
Qed.

Lemma rowOf_other (lineN : Z) (ws : list Write) :
  Forall (fun w => row w <> lineN) ws -> rowOf lineN ws = [].
Proof.
  induction 1 as [|w ws Hw _ IH]; cbn; [reflexivity|].
  destruct (Z.eqb_spec (row w) lineN); [contradiction|exact IH].
Qed.

(** The rows that the loop over the rows writes to. *)
Lemma drawLines_rows (s : Settings) (v : View) (m : Z) :
  forall n lineN c hl ws,
    drawLines n s v m lineN c hl = Some ws ->
    Forall (fun w => lineN <= row w < lineN + Z.of_nat n /\
                     row w + topline v < numLines v) ws.
Proof.
  induction n as [|n IH]; intros lineN c hl ws; cbn [drawLines].
  - intros [= <-]. constructor.
  - rewrite Z.geb_leb.
    destruct (Z.leb_spec (numLines v) (lineN + topline v)) as [Hge|Hlt].
    + intros [= <-]. constructor.
    + destruct (drawLine s v m lineN c hl) as [[[c1 hl1] ws1]|] eqn:E1;
        [|discriminate].
      destruct (drawLines n s v m (lineN + 1) c1 hl1) as [ws2|] eqn:E2;
        [|discriminate].
      intros [= <-]. apply Forall_app. split.
      * destruct (drawLine_row _ _ _ _ _ _ _ _ _ E1) as [F _].
        revert F. apply Forall_impl. intros w ->. lia.
      * generalize (IH _ _ _ _ E2). apply Forall_impl. intros w. lia.
Qed.

(** What a frame writes to one row is what the body of the loop writes
    for that row. *)
Lemma drawLines_rowOf (s : Settings) (v : View) (m : Z) :
  forall n lineN0 c0 hl0 ws,
    drawLines n s v m lineN0 c0 hl0 = Some ws ->
    forall lineN,
      lineN0 <= lineN < lineN0 + Z.of_nat n ->
      lineN + topline v < numLines v ->
      exists c hl c' hl',
        drawLine s v m lineN c hl = Some (c', hl', rowOf lineN ws) /\
        (lineN = lineN0 -> c = c0) /\
        (Syntax s = false -> hl = hl0).
Proof.
  induction n as [|n IH]; intros lineN0 c0 hl0 ws; cbn [drawLines].
  - intros _ lineN Hr. lia.
  - rewrite Z.geb_leb.
    destruct (Z.leb_spec (numLines v) (lineN0 + topline v)) as [Hge|Hlt].
    + intros _ lineN Hr Hl. lia.
    + destruct (drawLine s v m lineN0 c0 hl0) as [[[c1 hl1] ws1]|] eqn:E1;
        [|discriminate].
      destruct (drawLines n s v m (lineN0 + 1) c1 hl1) as [ws2|] eqn:E2;
        [|discriminate].
      intros [= <-] lineN Hr Hl.
      destruct (drawLine_row _ _ _ _ _ _ _ _ _ E1) as [F1 H1].
      pose proof (drawLines_rows _ _ _ _ _ _ _ _ E2) as F2.
      rewrite rowOf_app.
      destruct (Z.eq_dec lineN lineN0) as [->|Hne].
      * rewrite (rowOf_same _ _ F1), rowOf_other, List.app_nil_r.
        -- exists c0, hl0, c1, hl1. repeat split. exact E1.
        -- revert F2. apply Forall_impl. intros w. lia.
      * rewrite rowOf_other.
        2:{ revert F1. apply Forall_impl. intros w ->. lia. }
        cbn [app].
        destruct (IH _ _ _ _ E2 lineN) as (c & hl & c' & hl' & E & _ & Hh);
          [lia|exact Hl|].
        exists c, hl, c', hl'. split; [exact E|]. split; [lia|].
        intros Es. rewrite (Hh Es). exact (H1 Es).
Qed.

(** [DisplayView] row by row. *)
Lemma DisplayView_rowOf (s : Settings) (v v' : View) (ws : list Write) :
  DisplayView s v = Some (v', ws) ->
  v' = with_lineNumOffset (gutterWidth v) v /\
  forall lineN,
    0 <= lineN < height v ->
    lineN + topline v < numLines v ->
    exists c hl c' hl',
      drawLine s v' (Itoa_len (numLines v)) lineN c hl
        = Some (c', hl', rowOf lineN ws) /\
      (lineN = 0 -> c = ToCharPos 0 (topline v) (buf v)) /\
      (Syntax s = false -> hl = zeroStyle).
Proof.
  unfold DisplayView.
  destruct (drawLines _ s _ _ 0 _ _) as [ws0|] eqn:E; [|discriminate].
  intros [= <- <-]. split; [reflexivity|].
  intros lineN Hr Hl.
  apply (drawLines_rowOf _ _ _ _ _ _ _ _ E); [cbn in *; lia|exact Hl].
Qed.

(** X26.  [DisplayView] changes nothing in the view but the gutter
    width that it stores, and it writes only to rows of the viewport
    that show a line of the document: every call of
    [screen.SetContent] has a row [y] with [0 <= y < height] and
    [0 <= topline + y < lineCount].  Below the last line of a short
    document, and in a view whose height is not positive, nothing is
    drawn. *)
Theorem DisplayView_rows (s : Settings) (v v' : View) (ws : list Write) :
  DisplayView s v = Some (v', ws) ->
  v' = with_lineNumOffset (gutterWidth v) v /\
  Forall (fun w => 0 <= row w < height v /\
                   0 <= topline v + row w < numLines v) ws /\
  (height v <= 0 \/ numLines v <= topline v -> ws = []).
Proof.
  intros E. destruct (DisplayView_rowOf _ _ _ _ E) as [Hv Hrow].
  split; [exact Hv|].
  unfold DisplayView in E.
  destruct (drawLines _ s _ _ 0 _ _) as [ws0|] eqn:E0; [|discriminate].
  injection E as _ <-.
  pose proof (drawLines_rows _ _ _ _ _ _ _ _ E0) as F.
  set (v1 := with_lineNumOffset (Itoa_len (numLines v) + 1) v) in *.
  change (height v1) with (height v) in F.
  change (topline v1) with (topline v) in F.
  change (numLines v1) with (numLines v) in F.
  split.
  - rewrite Forall_forall in *. intros w Hin.
    destruct (F w Hin) as [Hr Hl].
    assert (Hh : 0 <= row w < height v) by lia.
    split; [exact Hh|]. split; [|lia].
    destruct (Hrow (row w) Hh Hl) as (c & hl & c' & hl' & Ed & _).
    unfold drawLine in Ed. rewrite Hv in Ed.
    change (lines (buf (with_lineNumOffset (gutterWidth v) v)))
      with (lines (buf v)) in Ed.
    change (topline (with_lineNumOffset (gutterWidth v) v))
      with (topline v) in Ed.
    destruct (index (lines (buf v)) (row w + topline v)) as [line|] eqn:Ei;
      [|discriminate].
    apply index_Some in Ei. lia.
  - intros Hempty. destruct ws0 as [|w rest]; [reflexivity|].
    exfalso. inversion F as [|? ? Hw _]; subst. lia.
Qed.

(** ** The gutter *)

Lemma string_of_uint_length (d : Decimal.uint) :
  String.length (NilEmpty.string_of_uint d) = Decimal.nb_digits d.
Proof. induction d; cbn; congruence. Qed.

Lemma nb_digits_succ (d : Decimal.uint) :
  (Decimal.nb_digits d <= Decimal.nb_digits (Decimal.Little.succ d))%nat.
Proof. induction d; cbn; lia. Qed.

Lemma Itoa_len_digits (n : Z) :
  0 <= n ->
  Itoa_len n =
  Z.of_nat (Decimal.nb_digits (DecimalPos.Unsigned.to_lu (Z.to_N n))).
Proof.
  intros Hn. unfold Itoa_len, Itoa. f_equal.
  destruct n as [|p|p]; [reflexivity| |lia].
  cbn. unfold NilZero.string_of_uint.
  pose proof (DecimalPos.Unsigned.to_uint_nonnil p) as Hnil.
  destruct (Pos.to_uint p) eqn:E; [congruence|..];
    rewrite string_of_uint_length, <- E;
    unfold Pos.to_uint; apply DecimalFacts.nb_digits_rev.
Qed.

(** A greater number has no fewer digits. *)
Lemma Itoa_len_mono (n m : Z) : 0 <= n <= m -> Itoa_len n <= Itoa_len m.
Proof.
  intros H. rewrite !Itoa_len_digits by lia.
  apply Nat2Z.inj_le.
  replace (Z.to_N m) with (Z.to_N n + Z.to_N (m - n))%N by lia.
  generalize (Z.to_N (m - n)) as k. generalize (Z.to_N n) as a.
  intros a k. induction k using N.peano_ind.
  - rewrite N.add_0_r. lia.
  - rewrite N.add_succ_r, DecimalPos.Unsigned.to_lu_succ.
    etransitivity; [exact IHk|apply nb_digits_succ].
Qed.

(** Ranging over bytes below 128 gives one rune for each byte. *)
Lemma rangeFrom_ascii (bs : list Z) :
  Forall (fun b => b < 128) bs ->
  forall i, map snd (rangeFrom bs i 0) = bs.
Proof.
  induction 1 as [|b bs Hb _ IH]; intros i; cbn [rangeFrom]; [reflexivity|].
  cbn [decodeRune]. destruct (Z.ltb_spec b 128); [|lia].
  cbn [fst snd map Nat.sub]. f_equal. apply IH.
Qed.

Lemma string_of_uint_ascii (d : Decimal.uint) :
  Forall (fun b => b < 128) (bytes (NilEmpty.string_of_uint d)).
Proof.
  unfold bytes. induction d; cbn; constructor;
    try assumption; try reflexivity.
Qed.

(** The decimal numeral of a number that is not negative has as many
    runes as bytes. *)
Lemma runes_Itoa (n : Z) :
  0 <= n -> Z.of_nat (List.length (runes (Itoa n))) = Itoa_len n.
Proof.
  intros Hn. unfold Itoa_len, runes, rangeString. f_equal.
  assert (Ha : Forall (fun b => b < 128) (bytes (Itoa n))).
  { unfold Itoa. destruct n as [|p|p]; [repeat constructor| |lia].
    cbn. unfold NilZero.string_of_uint.
    destruct (Pos.to_uint p) eqn:E; [repeat constructor|..];
      rewrite <- E; apply string_of_uint_ascii. }
  rewrite (rangeFrom_ascii _ Ha). unfold bytes.
  rewrite length_map.
  generalize (Itoa n) as str. induction str; cbn; congruence.
Qed.

(** The line number fills the gutter: it ends in column
    [maxLineLength + 1] when the number has no more digits than
    that. *)
Lemma drawLineNum_fills (m lineN lineNo : Z) :
  0 <= lineNo -> Itoa_len lineNo <= m ->
  snd (drawLineNum m lineN lineNo) = m + 1 /\
  List.length (fst (drawLineNum m lineN lineNo)) = Z.to_nat (m + 1).
Proof.
  intros Hn Hlen. pose proof (runes_Itoa lineNo Hn) as Hru.
  unfold drawLineNum. cbn [fst snd].
  assert (Hput : forall rs x0 st,
             List.length (putRunes x0 lineN rs st) = List.length rs).
  { induction rs as [|r rs IH]; intros x0 st; cbn; [reflexivity|].
    f_equal. apply IH. }
  rewrite Hput, !length_app, repeat_length. cbn [List.length].
  unfold Itoa_len in Hlen, Hru. lia.
Qed.

Lemma tabFill_columns (v : View) (lineN x0 : Z) (st : Style) :
  forall n tc,
    Forall (fun w => lineNumOffset v <= column w)
      (fst (tabFill n v lineN x0 tc st)) /\
    tc <= snd (tabFill n v lineN x0 tc st).
Proof.
  induction n as [|n IH]; intros tc; cbn [tabFill fst snd].
  - split; [constructor|lia].
  - destruct (IH (tc + 1)) as [F H]. split; [|lia].
    apply Forall_app. split; [|exact F].
    rewrite Z.geb_leb.
    destruct (Z.leb_spec (lineNumOffset v) (x0 - leftCol v + (tc + 1)));
      repeat constructor. exact H0.
Qed.

(** The loop over the columns never writes left of the gutter's end. *)
Lemma drawRunes_columns (s : Settings) (v : View) (rs : list Z) (lineN : Z) :
  forall n colN p p' ws,
    drawRunes n s v rs lineN colN p = Some (p', ws) ->
    lineNumOffset v <= xpos p -> 0 <= tabchars p ->
    Forall (fun w => lineNumOffset v <= column w) ws /\
    xpos p <= xpos p' /\ tabchars p <= tabchars p'.
Proof.
  induction n as [|n IH]; intros colN p p' ws; cbn [drawRunes].
  - intros [= <- <-] _ _. split; [constructor|lia].
  - destruct (colN >=? _).
    + intros [= <- <-] _ _. split; [constructor|lia].
    + destruct (drawRune s v rs lineN colN p) as [[p1 ws1]|] eqn:E1;
        [|discriminate].
      destruct (drawRunes n s v rs lineN (colN + 1) p1) as [[p2 ws2]|] eqn:E2;
        [|discriminate].
      intros [= <- <-] Hx Ht.
      assert (H1 : Forall (fun w => lineNumOffset v <= column w) ws1 /\
                   xpos p1 = xpos p + 1 /\ tabchars p <= tabchars p1).
      { unfold drawRune in E1.
        destruct (index rs colN) as [ch|]; [|discriminate].
        destruct (if Syntax s then _ else _) as [hl|]; [|discriminate].
        injection E1 as <- <-. cbn [xpos tabchars].
        destruct (ch =? 9); cbn [fst snd].
        - match goal with
          | |- context [tabFill ?k v lineN ?a ?b ?c] =>
              destruct (tabFill_columns v lineN a c k b) as [F H]
          end.
          split; [|split; [reflexivity|exact H]].
          constructor; [cbn; lia|exact F].
        - split; [|split; [reflexivity|lia]].
          rewrite Z.geb_leb.
          destruct (Z.leb_spec (lineNumOffset v)
                      (xpos p - leftCol v + tabchars p));
            repeat constructor. assumption. }
      destruct H1 as (F1 & Hx1 & Ht1).
      destruct (IH _ _ _ _ E2) as (F2 & Hx2 & Ht2); [lia|lia|].
      split; [apply Forall_app; split; assumption|lia].
Qed.

(** X27.  In every row that [DisplayView] draws, the first cells
    written are the gutter: the number of the line, counted from 1,
    right-aligned with spaces in front, and one space after it, all in
    the style of the line numbers.  The gutter fills exactly the
    columns [0] to [lineNumOffset - 1]; the runes of the line are
    written at or right of column [lineNumOffset], and so is, in a view
    that is not scrolled sideways, the cell of a selected newline. *)
Theorem DisplayView_gutter (s : Settings) (v v' : View) (ws : list Write)
    (lineN : Z) :
  DisplayView s v = Some (v', ws) ->
  0 <= lineN < height v ->
  lineN + topline v < numLines v ->
  let lineNum := Itoa (lineN + topline v + 1) in
  let pad := lineNumOffset v' - 1 - Z.of_nat (String.length lineNum) in
  let cells := repeat 32 (Z.to_nat pad) ++ runes lineNum ++ [32] in
  0 <= pad /\
  Z.of_nat (List.length cells) = lineNumOffset v' /\
  exists text nl,
    rowOf lineN ws = putRunes 0 lineN cells lineNumStyle ++ text ++ nl /\
    Forall (fun w => lineNumOffset v' <= column w) text /\
    (List.length nl <= 1)%nat /\
    (leftCol v = 0 -> Forall (fun w => lineNumOffset v' <= column w) nl).
Proof.
  intros E Hr Hl lineNum pad cells.
  destruct (DisplayView_rowOf _ _ _ _ E) as [Hv Hrow].
  destruct (Hrow lineN Hr Hl) as (c & hl & c' & hl' & Ed & _).
  assert (Hoff : lineNumOffset v' = Itoa_len (numLines v) + 1)
    by (rewrite Hv; reflexivity).
  unfold drawLine in Ed.
  assert (Ht : topline v' = topline v) by (rewrite Hv; reflexivity).
  assert (Hb : lines (buf v') = lines (buf v)) by (rewrite Hv; reflexivity).
  assert (Hc : leftCol v' = leftCol v) by (rewrite Hv; reflexivity).
  rewrite Ht, Hb in Ed.
  destruct (index (lines (buf v)) (lineN + topline v)) as [line|] eqn:Ei;
    [|discriminate].
  apply index_Some in Ei. destruct Ei as [Hi _].
  assert (Hlen : Z.of_nat (String.length lineNum) <= Itoa_len (numLines v)).
  { apply (Itoa_len_mono (lineN + topline v + 1) (numLines v)).
    unfold numLines. lia. }
  assert (Hpad : 0 <= pad) by (unfold pad; lia).
  assert (Hcells : Z.of_nat (List.length cells) = lineNumOffset v').
  { unfold cells. rewrite !length_app, repeat_length. cbn [List.length].
    pose proof (runes_Itoa (lineN + topline v + 1)) as Hru.
    fold lineNum in Hru. unfold Itoa_len in Hru. fold lineNum in Hru.
    unfold pad. lia. }
  split; [exact Hpad|]. split; [exact Hcells|].
  unfold drawLineNum in Ed. fold lineNum in Ed.
  replace (Itoa_len (numLines v) - Z.of_nat (String.length lineNum))
    with pad in Ed by (unfold pad; lia).
  fold cells in Ed. cbn [fst snd] in Ed.
  destruct (drawRunes _ s v' (runes line) lineN (leftCol v') _)
    as [[p ws1]|] eqn:Er; [|discriminate].
  injection Ed as _ _ Erow.
  destruct (drawRunes_columns _ _ _ _ _ _ _ _ _ Er) as (F & Hx & Htc);
    [cbn [xpos]; lia|cbn [tabchars]; lia|].
  cbn [xpos tabchars] in Hx, Htc.
  eexists ws1, _. split; [symmetry; exact Erow|].
  split; [exact F|]. split.
  - destruct (selected _ _); cbn; lia.
  - intros Hzero. destruct (selected _ _); repeat constructor.
    cbn. lia.
Qed.

(** ** The text of a row *)



Lemma textCells_view (s : Settings) (v v' : View) (lineN : Z) :
  cursor v' = cursor v -> matches v' = matches v ->
  forall rs colN c, textCells s v' lineN colN c rs = textCells s v lineN colN c rs.
Proof.
  intros Hc Hm. induction rs as [|ch rs IH]; intros colN c; cbn; [reflexivity|].
  unfold styleOf. rewrite Hc, Hm, IH. reflexivity.
Qed.


Lemma skipn_index {A : Type} (l : list A) (i : Z) (a : A) :
  index l i = Some a ->
  skipn (Z.to_nat i) l = a :: skipn (Z.to_nat (i + 1)) l.
Proof.
  intros E. apply index_Some in E. destruct E as [Hi E].
  replace (Z.to_nat (i + 1)) with (S (Z.to_nat i)) by lia.
  revert E. generalize (Z.to_nat i) as k. clear Hi.
  induction l as [|b l IH]; intros k E.
  - destruct k; discriminate E.
  - destruct k as [|k]; cbn in E.
    + injection E as ->. reflexivity.
    + cbn [skipn]. rewrite (IH k E). reflexivity.
Qed.

(** The style with which the body of the loop draws its rune. *)
Lemma drawRune_style (s : Settings) (v : View) (lineN colN : Z) (p : Pen)
    (hl : Style) :
  (Syntax s = false -> highlightStyle p = zeroStyle) ->
  (if Syntax s then matchAt (matches v) lineN colN
   else Some (highlightStyle p)) = Some hl ->
  (if selected (cursor v) (charNum p) then selectionStyle else hl)
  = styleOf s v lineN colN (charNum p) /\
  (Syntax s = false -> hl = zeroStyle).
Proof.
  intros Hz. unfold styleOf. destruct (Syntax s).
  - intros ->. split; [reflexivity|discriminate].
  - intros [= <-]. rewrite (Hz eq_refl). split; reflexivity.
Qed.



(** The loop over the columns on a line without tab: the runes left of
    column [2 * leftCol] are passed over, the others are written from
    the end of the gutter on. *)
Lemma drawRunes_scrolled (s : Settings) (v : View) (rs : list Z) (lineN : Z) :
  ~ In 9 rs ->
  forall n colN p p' ws,
    0 <= colN ->
    tabchars p = 0 ->
    xpos p = lineNumOffset v + (colN - leftCol v) ->
    (Syntax s = false -> highlightStyle p = zeroStyle) ->
    drawRunes n s v rs lineN colN p = Some (p', ws) ->
    let d := Z.to_nat (2 * leftCol v - colN) in
    let visitedRunes := firstn n (skipn (Z.to_nat colN) rs) in
    let shownRunes := firstn (n - d) (skipn (Z.to_nat colN + d) rs) in
    ws = putCells (lineNumOffset v + colN + Z.of_nat d - 2 * leftCol v) lineN
           (textCells s v lineN (colN + Z.of_nat d) (charNum p + Z.of_nat d)
              shownRunes) /\
    tabchars p' = 0 /\
    xpos p' = xpos p + Z.of_nat (List.length visitedRunes) /\
    charNum p' = charNum p + Z.of_nat (List.length visitedRunes).
Proof.
  intros Htab. induction n as [|n IH]; intros colN p p' ws Hc Ht Hx Hz;
    cbn [drawRunes].
  - intros [= <- <-]. cbn. repeat split; lia.
  - rewrite Z.geb_leb.
    destruct (Z.leb_spec (Z.of_nat (List.length rs)) colN) as [Hge|Hlt].
    + intros [= <- <-]. rewrite !skipn_all2 by lia.
      rewrite !firstn_nil. cbn. repeat split; lia.
    + destruct (drawRune s v rs lineN colN p) as [[p1 ws1]|] eqn:E1;
        [|discriminate].
      destruct (drawRunes n s v rs lineN (colN + 1) p1) as [[p2 ws2]|] eqn:E2;
        [|discriminate].
      intros [= <- <-].
      unfold drawRune in E1.
      destruct (index rs colN) as [ch|] eqn:Ei; [|discriminate].
      assert (Hch : (ch =? 9) = false).
      { apply Z.eqb_neq. intros ->. apply Htab.
        apply index_Some in Ei. destruct Ei as [_ Ei].
        exact (nth_error_In _ _ Ei). }
      destruct (if Syntax s then _ else _) as [hl|] eqn:Eh; [|discriminate].
      destruct (drawRune_style s v lineN colN p hl Hz Eh) as [Hst Hz1].
      rewrite Hst, Hch in E1. clear Hst. cbn [fst snd] in E1.
      injection E1 as <- <-.
      assert (Hc1 : 0 <= colN + 1) by lia.
      match type of E2 with
      | drawRunes _ _ _ _ _ _ ?q = _ =>
          assert (Ht1 : tabchars q = 0) by (cbn [tabchars snd]; exact Ht);
          assert (Hx1 : xpos q = lineNumOffset v + (colN + 1 - leftCol v))
            by (cbn [xpos]; lia);
          pose proof (IH (colN + 1) q p2 ws2 Hc1 Ht1 Hx1 Hz1 E2) as IH1
      end.
      cbn [xpos tabchars charNum highlightStyle] in IH1.
      destruct IH1 as (-> & Ht2 & Hx2 & Hc2).
      rewrite (skipn_index _ _ _ Ei). cbn [firstn List.length].
      rewrite Ht, Z.geb_leb.
      replace (xpos p - leftCol v + 0)
        with (lineNumOffset v + colN - 2 * leftCol v) by lia.
      destruct (Z.leb_spec (lineNumOffset v)
                  (lineNumOffset v + colN - 2 * leftCol v)) as [Hin|Hout].
      * replace (Z.to_nat (2 * leftCol v - colN)) with 0%nat by lia.
        replace (Z.to_nat (2 * leftCol v - (colN + 1))) with 0%nat by lia.
        rewrite !Nat.sub_0_r, !Nat.add_0_r, !Z.add_0_r.
        rewrite (skipn_index _ _ _ Ei). cbn [firstn textCells].
        unfold shown at 1. rewrite Hch. cbn [map app putCells fst snd].
        replace (lineNumOffset v + (colN + 1) - 2 * leftCol v)
          with (lineNumOffset v + colN - 2 * leftCol v + 1) by lia.
        repeat split; try lia.
      * cbn [app].
        replace (Z.to_nat (2 * leftCol v - colN))
          with (S (Z.to_nat (2 * leftCol v - (colN + 1)))) by lia.
        set (d := Z.to_nat (2 * leftCol v - (colN + 1))).
        cbn [Nat.sub].
        replace (Z.to_nat colN + S d)%nat with (Z.to_nat (colN + 1) + d)%nat
          by lia.
        replace (lineNumOffset v + colN + Z.of_nat (S d) - 2 * leftCol v)
          with (lineNumOffset v + (colN + 1) + Z.of_nat d - 2 * leftCol v)
          by lia.
        replace (colN + Z.of_nat (S d)) with (colN + 1 + Z.of_nat d) by lia.
        replace (charNum p + Z.of_nat (S d))
          with (charNum p + 1 + Z.of_nat d) by lia.
        repeat split; try lia.
Qed.

(** X29.  On a line without tab, in a view scrolled sideways to
    [leftCol], the cells that [DisplayView] writes to a row after the
    gutter are, from column [lineNumOffset] on and without gap, the
    runes of the line from column [2 * leftCol] on, [width - leftCol]
    of them at most: the loop starts at column [leftCol] and subtracts
    [leftCol] once more from the screen column, so that the runes of
    the columns [leftCol] to [2 * leftCol - 1] are passed over without
    being drawn, though they are counted.  The cell of a selected
    newline is written [leftCol] columns left of where the loop
    ended. *)
Theorem DisplayView_scrolled (s : Settings) (v v' : View) (ws : list Write)
    (lineN : Z) (line : string) :
  DisplayView s v = Some (v', ws) ->
  0 <= leftCol v ->
  0 <= lineN < height v ->
  index (lines (buf v)) (lineN + topline v) = Some line ->
  ~ In 9 (runes line) ->
  exists c,
    (lineN = 0 -> c = ToCharPos 0 (topline v) (buf v)) /\
    let off := lineNumOffset v' in
    let visitedRunes :=
      firstn (Z.to_nat (width v)) (skipn (Z.to_nat (leftCol v)) (runes line)) in
    let shownRunes :=
      firstn (Z.to_nat (width v - leftCol v))
        (skipn (Z.to_nat (2 * leftCol v)) (runes line)) in
    let text := textCells s v lineN (2 * leftCol v) (c + leftCol v) shownRunes in
    skipn (Z.to_nat off) (rowOf lineN ws) =
    putCells off lineN text ++
    (if selected (cursor v) (c + Z.of_nat (List.length visitedRunes))
     then [(off + Z.of_nat (List.length visitedRunes) - leftCol v,
            lineN, 32, selectionStyle)]
     else []).
Proof.
  intros E Hl Hr Ei Htab.
  pose proof (index_Some _ _ _ Ei) as [Hi _].
  assert (Hlt : lineN + topline v < numLines v) by (unfold numLines; lia).
  destruct (DisplayView_rowOf _ _ _ _ E) as [Hv Hrow].
  destruct (Hrow lineN Hr Hlt) as (c & hl & c' & hl' & Ed & Hc0 & Hz).
  exists c. split; [exact Hc0|]. intros off visitedRunes shownRunes text.
  assert (Hoff : off = Itoa_len (numLines v) + 1)
    by (unfold off; rewrite Hv; reflexivity).
  unfold drawLine in Ed.
  assert (Ht : topline v' = topline v) by (rewrite Hv; reflexivity).
  assert (Hb : lines (buf v') = lines (buf v)) by (rewrite Hv; reflexivity).
  assert (Hl' : leftCol v' = leftCol v) by (rewrite Hv; reflexivity).
  assert (Hw : width v' = width v) by (rewrite Hv; reflexivity).
  assert (Hcu : cursor v' = cursor v) by (rewrite Hv; reflexivity).
  assert (Hm : matches v' = matches v) by (rewrite Hv; reflexivity).
  rewrite Ht, Hb, Ei, Hw, Hl' in Ed.
  set (g := drawLineNum (Itoa_len (numLines v)) lineN (lineN + topline v + 1)) in *.
  destruct (drawLineNum_fills (Itoa_len (numLines v)) lineN
              (lineN + topline v + 1)) as [Hg1 Hg2];
    [lia|apply Itoa_len_mono; unfold numLines; lia|].
  fold g in Hg1, Hg2. rewrite <- Hoff in Hg1, Hg2.
  destruct (drawRunes _ s v' (runes line) lineN (leftCol v) _)
    as [[p ws1]|] eqn:Er; [|discriminate].
  injection Ed as _ _ Erow.
  assert (Hpre : xpos (mkPen c hl 0 (snd g)) =
                 lineNumOffset v' + (leftCol v - leftCol v'))
    by (cbn [xpos]; rewrite Hg1, Hl'; unfold off; lia).
  destruct (drawRunes_scrolled s v' (runes line) lineN Htab _ (leftCol v)
              (mkPen c hl 0 (snd g)) _ _ Hl eq_refl Hpre Hz Er)
    as (Hws & Htc & Hx & Hc).
  cbn [xpos tabchars charNum] in Hws, Hx, Hc.
  rewrite Hl' in Hws.
  replace (Z.to_nat (2 * leftCol v - leftCol v)) with (Z.to_nat (leftCol v))
    in Hws by lia.
  rewrite Z2Nat.id in Hws by lia.
  replace (Z.to_nat (leftCol v) + Z.to_nat (leftCol v))%nat
    with (Z.to_nat (2 * leftCol v)) in Hws by lia.
  replace (Z.to_nat (width v) - Z.to_nat (leftCol v))%nat
    with (Z.to_nat (width v - leftCol v)) in Hws by lia.
  fold shownRunes in Hws. fold visitedRunes in Hx, Hc.
  replace (leftCol v + leftCol v) with (2 * leftCol v) in Hws by lia.
  rewrite (textCells_view s v v' lineN Hcu Hm) in Hws.
  fold text in Hws.
  replace (lineNumOffset v' + leftCol v + leftCol v - 2 * leftCol v)
    with off in Hws by (unfold off; lia).
  rewrite <- Erow, <- Hg2, skipn_app, skipn_all, Nat.sub_diag.
  cbn [app skipn]. rewrite Hws, Hcu, Hc, Htc, Hx, Hg1, Z.add_0_r.
  reflexivity.
Qed.

End RenderingFacts.

(** * Runs on the concrete core *)

Section Runs.

#[local] Existing Instance Core.extern.
#[local] Existing Instance Core.collab.

(** Evaluate a closed statement about a concrete run. *)
Ltac by_eval :=
  vm_compute; repeat split; intros;
  try discriminate; try reflexivity; try congruence.

Ltac refute :=
  vm_compute; intuition (try discriminate; try congruence).

(** ** The concrete core on the examples of the design document *)

(** The example of the design document: in the document of the two
    lines [hello world] and [foo bar], an [X] inserted at offset 5 gives
    [helloX world]; the undo restores the text and puts the cursor back
    at offset 5. *)
Example insert_and_undo :
  let w := Core.after_ (Core.keys (repeat KeyRight 5)) Core.sessionHello in
  let w1 := Core.after_ [(0, EventKey KeyRune 88)] w in
  let w2 := Core.after_ [(0, EventKey KeyCtrlZ 0)] w1 in
  Core.Loc (buf (view w)) (cursor (view w)) = 5 /\
  lines (buf (view w1)) = ["helloX world"%string; "foo bar"%string] /\
  lines (buf (view w2)) = ["hello world"%string; "foo bar"%string] /\
  Core.Loc (buf (view w2)) (cursor (view w2)) = 5.
Proof. by_eval. Qed.

(** One undo reverts a whole run of typed characters, and the redo that
    follows brings it back. *)
Example typing_run_undone_at_once :
  let w := Core.after_ [(0, EventKey KeyRune 97); (0, EventKey KeyRune 98);
                        (0, EventKey KeyRune 99)] Core.sessionHello in
  let w1 := Core.after_ [(0, EventKey KeyCtrlZ 0)] w in
  let w2 := Core.after_ [(0, EventKey KeyCtrlY 0)] w1 in
  lines (buf (view w)) = ["abchello world"%string; "foo bar"%string] /\
  lines (buf (view w1)) = ["hello world"%string; "foo bar"%string] /\
  lines (buf (view w2)) = ["abchello world"%string; "foo bar"%string] /\
  x (cursor (view w2)) = 3.
Proof. by_eval. Qed.

(** The visual column immediately after a tab is the next multiple of
    the tab size: with tabs of 4, the tab typed in column 2 ends in
    visual column 4. *)
Example visual_column_after_tab :
  let w := Core.after_ [(0, EventKey KeyRune 97); (0, EventKey KeyRune 98);
                        (0, EventKey KeyTab 0)] Core.sessionHello in
  x (cursor (view w)) = 3 /\ cursorX Core.defaultSettings (view w) = 4.
Proof. by_eval. Qed.

(** ** Scrolling *)





Lemma PageDown_end_clamp_witness :
  let v := ScrollDown 17 (view Core.session30) in
  topline (PageDown v) = 20 /\ topline (HalfPageDown v) = 20 /\
  PageDown (view Core.sessionHello) = view Core.sessionHello.
Proof.
  intros v.
  destruct (PageDown_end_clamp v) as (Hp & Hh & _).
  destruct (PageDown_end_clamp (view Core.sessionHello)) as (_ & _ & Hs).
  split; [|split].
  - rewrite Hp; by_eval.
  - rewrite Hh; by_eval.
  - apply Hs; by_eval.
Defined.

(** The example of the design document: height 10, three lines. *)
Example PageDown_short_document :
  let v := view (Core.display (Core.open "a
b
c" 80 12 false)) in
  height v = 10 /\ numLines v = 3 /\ topline v = 0 /\ PageDown v = v.
Proof. by_eval. Qed.

(** ** The invariant *)

Lemma topline_invariant_preserved_witness :
  let v := view Core.session30end in
  toplineInv (Machine.ScrollUp 3 v) /\ toplineInv (Machine.ScrollDown 3 v) /\
  toplineInv (PageUp v) /\ toplineInv (HalfPageDown v) /\
  toplineInv (snd (Relocate Core.defaultSettings v)) /\
  toplineInv (Resize 80 10 v).
Proof.
  intros v.
  destruct (topline_invariant_preserved Core.defaultSettings v)
    as (Hs & Hp & Hr & Hz); [by_eval|].
  destruct (Hs 3) as [Hs1 Hs2]; [by_eval..|].
  destruct Hp as (Hp1 & _ & _ & Hp4); [by_eval|].
  destruct (Hz 80 10) as [_ Hz2].
  refine (conj Hs1 (conj (Hs2 _) (conj Hp1 (conj Hp4 (conj (Hr _) (Hz2 _))))));
    by_eval.
Defined.

(** C3 as stated fails: on thirty lines scrolled to the end of a view of
    height 10 ([topline = 20]), the resize to a terminal of 24 rows
    gives height 22 and leaves [topline] at 20, above
    [max(0, 30-22) = 8]. *)
Lemma Resize_breaks_topline_invariant :
  let v := view Core.session30end in
  toplineInv v /\
  topline (Resize 80 24 v) = 20 /\
  Z.max 0 (numLines (Resize 80 24 v) - height (Resize 80 24 v)) = 8 /\
  ~ toplineInv (Resize 80 24 v).
Proof.
  intros v. split; [by_eval|]. split; [reflexivity|]. split; [reflexivity|].
  unfold toplineInv.
  change (topline (Resize 80 24 v)) with 20.
  change (Z.max 0 (numLines (Resize 80 24 v) - height (Resize 80 24 v))) with 8.
  lia.
Qed.

(** The resize event as a whole does not restore it either: with the
    cursor on the last line, the closing [Relocate] finds the cursor
    visible and leaves [topline] at 20. *)
Example Resize_event_breaks_topline_invariant :
  let w := Core.after_ (Core.keys (repeat KeyDown 29)) Core.session30 in
  let w' := Core.after_ [(0, EventResize 80 24)] w in
  toplineInv (view w) /\ y (cursor (view w)) = 29 /\
  topline (view w') = 20 /\ height (view w') = 22 /\ numLines (view w') = 30.
Proof. by_eval. Qed.

(** Why the paging methods need a height that is not negative: on a
    terminal of one row the height is -1; after the wheel scrolled a
    one-line document to [topline = 2], [PageUp] calls [ScrollUp(-1)]
    and moves to 3, above [max(0, 1+1) = 2]. *)
Example PageUp_negative_height :
  let w := Core.after_ [(0, EventMouse 0 0 WheelDown)]
             (Core.display (Core.open "x" 80 1 false)) in
  height (view w) = -1 /\ topline (view w) = 2 /\ toplineInv (view w) /\
  topline (PageUp (view w)) = 3.
Proof. by_eval. Qed.

(** ** Relocation *)

Lemma Relocate_brings_cursor_into_view_witness :
  let s := Core.defaultSettings in
  let v := Core.viewWideLeft in
  lineVisible (snd (Relocate s v)) /\
  columnVisible s (snd (Relocate s v)) /\
  columnInWindow s (snd (Relocate s v)) /\
  (lineVisible v -> columnVisible s v ->
   topline (snd (Relocate s v)) = topline v /\
   leftCol (snd (Relocate s v)) = leftCol v).
Proof. apply Relocate_brings_cursor_into_view; by_eval. Defined.

(** C1 as stated fails in its second part: with the cursor in visual
    column 4, a gutter of 2 and [leftCol = 5] on a width of 10, column
    plus gutter is 6, inside [[5, 15)], and the line is visible; yet
    [Relocate] moves [leftCol] to 4. *)
Lemma Relocate_moves_inside_window :
  let s := Core.defaultSettings in
  let v := Core.viewWideLeft in
  1 <= height v /\ 0 <= y (cursor v) <= numLines v - 1 /\
  lineNumOffset v + 1 < width v /\
  lineVisible v /\ columnInWindow s v /\
  leftCol v = 5 /\ leftCol (snd (Relocate s v)) = 4.
Proof. by_eval. Qed.

(** [viewWideLeft] is the view that [HandleEvent] relocates when the
    left arrow is pressed in [sessionWide]. *)
Example viewWideLeft_reached :
  handleKey KeyLeft 0 (start Core.sessionWide) =
  Some (true, mkWorld Core.viewWideLeft (glob Core.sessionWide)).
Proof. vm_compute. reflexivity. Qed.

Lemma Relocate_true_iff_moved_witness :
  let s := Core.defaultSettings in
  let v := Core.viewWideLeft in
  fst (Relocate s v) = true /\ leftCol (snd (Relocate s v)) <> leftCol v.
Proof.
  intros s v.
  destruct (Relocate_true_iff_moved s v) as (Hiff & Hmoved & _).
  destruct Hiff as [H1 H2]; [by_eval..|].
  split; [apply H2; right; by_eval|by_eval].
Defined.

(** C9 as stated fails: on a terminal as wide as the gutter (width 2,
    gutter 2) with the cursor in column 1 and [leftCol = 2], both
    horizontal branches of [Relocate] are taken; the result is true and
    the view is the one before. *)
Lemma Relocate_true_without_move :
  let s := Core.defaultSettings in
  let v := view Core.sessionNarrow in
  width v = 2 /\ lineNumOffset v = 2 /\ leftCol v = 2 /\
  Relocate s v = (true, v).
Proof. by_eval. Qed.


(** ** Clipboard commands *)

Lemma Cut_Paste_unsupported_abort_witness :
  let w := Core.sessionNoClipboard in
  Cut w = Some (tt, afterError unsupportedMsg w) /\
  Paste w = Some (tt, afterError unsupportedMsg w).
Proof.
  intros w.
  destruct (Cut_Paste_unsupported_abort w) as [Hc Hp]; [by_eval|].
  split; [apply Hc; by_eval|exact Hp].
Defined.

(** What the messenger shows after the aborted cut. *)
Example Cut_unsupported_message :
  option_map (fun r => Core.shown (messenger (glob (snd r))))
    (Cut Core.sessionNoClipboard) =
  Some [(true, "Clipboard is not supported on your system"%string)].
Proof. vm_compute. reflexivity. Qed.

Lemma Copy_Cut_without_selection_noop_witness :
  let w := Core.sessionHello in
  Copy w = Some (tt, w) /\ Cut w = Some (tt, w).
Proof. apply Copy_Cut_without_selection_noop; by_eval. Defined.

(** ** Dirty lines *)




(** ** Clicks *)

(** A second click on the [e] of [hello], 100 ms after the first,
    selects [hello], the offsets [[0, 5)]; a third one, 100 ms later,
    selects the line, the offsets [[0, 11)]. *)
Lemma click_when_released_witness :
  (exists w',
     HandleEvent (EventMouse 4 1 Button1) Core.sessionClicked = Some (tt, w') /\
     curSelection (cursor (view w')) = (0, 5) /\
     doubleClick (view w') = true /\ tripleClick (view w') = false) /\
  (exists w',
     HandleEvent (EventMouse 4 1 Button1) Core.sessionDoubleClicked = Some (tt, w') /\
     curSelection (cursor (view w')) = (0, 11) /\
     doubleClick (view w') = false /\ tripleClick (view w') = true).
Proof.
  split.
  - destruct (click_when_released Core.sessionClicked 4 1)
      as (v1 & w' & Hres & Hev & _ & _ & _ & Hword & _ & _); [by_eval|by_eval|].
    exists w'. split; [exact Hev|].
    vm_compute in Hres. injection Hres as <-.
    destruct Hword as (-> & -> & ->); by_eval.
  - destruct (click_when_released Core.sessionDoubleClicked 4 1)
      as (v1 & w' & Hres & Hev & _ & _ & _ & _ & Hline & _); [by_eval|by_eval|].
    exists w'. split; [exact Hev|].
    vm_compute in Hres. injection Hres as <-.
    destruct Hline as (-> & -> & ->); by_eval.
Defined.

(** C5 as stated fails: after a press on the [e] of [hello] (resolved to
    line 0, column 1) and a drag to the [r] of [world], released there,
    a button-down on that [r] 200 ms after the press resolves to line 0,
    column 8, a position other than that of the previous click; it is
    taken for a double click and selects [world], the offsets
    [[6, 11)], where a single click would leave [(8, 8)]. *)
Lemma click_after_drag_selects_word :
  let w1 := Core.after_ [(Core.ms 1000, EventMouse 4 1 Button1)] Core.sessionHello in
  let w2 := Core.after_ (Core.dragged ++ [(Core.ms 1200, EventMouse 11 1 Button1)])
              Core.sessionHello in
  (x (cursor (view w1)), y (cursor (view w1))) = (1, 0) /\
  doubleClick (view w1) = false /\
  (x (cursor (view w2)), y (cursor (view w2))) = (8, 0) /\
  doubleClick (view w2) = true /\
  curSelection (cursor (view w2)) = (6, 11) /\
  curSelection (cursor (view w2)) <> (8, 8).
Proof. by_eval. Qed.

End Runs.


(** * Further runs on the concrete core *)

Section FurtherRuns.

#[local] Existing Instance Core.extern.
#[local] Existing Instance Core.collab.

Ltac by_eval :=
  vm_compute; repeat split; intros;
  try discriminate; try reflexivity; try congruence.

(** Membership in a list that is written out. *)
Ltac listed := cbn; repeat first [left; reflexivity | right].

(** ** Scrolling and paging *)

Lemma Scroll_round_trip_witness :
  let v := session30at5 in
  Machine.ScrollDown 3 (Machine.ScrollUp 3 v) = v /\
  Machine.ScrollUp 3 (Machine.ScrollDown 3 v) = v.
Proof.
  intros v. destruct (Scroll_round_trip v 3) as [H1 H2]; [by_eval..|].
  split; [apply H1|apply H2]; by_eval.
Defined.

Lemma paging_closed_form_witness :
  let v := session30at5 in
  PageUp v = with_topline (Z.max 0 (topline v - height v)) v /\
  PageDown v =
    with_topline (Z.min (topline v + height v) (numLines v - height v)) v /\
  topline (PageUp v) = 0 /\ topline (PageDown v) = 15.
Proof.
  intros v. destruct (paging_closed_form v) as (Hu & _ & Hd).
  destruct Hd as [Hd _]; [by_eval|].
  split; [exact Hu|]. split; [exact Hd|].
  rewrite Hu, Hd. by_eval.
Defined.

Lemma paging_iterated_witness :
  let v := session30at5 in
  topline (Nat.iter 3 PageUp v) = 0 /\ topline (Nat.iter 3 PageDown v) = 20.
Proof.
  intros v. destruct (paging_iterated v 3) as [Hu Hd]; [lia|by_eval|].
  split; [rewrite Hu|rewrite Hd]; by_eval.
Defined.

Lemma scrolling_moves_nothing_else_witness :
  let w := Core.session30 in
  (exists w',
     HandleEvent (EventKey KeyPgDn 0) w = Some (tt, w') /\
     unscrolled (view w') = unscrolled (view w) /\ glob w' = glob w /\
     topline (view w') = topline (scrollOf KeyPgDn (view w))) /\
  topline (scrollOf KeyPgDn (view w)) = 10.
Proof.
  intros w. destruct (scrolling_moves_nothing_else w) as [Hk _].
  split; [apply (Hk KeyPgDn 0); listed|by_eval].
Defined.

(** ** Relocation and keys *)

Lemma Relocate_twice_witness :
  let s := Core.defaultSettings in
  let v := Core.viewWideLeft in
  Relocate s (snd (Relocate s v)) = (false, snd (Relocate s v)) /\
  fst (Relocate s v) = true.
Proof.
  intros s v. split; [apply Relocate_twice; by_eval|by_eval].
Defined.

Lemma cursor_in_window_after_key_witness :
  exists w',
    HandleEvent (EventKey KeyRight 0) Core.sessionWide = Some (tt, w') /\
    lineVisible (view w') /\
    columnVisible (settings (glob w')) (view w').
Proof.
  apply cursor_in_window_after_key; [listed|by_eval..].
Defined.

Lemma quiet_events_mark_nothing_witness :
  let w := Core.sessionHello in
  let w' := Core.after_ (Core.keys [KeyRight]) w in
  HandleEvent (EventKey KeyRight 0) w = Some (tt, w') /\
  updateLines (view w') = (-2, 1).
Proof.
  intros w w'. assert (E : HandleEvent (EventKey KeyRight 0) w = Some (tt, w'))
    by (vm_compute; reflexivity).
  split; [exact E|].
  apply (quiet_events_mark_nothing (EventKey KeyRight 0) w w'); [listed|exact E].
Defined.

(** ** The mouse *)

Lemma MoveToMouseClick_lands_on_a_line_witness :
  let s := Core.defaultSettings in
  let v := view Core.sessionHello in
  exists v1,
    MoveToMouseClick s 3 40 v = Some v1 /\
    0 <= y (cursor v1) < numLines v /\
    topline v1 = topline (ScrollDown 1 v) /\
    y (cursor v1) = 1.
Proof.
  intros s v.
  destruct (MoveToMouseClick s 3 40 v) as [v1|] eqn:E.
  - exists v1. split; [reflexivity|].
    destruct (MoveToMouseClick_lands_on_a_line s 3 40 v) as [_ H].
    destruct (H v1 E) as (Hy & _ & _ & _ & _ & _ & Hbelow).
    split; [exact Hy|].
    destruct Hbelow as [Ht Hc]; [by_eval|].
    split; [exact Ht|].
    revert E. vm_compute. intros [= <-]. reflexivity.
  - exfalso. revert E. vm_compute. discriminate.
Defined.

Lemma drag_extends_selection_witness :
  let w := sessionPressed in
  exists v1 w',
    resolve w 11 1 = Some v1 /\
    HandleEvent (EventMouse 11 1 Button1) w = Some (tt, w') /\
    mouseReleased (view w') = false /\
    lastClickTime (view w') = lastClickTime (view w) /\
    doubleClick (view w') = doubleClick (view w) /\
    tripleClick (view w') = tripleClick (view w) /\
    buf (view w') = buf (view w) /\
    (tripleClick (view w) = true ->
     cursor (view w') = AddLineToSelection (settings (glob w)) (buf v1) (cursor v1)) /\
    (tripleClick (view w) = false -> doubleClick (view w) = true ->
     cursor (view w') = AddWordToSelection (settings (glob w)) (buf v1) (cursor v1)) /\
    (tripleClick (view w) = false -> doubleClick (view w) = false ->
     cursor (view w') = set_sel1 (Loc (buf v1) (cursor v1)) (cursor v1) /\
     fst (curSelection (cursor (view w'))) = fst (curSelection (cursor (view w)))).
Proof.
  intros w. apply drag_extends_selection; by_eval.
Defined.

Lemma mouse_release_witness :
  (exists w',
     HandleEvent (EventMouse 11 1 ButtonNone) Core.sessionHello = Some (tt, w') /\
     unscrolled (view w') = unscrolled (view Core.sessionHello) /\
     topline (view w') = topline (view Core.sessionHello) /\
     glob w' = glob Core.sessionHello) /\
  (exists v1 w',
     resolve sessionPressed 11 1 = Some v1 /\
     HandleEvent (EventMouse 11 1 ButtonNone) sessionPressed = Some (tt, w') /\
     mouseReleased (view w') = true /\
     cursor (view w') = set_sel1 (Loc (buf v1) (cursor v1)) (cursor v1) /\
     fst (curSelection (cursor (view w'))) =
       fst (curSelection (cursor (view sessionPressed))) /\
     topline (view w') = topline v1).
Proof.
  split.
  - destruct (mouse_release Core.sessionHello 11 1) as (H & _ & _).
    apply H. by_eval.
  - destruct (mouse_release sessionPressed 11 1) as (_ & _ & H).
    apply H; by_eval.
Defined.

(** ** Commands *)

Lemma Copy_effects_witness :
  (exists w',
     Copy sessionSelected = Some (tt, w') /\
     view w' = view sessionSelected /\
     Core.content (clipboard (glob w')) = "hello world
foo bar"%string) /\
  (exists w',
     Copy Core.sessionNoClipboard = Some (tt, w') /\
     clipboard (glob w') = clipboard (glob Core.sessionNoClipboard) /\
     messenger (glob w') =
       messenger_Error unsupportedMsg (messenger (glob Core.sessionNoClipboard))).
Proof.
  split.
  - destruct (Copy_effects sessionSelected) as (w' & E & Hv & _ & Hs & _).
    exists w'. split; [exact E|]. split; [exact Hv|].
    destruct Hs as [Hc _]; [by_eval..|]. rewrite Hc. by_eval.
  - destruct (Copy_effects Core.sessionNoClipboard) as (w' & E & _ & _ & _ & Hu).
    exists w'. split; [exact E|]. apply Hu; by_eval.
Defined.

Lemma Cut_is_Copy_then_delete_witness :
  let w := sessionSelected in
  Cut w = bind Copy (fun _ => deleteSelected) w /\
  exists w',
    Cut w = Some (tt, w') /\
    clipboard (glob w') =
      clipboard_WriteAll (GetSelection (buf (view w)) (cursor (view w)))
        (clipboard (glob w)) /\
    messenger (glob w') = messenger (glob w) /\
    aroundEditing (view w') = aroundEditing (view w).
Proof.
  intros w. apply Cut_is_Copy_then_delete; by_eval.
Defined.

Lemma Paste_keeps_clipboard_witness :
  let w := Core.sessionHello in
  exists w',
    Paste w = Some (tt, w') /\
    glob w' = glob w /\
    aroundEditing (view w') = aroundEditing (view w).
Proof.
  intros w. apply Paste_keeps_clipboard. by_eval.
Defined.

Lemma CanClose_answers_witness :
  let w := sessionUnsaved in
  CanClose "Quit? " Core.sessionHello = Some (true, Core.sessionHello) /\
  exists b,
    CanClose "Quit? " w =
      Some (b, mkWorld (view w) (with_messenger (Core.mkMessenger [] []) (glob w))) /\
    (b = true <-> false = false /\ In "Y"%string yesAnswers).
Proof.
  intros w. split.
  - destruct (CanClose_answers "Quit? " Core.sessionHello) as [H _].
    apply H. by_eval.
  - destruct (CanClose_answers "Quit? " w) as [_ H].
    apply H; by_eval.
Defined.

Lemma Save_outcomes_witness :
  let w := Core.sessionHello in
  let r := Buffer_Save (buf (view w)) (files (glob w)) in
  Save w =
    Some (tt, mkWorld (with_buf (snd (fst r)) (view w))
                (reported (fst (fst r)) (snd (fst r))
                   (with_files (snd r) (glob w)))) /\
  snd r = [("doc.txt"%string, "hello world
foo bar"%string)].
Proof.
  intros w r. destruct (Save_outcomes w) as (_ & _ & _ & H).
  split; [apply H; by_eval|by_eval].
Defined.

(** ** Sizes *)

Lemma Resize_exact_witness :
  let v := view Core.sessionHello in
  Resize 120 40 v =
    with_height ((40 - 1) * heightPercent v / 100 - 1)
      (with_width (120 * widthPercent v / 100) v) /\
  width (Resize 120 40 v) = 120 /\ height (Resize 120 40 v) = 38.
Proof.
  intros v. split; [apply Resize_exact; by_eval|by_eval].
Defined.

Lemma NewView_initial_witness :
  let g := Core.globals 80 24 false in
  let v := NewView g (NewBuffer "hello world" "doc.txt") in
  width v = 80 /\ height v = 22 /\ topline v = 0 /\ leftCol v = 0 /\
  toplineInv v /\ updateLines v = (0, 23).
Proof.
  intros g v.
  destruct (NewView_initial g (NewBuffer "hello world" "doc.txt") 80 24)
    as (Hw & Hh & Ht & Hl & Hi & Hu & _); [by_eval..|].
  refine (conj Hw (conj Hh (conj Ht (conj Hl (conj Hi _))))).
  subst v. rewrite Hu. by_eval.
Defined.

Lemma gutterWidth_bounds_witness :
  gutterWidth (view Core.session30) = 3 /\
  gutterWidth (view Core.sessionHello) = 2.
Proof.
  destruct (gutterWidth_bounds (view Core.session30)) as (_ & _ & H30 & _).
  destruct (gutterWidth_bounds (view Core.sessionHello)) as (_ & H2 & _).
  split; [apply H30|apply H2]; by_eval.
Defined.

(** ** The help screen *)

Lemma helpEvents_sizesOk : Help.sizesOk helpEvents.
Proof.
  intros w h Hin. cbn in Hin.
  repeat (destruct Hin as [E|Hin]; [try discriminate E; injection E as _ <-; lia|]).
  destruct Hin.
Qed.

Lemma helpEvents_go_on : Forall (fun e => Help.quits e = false) helpEvents.
Proof. repeat constructor. Qed.

Lemma DisplayHelp_never_panics_witness :
  Help.sizesOk helpEvents /\
  forall fr, Help.DisplayHelp (80, 24) helpEvents <> Help.Panicked fr.
Proof.
  split; [exact helpEvents_sizesOk|].
  intros fr. destruct DisplayHelp_never_panics as [H _].
  apply H; [by_eval|exact helpEvents_sizesOk].
Defined.

Lemma DisplayHelp_returns_at_first_quit_witness :
  (exists fs,
     Help.DisplayHelp (80, 24)
       (helpEvents ++ Help.EventKey Help.KeyEscape :: [Help.EventKey Help.KeyDown])
       = Help.Returned fs /\
     List.length fs = 5%nat) /\
  (exists fs st,
     Help.DisplayHelp (80, 24) helpEvents = Help.Waiting fs st /\
     List.length fs = 5%nat).
Proof.
  destruct (DisplayHelp_returns_at_first_quit (80, 24) helpEvents) as [Hq Hw];
    [by_eval|exact helpEvents_sizesOk|exact helpEvents_go_on|].
  split; [apply Hq; reflexivity|exact Hw].
Defined.

Lemma help_frame_content_witness :
  let text := ["ab"%string; "c"%string; "d"%string] in
  let st := Help.mkState 1 5 in
  exists cells,
    Help.frame text st = Some cells /\
    In (0, 0, 99) cells /\ In (0, 1, 100) cells.
Proof.
  intros text st.
  destruct (Help.frame text st) as [cells|] eqn:E.
  - exists cells. split; [reflexivity|].
    split; apply (help_frame_content text st cells E).
    + split; [by_eval|]. exists "c"%string. split; [reflexivity|]. listed.
    + split; [by_eval|]. exists "d"%string. split; [reflexivity|]. listed.
  - exfalso. revert E. vm_compute. discriminate.
Defined.

Lemma help_scroll_keys_witness :
  let text := repeat "x"%string 30 in
  let st := Help.mkState 5 10 in
  (exists st1,
     Help.step text (Help.EventKey Help.KeyUp) st = Some st1 /\
     Help.step text (Help.EventKey Help.KeyDown) st1 = Some st) /\
  (exists st1,
     Help.step text (Help.EventKey Help.KeyDown) st = Some st1 /\
     Help.step text (Help.EventKey Help.KeyUp) st1 = Some st).
Proof.
  intros text st. destruct (help_scroll_keys text st) as (_ & Hud & Hdu).
  split; [apply Hud|apply Hdu]; by_eval.
Defined.

(** ** Rendering *)

#[local] Existing Instance plainStyles.

Lemma DisplayView_panics_iff_witness :
  let s := Core.defaultSettings in
  let v := view Core.sessionHello in
  covered v = true /\
  (DisplayView s v = None <->
   0 < height v /\
   (topline v < 0 \/
    (topline v < numLines v /\ 0 < width v /\ leftCol v < 0))).
Proof.
  intros s v.
  assert (Hc : covered v = true) by (vm_compute; reflexivity).
  split; [exact Hc|].
  apply DisplayView_panics_iff. intros _. exact Hc.
Defined.

Lemma DisplayView_rows_witness :
  let s := Core.defaultSettings in
  let v := view Core.sessionHello in
  exists v' ws,
    DisplayView s v = Some (v', ws) /\
    v' = with_lineNumOffset (gutterWidth v) v /\
    Forall (fun w => 0 <= row w < height v /\
                     0 <= topline v + row w < numLines v) ws /\
    List.length ws = 22%nat.
Proof.
  intros s v.
  destruct (DisplayView s v) as [[v' ws]|] eqn:E.
  - exists v', ws. split; [reflexivity|].
    destruct (DisplayView_rows s v v' ws E) as (Hv & F & _).
    split; [exact Hv|]. split; [exact F|].
    revert E. vm_compute. intros [= _ <-]. reflexivity.
  - exfalso. revert E. vm_compute. discriminate.
Defined.

Lemma DisplayView_gutter_witness :
  let s := Core.defaultSettings in
  let v := session30at5 in
  exists v' ws text nl,
    DisplayView s v = Some (v', ws) /\
    lineNumOffset v' = 3 /\
    rowOf 3 ws = putRunes 0 3 [32; 57; 32] lineNumStyle ++ text ++ nl /\
    Forall (fun w => 3 <= column w) text.
Proof.
  intros s v.
  destruct (DisplayView s v) as [[v' ws]|] eqn:E.
  - destruct (DisplayView_gutter s v v' ws 3 E) as (_ & _ & text & nl & Hrow & F & _);
      [by_eval..|].
    assert (Hoff : lineNumOffset v' = 3).
    { revert E. vm_compute. intros [= <- _]. reflexivity. }
    exists v', ws, text, nl. split; [reflexivity|]. split; [exact Hoff|].
    rewrite Hoff in Hrow, F. split; [exact Hrow|exact F].
  - exfalso. revert E. vm_compute. discriminate.
Defined.


Lemma DisplayView_scrolled_witness :
  let s := Core.defaultSettings in
  let v := view Core.sessionWide in
  leftCol v = 5 /\ width v = 10 /\
  exists v' ws,
    DisplayView s v = Some (v', ws) /\
    skipn 2 (rowOf 0 ws) =
      [(2, 0, 107, 0); (3, 0, 108, 0); (4, 0, 109, 0); (5, 0, 110, 0);
       (6, 0, 111, 0)].
Proof.
  intros s v. split; [by_eval|]. split; [by_eval|].
  destruct (DisplayView s v) as [[v' ws]|] eqn:E.
  - exists v', ws. split; [reflexivity|].
    destruct (DisplayView_scrolled s v v' ws 0 "abcdefghijklmnopqrstuvwxyz"%string E)
      as (c & Hc & Hrow); [by_eval..| |].
    + vm_compute. intuition discriminate.
    + assert (Hoff : lineNumOffset v' = 2).
      { revert E. vm_compute. intros [= <- _]. reflexivity. }
      cbv zeta in Hrow. rewrite Hoff, (Hc eq_refl) in Hrow.
      change (Z.to_nat 2) with 2%nat in Hrow.
      rewrite Hrow. vm_compute. reflexivity.
  - exfalso. revert E. vm_compute. discriminate.
Defined.

(** ** Beyond the range of [int64] *)

(** Why the round trip needs its range: on thirty lines in a view of
    height 10 with [topline = 5], the step [-2^63] gives the difference
    [topline - n] the value [2^63 + 5], which wraps below zero;
    [ScrollUp] moves up by one line and [ScrollDown] then sets
    [topline] to [4 - 2^63]. *)
Example Scroll_round_trip_beyond_int64 :
  let v := session30at5 in
  topline v = 5 /\
  topline (Machine.ScrollUp minInt64 v) = 4 /\
  topline (Machine.ScrollDown minInt64 (Machine.ScrollUp minInt64 v))
    = -9223372036854775804.
Proof. by_eval. Qed.

(** A screen of [2^63 - 1] columns: [float32] rounds the number to
    [2^63], which no [int64] holds, and the conversion of [Resize]
    yields the smallest [int64] for the width. *)
Example Resize_beyond_int64 :
  width (Resize maxInt64 24 (view Core.sessionHello)) = minInt64.
Proof. by_eval. Qed.

End FurtherRuns.
